(** * Shoal build automation (build.py): a shallow embedding and its properties

    The script is a sequence of effects on its host: it prints lines, starts
    child processes, and reads and changes the project tree.  The embedding
    threads a [World] (project tree, process environment, trace of the
    script's own actions) through a state-and-exception monad [M].  What a
    call of [subprocess.run] leads to is given by an oracle, a variable of
    the section: the child exits, the executable is not found, or the call
    raises any other exception.  The texts that only the host knows (a path
    as text, a size, a time stamp, the serialised record, the text of an
    [OSError]) are variables of the section too.  Printing is taken to
    succeed. *)

From Stdlib Require Import ZArith String Ascii List.
From stdpp Require Import gmap strings pretty.

Local Open Scope string_scope.
Local Open Scope list_scope.
Local Open Scope Z_scope.

(** ** Python text operations used by the script *)

Module Py.

Definition LF : string := String "010"%char EmptyString.

Fixpoint join (sep : string) (parts : list string) : string :=
  match parts with
  | [] => ""
  | [p] => p
  | p :: rest => p +:+ sep +:+ join sep rest
  end.

Fixpoint repeat_char (c : ascii) (n : nat) : string :=
  match n with
  | O => EmptyString
  | S n' => String c (repeat_char c n')
  end.

(** A [str] is held in its UTF-8 form.  A character is a byte that is no
    continuation byte, with the continuation bytes (128..191) that follow
    it. *)
Definition is_cont (c : ascii) : bool :=
  let n := N_of_ascii c in ((128 <=? n) && (n <? 192))%N.

Definition starts_cont (s : string) : bool :=
  match s with
  | String c _ => is_cont c
  | EmptyString => false
  end.

(** The characters of a text, each as its bytes. *)
Fixpoint chars (s : string) : list string :=
  match s with
  | EmptyString => []
  | String c s' =>
      match chars s' with
      | ch :: rest =>
          if starts_cont ch then String c ch :: rest
          else String c EmptyString :: ch :: rest
      | [] => [String c EmptyString]
      end
  end.

(** The text of a list of characters. *)
Fixpoint text (l : list string) : string :=
  match l with
  | [] => EmptyString
  | ch :: l' => ch +:+ text l'
  end.

(** [ch.isspace()] for one character: U+0009..U+000D, U+001C..U+0020,
    U+0085, U+00A0, U+1680, U+2000..U+200A, U+2028, U+2029, U+202F,
    U+205F, U+3000. *)
Definition is_space (ch : string) : bool :=
  match map N_of_ascii (list_ascii_of_string ch) with
  | [n] => (((9 <=? n) && (n <=? 13)) || ((28 <=? n) && (n <=? 32)))%N
  | [194; n] => ((n =? 133) || (n =? 160))%N
  | [225; 154; 128] => true
  | [226; 128; n] =>
      (((128 <=? n) && (n <=? 138)) || (n =? 168) || (n =? 169) || (n =? 175))%N
  | [226; 129; 159] => true
  | [227; 128; 128] => true
  | _ => false
  end%N.

Fixpoint lstrip_chars (l : list string) : list string :=
  match l with
  | [] => []
  | ch :: l' => if is_space ch then lstrip_chars l' else l
  end.

Definition rstrip_chars (l : list string) : list string :=
  rev (lstrip_chars (rev l)).

Definition lstrip (s : string) : string := text (lstrip_chars (chars s)).

Definition rstrip (s : string) : string := text (rstrip_chars (chars s)).

(** [s.strip()] *)
Definition strip (s : string) : string := rstrip (lstrip s).

(** [s[:n]] *)
Definition take (n : nat) (s : string) : string := text (List.firstn n (chars s)).

(** [len(s)] *)
Definition len (s : string) : nat := length (chars s).

(** [bool(s)] *)
Definition truthy (s : string) : bool :=
  match s with EmptyString => false | _ => true end.

Fixpoint split_on (sep : ascii) (s : string) : list string :=
  match s with
  | EmptyString => [EmptyString]
  | String c s' =>
      if Ascii.eqb c sep then EmptyString :: split_on sep s'
      else match split_on sep s' with
           | f :: fs => String c f :: fs
           | [] => [String c EmptyString]
           end
  end.

(** [s.split()]: the maximal runs of characters that are no whitespace. *)
Fixpoint words_aux (cur : string) (l : list string) : list string :=
  match l with
  | [] => if truthy cur then [cur] else []
  | ch :: l' =>
      if is_space ch
      then (if truthy cur then cur :: words_aux EmptyString l'
            else words_aux EmptyString l')
      else words_aux (cur +:+ ch) l'
  end.

Definition words (s : string) : list string := words_aux EmptyString (chars s).

Fixpoint contains (sub s : string) : bool :=
  String.prefix sub s ||
  match s with
  | EmptyString => false
  | String _ s' => contains sub s'
  end.

End Py.

(** ** Exceptions *)

(** The classes the script can meet.  [KeyboardInterrupt] and [SystemExit]
    derive from [BaseException] only, so [except Exception] lets them
    through.  [FileNotFoundError], [FileExistsError], [NotADirectoryError],
    [IsADirectoryError] and [PermissionError] derive from [OSError];
    [OSError] itself stands for an [OSError] of no such subclass (a file
    that is no program of the host); [UnicodeDecodeError] derives from
    [ValueError]. *)
Inductive exn_class :=
| FileNotFoundError
| FileExistsError
| NotADirectoryError
| IsADirectoryError
| PermissionError
| OSError
| IndexError
| RuntimeError
| ValueError
| UnicodeDecodeError
| KeyboardInterrupt
| SystemExit.

(** An exception object: its class and [str(e)]. *)
Record exn := Exn { exn_class_of : exn_class; exn_str : string }.

Definition is_Exception (e : exn) : bool :=
  match exn_class_of e with
  | KeyboardInterrupt | SystemExit => false
  | _ => true
  end.

Inductive result (A : Type) :=
| Ok (a : A)
| Raise (e : exn).
Arguments Ok {A} a.
Arguments Raise {A} e.

(** ** The host: project tree, environment, trace *)

(** A path below the project root ([Path(__file__).parent]), as its
    components; the root itself is [[]]. *)
Definition path := list string.

Inductive node :=
| File (content : string)
| Dir.

(** What the script does that its host can see: a line printed, a call
    of [subprocess.run] with its command line, working directory and
    environment, a file written. *)
Inductive event :=
| Printed (line : string)
| Spawned (args : list string) (cwd : path) (env : gmap string string)
| Wrote (p : path) (content : string).

Record World := mkWorld {
  fs : gmap path node;
  environ : gmap string string;
  trace : list event;
}.

Definition set_fs (f : gmap path node) (w : World) : World :=
  {| fs := f; environ := environ w; trace := trace w |}.

Definition emit (e : event) (w : World) : World :=
  {| fs := fs w; environ := environ w; trace := trace w ++ [e] |}.

(** What a call of [subprocess.run] leads to.
    - [NoSuchExecutable]: [FileNotFoundError], the one fault that
      [run_command] handles (the executable is not found).
    - [Exited]: the child runs to its end and leaves a return code, its
      output as text, and the project tree as it is afterwards.
    - [Faulted]: [subprocess.run] raises another exception, and the
      project tree is [fs'] then.  The file may not be executed
      ([PermissionError]), is no program of the host ([OSError], exec
      format error), a directory on the way to it is none
      ([NotADirectoryError]), the output of the child is no text in the
      encoding of the locale ([UnicodeDecodeError], after the child has
      run), or the user interrupts ([KeyboardInterrupt]). *)
Inductive spawn_outcome :=
| NoSuchExecutable
| Exited (returncode : Z) (out err : string) (fs' : gmap path node)
| Faulted (e : exn) (fs' : gmap path node).

(** The project tree after a call of [subprocess.run] in the tree [f]. *)
Definition tree_after (o : spawn_outcome) (f : gmap path node)
    : gmap path node :=
  match o with
  | NoSuchExecutable => f
  | Exited _ _ _ fs' => fs'
  | Faulted _ fs' => fs'
  end.

(** ** The monad of the script *)

Definition M (A : Type) : Type := World -> result A * World.

Definition ret {A} (a : A) : M A := fun w => (Ok a, w).

Definition raise {A} (e : exn) : M A := fun w => (Raise e, w).

Definition bind {A B} (m : M A) (k : A -> M B) : M B :=
  fun w =>
    match m w with
    | (Ok a, w1) => k a w1
    | (Raise e, w1) => (Raise e, w1)
    end.

(** [try: m  except <the classes h answers to>: h e] *)
Definition try_except {A} (m : M A) (h : exn -> option (M A)) : M A :=
  fun w =>
    match m w with
    | (Ok a, w1) => (Ok a, w1)
    | (Raise e, w1) =>
        match h e with
        | Some k => k w1
        | None => (Raise e, w1)
        end
    end.

Declare Scope py_scope.
Delimit Scope py_scope with py.
Notation "'let*' x ':=' m 'in' k" := (bind m (fun x => k))
  (at level 10, x name, m at level 100, k at level 200) : py_scope.
Notation "'let*' ' p ':=' m 'in' k" := (bind m (fun p => k))
  (at level 10, p pattern, m at level 100, k at level 200) : py_scope.
Notation "m ';;' k" := (bind m (fun _ => k))
  (at level 100, k at level 200, right associativity) : py_scope.
Local Open Scope py_scope.

Definition when (b : bool) (m : M unit) : M unit :=
  if b then m else ret tt.

(** ** Terminal output *)

Module Colors.
Definition ESC : string := String "027"%char EmptyString.
Definition RESET : string := ESC +:+ "[0m".
Definition BOLD : string := ESC +:+ "[1m".
Definition RED : string := ESC +:+ "[91m".
Definition GREEN : string := ESC +:+ "[92m".
Definition YELLOW : string := ESC +:+ "[93m".
Definition BLUE : string := ESC +:+ "[94m".
Definition PURPLE : string := ESC +:+ "[95m".
Definition CYAN : string := ESC +:+ "[96m".
End Colors.

Definition print (line : string) : M unit :=
  fun w => (Ok tt, emit (Printed line) w).

Definition print_header (title : string) : M unit :=
  let rule := Py.repeat_char "="%char 60 in
  print (Py.LF +:+ Colors.BOLD +:+ Colors.BLUE +:+ rule +:+ Colors.RESET) ;;
  print (Colors.BOLD +:+ Colors.BLUE +:+ " " +:+ title +:+ Colors.RESET) ;;
  print (Colors.BOLD +:+ Colors.BLUE +:+ rule +:+ Colors.RESET +:+ Py.LF).

Definition print_step (step : string) : M unit :=
  print (Colors.BOLD +:+ Colors.CYAN +:+ "→" +:+ Colors.RESET +:+ " " +:+ step).

Definition print_success (message : string) : M unit :=
  print (Colors.BOLD +:+ Colors.GREEN +:+ "✓" +:+ Colors.RESET +:+ " " +:+ message).

Definition print_error (message : string) : M unit :=
  print (Colors.BOLD +:+ Colors.RED +:+ "✗" +:+ Colors.RESET +:+ " " +:+ message).

Definition print_warning (message : string) : M unit :=
  print (Colors.BOLD +:+ Colors.YELLOW +:+ "⚠" +:+ Colors.RESET +:+ " " +:+ message).

(** ** Paths and the project tree *)

(** [p / name], for a name that is a single component: every name the
    script joins is a constant or starts with "shoal-" and is built from
    an operating system and an architecture that hold no separator. *)
Definition path_join (p : path) (name : string) : path := p ++ [name].

Definition root_dir : path := [].
Definition build_dir : path := path_join root_dir "build".

(** [p.exists()] *)
Definition exists_ (p : path) : M bool :=
  fun w => (Ok (bool_decide (is_Some (fs w !! p))), w).

Definition below (p q : path) : Prop := p `prefix_of` q.

Definition parent (p : path) : path := removelast p.

(** Going down from the directory [from] by the names of [names]: the
    first name that is missing ([FileNotFoundError]) or that is no
    directory ([NotADirectoryError]) stops the way. *)
Fixpoint walk (f : gmap path node) (from : path) (names : list string)
    : option exn_class :=
  match names with
  | [] => None
  | name :: rest =>
      match f !! (from ++ [name]) with
      | Some Dir => walk f (from ++ [name]) rest
      | Some (File _) => Some NotADirectoryError
      | None => Some FileNotFoundError
      end
  end.

(** What keeps the path [p] from being a directory one can go into. *)
Definition dir_fault (f : gmap path node) (p : path) : option exn_class :=
  walk f root_dir p.

Definition is_dir_in (f : gmap path node) (p : path) : bool :=
  match dir_fault f p with
  | None => true
  | Some _ => false
  end.

(** File name patterns of [rglob]: [*] stands for any run of characters,
    [?] for one, anything else for itself. *)
Fixpoint glob_match (pat s : string) : bool :=
  match pat with
  | EmptyString => negb (Py.truthy s)
  | String "*" pat' =>
      (fix star (s : string) : bool :=
         glob_match pat' s ||
         match s with
         | EmptyString => false
         | String _ s' => star s'
         end) s
  | String "?" pat' =>
      match s with
      | EmptyString => false
      | String _ s' => glob_match pat' s'
      end
  | String c pat' =>
      match s with
      | EmptyString => false
      | String d s' => Ascii.eqb c d && glob_match pat' s'
      end
  end.

(** An entry that [root.rglob(pattern)] yields and that [is_file]. *)
Definition rglob_file (pattern : string) (e : path * node) : Prop :=
  match e.2, last e.1 with
  | File _, Some name => glob_match pattern name = true
  | _, _ => False
  end.

#[local] Instance rglob_file_dec pattern e : Decision (rglob_file pattern e).
Proof.
  unfold rglob_file. destruct e.2; [destruct (last e.1)|]; apply _.
Defined.

(** [for file_path in root.rglob(pattern): if file_path.is_file():
    file_path.unlink()] *)
Definition unlink_matching (pattern : string) : M unit :=
  fun w => (Ok tt, set_fs (filter (fun e => ¬ rglob_file pattern e) (fs w)) w).

(** The calls of the script that the file system can refuse. *)
Inductive fs_call :=
| Mkdir
| Rmtree
| Unlink
| WriteText
| Stat.

(** ** The build record *)

(** The dictionary that [generate_build_info] fills. *)
Record BuildInfo := mkBuildInfo {
  bi_timestamp : string;
  bi_go_version : string;
  bi_git_commit : string;
  bi_git_branch : string;
  bi_git_dirty : bool;
  bi_platform : string;
  bi_architecture : string;
}.

(** A named step of the validation pipeline. *)
Record Step := mkStep {
  step_name : string;
  step_func : M bool;
}.

Section BuildRunner.

(** *** What the host decides *)

(** The outcome of [subprocess.run] for a command line, a working
    directory and the environment handed to the child, in a given world. *)
Variable os_spawn :
  World -> list string -> path -> gmap string string -> spawn_outcome.

(** [platform.system()], [platform.machine()] *)
Variable platform_system : string.
Variable platform_machine : string.

(** [time.strftime("%Y-%m-%d %H:%M:%S UTC", time.gmtime())] *)
Variable utc_now : World -> string.

(** [str(p)] for a path of the project. *)
Variable path_str : path -> string.

(** [f"{p.stat().st_size / (1024 * 1024):.1f}"] for what is at [p]. *)
Variable size_mb : node -> string.

(** [json.dumps(build_info, indent=2)] *)
Variable json_dumps : BuildInfo -> string.

(** [str(e)] for the [OSError] of a class that a call raises on a path:
    the error number and message of the host and the path as the call
    shows it, as in "[Errno 17] File exists: '/repo/build'". *)
Variable os_error_str : fs_call -> exn_class -> path -> string.

(** *** Calls that the file system can refuse *)

Definition refused {A} (call : fs_call) (c : exn_class) (p : path) : M A :=
  raise (Exn c (os_error_str call c p)).

(** [p.mkdir(exist_ok=True)]: nothing to do on a directory, refused on
    anything else that has the name. *)
Definition mkdir_exist_ok (p : path) : M unit :=
  fun w =>
    match fs w !! p with
    | None => (Ok tt, set_fs (<[p := Dir]> (fs w)) w)
    | Some Dir => (Ok tt, w)
    | Some (File _) => refused Mkdir FileExistsError p w
    end.

(** [shutil.rmtree(p)]: the directory and all that is below it. *)
Definition rmtree (p : path) : M unit :=
  fun w =>
    match fs w !! p with
    | Some Dir =>
        (Ok tt, set_fs (filter (fun e => ¬ below p e.1) (fs w)) w)
    | Some (File _) => refused Rmtree NotADirectoryError p w
    | None => refused Rmtree FileNotFoundError p w
    end.

(** [p.unlink()] *)
Definition unlink (p : path) : M unit :=
  fun w =>
    match fs w !! p with
    | Some (File _) => (Ok tt, set_fs (delete p (fs w)) w)
    | Some Dir => refused Unlink IsADirectoryError p w
    | None => refused Unlink FileNotFoundError p w
    end.

(** [p.write_text(content)]: the way to the directory of [p] has to be
    there, and [p] itself may not be a directory. *)
Definition write_text (p : path) (content : string) : M unit :=
  fun w =>
    match dir_fault (fs w) (parent p) with
    | Some c => refused WriteText c p w
    | None =>
        match fs w !! p with
        | Some Dir => refused WriteText IsADirectoryError p w
        | _ =>
            (Ok tt,
             emit (Wrote p content) (set_fs (<[p := File content]> (fs w)) w))
        end
    end.

(** *** Running one command *)

(** [subprocess.run(args, cwd=cwd, capture_output=True, text=True,
    check=False)], with the optional [env]: a child that is given no
    environment inherits the one of the script. *)
Definition subprocess_run (args : list string) (cwd : path)
    (env : option (gmap string string)) : M (Z * string * string) :=
  fun w =>
    match args with
    | [] => (Raise (Exn IndexError "list index out of range"), w)
    | exe :: _ =>
        let child_env := default (environ w) env in
        let w1 := emit (Spawned args cwd child_env) w in
        match os_spawn w args cwd child_env with
        | NoSuchExecutable =>
            (Raise (Exn FileNotFoundError
                      ("[Errno 2] No such file or directory: '" +:+ exe +:+ "'")),
             w1)
        | Exited rc out err fs' => (Ok (rc, out, err), set_fs fs' w1)
        | Faulted e fs' => (Raise e, set_fs fs' w1)
        end
    end.

(** [cmd[0]] *)
Definition first_arg (cmd : list string) : M string :=
  match cmd with
  | c :: _ => ret c
  | [] => raise (Exn IndexError "list index out of range")
  end.

Definition run_command (cmd : list string) (cwd : option path)
    (check : bool) : M (Z * string * string) :=
  try_except
    (let* '(returncode, stdout, stderr) :=
       subprocess_run cmd (default root_dir cwd) None in
     when (check && negb (returncode =? 0))
       (print_error ("Command failed: " +:+ Py.join " " cmd) ;;
        when (Py.truthy stdout) (print ("STDOUT:" +:+ Py.LF +:+ stdout)) ;;
        when (Py.truthy stderr) (print ("STDERR:" +:+ Py.LF +:+ stderr))) ;;
     ret (returncode, stdout, stderr))
    (fun e =>
       match exn_class_of e with
       | FileNotFoundError =>
           Some (let* c := first_arg cmd in
                 print_error ("Command not found: " +:+ c) ;;
                 let* c := first_arg cmd in
                 ret (1, "", "Command not found: " +:+ c))
       | _ => None
       end).

(** *** The runner *)

(** [self.binary_name] *)
Definition binary_name : string :=
  if String.eqb platform_system "Windows" then "shoal.exe" else "shoal".

Definition SUPPORTED_PLATFORMS : list (string * string) :=
  [ ("linux", "amd64");
    ("windows", "amd64");
    ("darwin", "amd64");
    ("linux", "arm64");
    ("darwin", "arm64") ].

(** The name of the artifact of a platform. *)
Definition platform_binary_name (goos goarch : string) : string :=
  let ext := if String.eqb goos "windows" then ".exe" else "" in
  "shoal-" +:+ goos +:+ "-" +:+ goarch +:+ ext.

(** The compiler's command line for an output path. *)
Definition go_build_cmd (binary_path : path) : list string :=
  [ "go"; "build";
    "-ldflags"; "-s -w -extldflags=-static";
    "-tags"; "netgo,osusergo";
    "-o"; path_str binary_path;
    "./cmd/shoal" ].

(** [p.stat().st_size], formatted; [stat] on a missing path raises. *)
Definition stat_size_mb (p : path) : M string :=
  fun w =>
    match fs w !! p with
    | Some n => (Ok (size_mb n), w)
    | None => refused Stat FileNotFoundError p w
    end.

Definition build_for_platform (goos goarch : string) : M bool :=
  print_step ("Building for " +:+ goos +:+ "/" +:+ goarch) ;;
  mkdir_exist_ok build_dir ;;
  let binary_path := path_join build_dir (platform_binary_name goos goarch) in
  fun w =>
    (* a copy of the environment with the target in it; the copy is
       local to this call and is handed to nothing *)
    let env := <["GOARCH" := goarch]> (<["GOOS" := goos]> (environ w)) in
    (let* '(ret_code, _, _) := run_command (go_build_cmd binary_path) None true in
     let* present := exists_ binary_path in
     if negb (ret_code =? 0) || negb present then
       print_error ("Failed to build for " +:+ goos +:+ "/" +:+ goarch) ;;
       ret false
     else
       let* size := stat_size_mb binary_path in
       print_success ("Built: " +:+ path_str binary_path +:+ " (" +:+ size +:+ " MB)") ;;
       ret true) w.

(** The loop of [build_all_platforms], with its accumulator. *)
Fixpoint build_each (platforms : list (string * string)) (all_ok : bool)
    : M bool :=
  match platforms with
  | [] => ret all_ok
  | (goos, goarch) :: rest =>
      let* ok := build_for_platform goos goarch in
      build_each rest (all_ok && ok)
  end.

Definition build_all_platforms : M bool :=
  print_header "Building for all supported platforms" ;;
  build_each SUPPORTED_PLATFORMS true.

Definition check_prerequisites : M bool :=
  print_step "Checking prerequisites" ;;
  let* '(ret_code, stdout, _) := run_command ["go"; "version"] None false in
  if negb (ret_code =? 0) then
    print_error "Go is not installed or not in PATH" ;;
    ret false
  else
    let go_version := Py.strip stdout in
    print_success ("Found " +:+ go_version) ;;
    let* go_mod := exists_ (path_join root_dir "go.mod") in
    if negb go_mod then
      print_error "go.mod not found - not in a Go module directory" ;;
      ret false
    else
      print_success "All prerequisites met" ;;
      ret true.

Definition test_artifacts : list string :=
  [ "coverage.out"; "coverage.html"; "coverage.txt";
    "*.test"; "*.db"; "*.sqlite"; "*.sqlite3" ].

Fixpoint unlink_each (patterns : list string) : M unit :=
  match patterns with
  | [] => ret tt
  | pattern :: rest => unlink_matching pattern ;; unlink_each rest
  end.

Definition clean : M bool :=
  print_step "Cleaning build artifacts" ;;
  let* build_there := exists_ build_dir in
  when build_there
    (rmtree build_dir ;;
     print_success "Removed build directory") ;;
  let binary_path := path_join root_dir binary_name in
  let* binary_there := exists_ binary_path in
  when binary_there
    (unlink binary_path ;;
     print_success ("Removed " +:+ binary_name)) ;;
  unlink_each test_artifacts ;;
  print_success "Cleaned test artifacts" ;;
  ret true.

Definition download_dependencies : M bool :=
  print_step "Downloading dependencies" ;;
  let* '(ret_code, _, _) := run_command ["go"; "mod"; "download"] None true in
  if negb (ret_code =? 0) then ret false
  else
    let* '(ret_code, _, _) := run_command ["go"; "mod"; "verify"] None true in
    if negb (ret_code =? 0) then
      print_error "Dependency verification failed" ;;
      ret false
    else
      print_success "Dependencies downloaded and verified" ;;
      ret true.

Definition format_code : M bool :=
  print_step "Formatting Go code" ;;
  let* '(ret_code, _, _) := run_command ["go"; "fmt"; "./..."] None true in
  if negb (ret_code =? 0) then ret false
  else
    print_success "Code formatted" ;;
    ret true.

Definition lint_code : M bool :=
  print_step "Linting code" ;;
  let* '(ret_code, _, _) := run_command ["golangci-lint"; "--version"] None false in
  if ret_code =? 0 then
    let* '(ret_code, _, _) := run_command ["golangci-lint"; "run"] None true in
    if negb (ret_code =? 0) then ret false
    else
      print_success "Linting passed (golangci-lint)" ;;
      ret true
  else
    let* '(ret_code, _, _) := run_command ["go"; "vet"; "./..."] None true in
    if negb (ret_code =? 0) then ret false
    else
      print_success "Static analysis passed (go vet)" ;;
      ret true.

(** [for line in lines: if 'total:' in line: ...; break] *)
Fixpoint report_total_coverage (lines : list string) : M unit :=
  match lines with
  | [] => ret tt
  | line :: rest =>
      if Py.contains "total:" line then
        match last (Py.words line) with
        | Some coverage => print_success ("Test coverage: " +:+ coverage)
        | None => raise (Exn IndexError "list index out of range")
        end
      else report_total_coverage rest
  end.

Definition run_tests (with_coverage : bool) : M bool :=
  print_step "Running tests" ;;
  let cmd := ["go"; "test"]
             ++ (if with_coverage then ["-coverprofile=coverage.out"] else [])
             ++ ["-v"; "./..."] in
  let* '(ret_code, stdout, stderr) := run_command cmd None true in
  if negb (ret_code =? 0) then ret false
  else
    print_success "All tests passed" ;;
    let* profile :=
      (if with_coverage then exists_ (path_join root_dir "coverage.out")
       else ret false) in
    when profile
      (let* '(ret_code, coverage_output, _) :=
         run_command ["go"; "tool"; "cover"; "-func=coverage.out"] None false in
       when (ret_code =? 0)
         (report_total_coverage
            (Py.split_on "010"%char (Py.strip coverage_output)) ;;
          run_command
            ["go"; "tool"; "cover"; "-html=coverage.out"; "-o"; "coverage.html"]
            None false ;;
          let* html := exists_ (path_join root_dir "coverage.html") in
          when html
            (print_success "Coverage report generated: coverage.html"))) ;;
    ret true.

Definition build_binary : M bool :=
  print_step "Building application" ;;
  mkdir_exist_ok build_dir ;;
  let binary_path := path_join build_dir binary_name in
  let* '(ret_code, _, _) := run_command (go_build_cmd binary_path) None true in
  if negb (ret_code =? 0) then ret false
  else
    let* present := exists_ binary_path in
    if negb present then
      print_error "Binary was not created" ;;
      ret false
    else
      let* size := stat_size_mb binary_path in
      print_success ("Binary built: " +:+ path_str binary_path
                     +:+ " (" +:+ size +:+ " MB)") ;;
      let* '(ret_code, _, _) :=
        run_command [path_str binary_path; "-h"] None false in
      (if ret_code =? 0 then print_success "Binary execution test passed"
       else print_warning "Binary execution test failed (may be normal)") ;;
      ret true.

Definition run_security_checks : M bool :=
  print_step "Running security checks" ;;
  let* '(ret_code, _, _) := run_command ["gosec"; "-version"] None false in
  if ret_code =? 0 then
    let* '(ret_code, _, _) := run_command ["gosec"; "./..."] None true in
    if negb (ret_code =? 0) then
      print_warning "Security scan found issues" ;;
      ret false
    else
      print_success "Security scan passed" ;;
      ret true
  else
    print_warning "gosec not available - skipping security scan" ;;
    ret true.

Definition build_info_path : path := path_join build_dir "build-info.json".

Definition generate_build_info : M BuildInfo :=
  let* '(ret_code, stdout, _) :=
    run_command ["git"; "rev-parse"; "HEAD"] None false in
  let git_commit :=
    if ret_code =? 0 then Py.take 8 (Py.strip stdout) else "unknown" in
  let* '(ret_code, stdout, _) :=
    run_command ["git"; "branch"; "--show-current"] None false in
  let git_branch := if ret_code =? 0 then Py.strip stdout else "unknown" in
  let* '(ret_code, stdout, _) :=
    run_command ["git"; "status"; "--porcelain"] None false in
  let git_dirty :=
    if ret_code =? 0 then Py.truthy (Py.strip stdout) else false in
  let* '(ret_code, go_version, _) :=
    run_command ["go"; "version"] None false in
  let go_version := if ret_code =? 0 then Py.strip go_version else "unknown" in
  fun w =>
    let build_info :=
      {| bi_timestamp := utc_now w;
         bi_go_version := go_version;
         bi_git_commit := git_commit;
         bi_git_branch := git_branch;
         bi_git_dirty := git_dirty;
         bi_platform := platform_system;
         bi_architecture := platform_machine |} in
    (write_text build_info_path (json_dumps build_info) ;;
     ret build_info) w.

(** The steps of [validate], in their order. *)
Definition steps : list Step :=
  [ mkStep "Prerequisites" check_prerequisites;
    mkStep "Dependencies" download_dependencies;
    mkStep "Format" format_code;
    mkStep "Lint" lint_code;
    mkStep "Tests" (run_tests true);
    mkStep "Security" run_security_checks;
    mkStep "Build" build_binary ].

(** The loop of [validate] over a list of steps: [Ok false] when the loop
    returned [False], [Ok true] when it ran to its end. *)
Fixpoint run_steps (todo : list Step) : M bool :=
  match todo with
  | [] => ret true
  | s :: rest =>
      fun w =>
        match step_func s w with
        | (Ok true, w1) => run_steps rest w1
        | (Ok false, w1) =>
            (print_error ("Step '" +:+ step_name s +:+ "' failed") ;;
             ret false) w1
        | (Raise e, w1) =>
            if is_Exception e then
              (print_error ("Step '" +:+ step_name s
                            +:+ "' failed with exception: " +:+ exn_str e) ;;
               ret false) w1
            else (Raise e, w1)
        end
  end.

(** The body of [validate] after its header, for a list of steps. *)
Definition run_pipeline (todo : list Step) : M bool :=
  let* finished := run_steps todo in
  if finished then
    let* build_info := generate_build_info in
    print_success "Build info generated" ;;
    ret true
  else ret false.

Definition validate : M bool :=
  print_header "Shoal Build & Test Validation" ;;
  run_pipeline steps.

(** ** Reading a trace *)

(** The command lines handed to [subprocess.run], in order. *)
Fixpoint spawns (t : list event) : list (list string) :=
  match t with
  | [] => []
  | Spawned args _ _ :: t' => args :: spawns t'
  | _ :: t' => spawns t'
  end.

(** The environments handed to the children started, in order. *)
Fixpoint child_envs (t : list event) : list (gmap string string) :=
  match t with
  | [] => []
  | Spawned _ _ env :: t' => env :: child_envs t'
  | _ :: t' => child_envs t'
  end.

(** The contents written to the build record, in order. *)
Fixpoint records (t : list event) : list string :=
  match t with
  | [] => []
  | Wrote p content :: t' =>
      if bool_decide (p = build_info_path) then content :: records t'
      else records t'
  | _ :: t' => records t'
  end.

(** A trace without the lines printed. *)
Fixpoint silent (t : list event) : list event :=
  match t with
  | [] => []
  | Printed _ :: t' => silent t'
  | e :: t' => e :: silent t'
  end.

(** Two worlds that differ at most in what was printed. *)
Definition same_but_prints (w1 w2 : World) : Prop :=
  fs w1 = fs w2 /\ environ w1 = environ w2 /\
  silent (trace w1) = silent (trace w2).

(** The line [print_error] prints. *)
Definition error_line (message : string) : string :=
  Colors.BOLD +:+ Colors.RED +:+ "✗" +:+ Colors.RESET +:+ " " +:+ message.

(** The line [print_success] prints. *)
Definition success_line (message : string) : string :=
  Colors.BOLD +:+ Colors.GREEN +:+ "✓" +:+ Colors.RESET +:+ " " +:+ message.

(** The steps of [pre] run one after the other from [w], each returns
    [True], and they leave [w']. *)
Fixpoint passes (pre : list Step) (w w' : World) : Prop :=
  match pre with
  | [] => w' = w
  | s :: rest =>
      exists w1, step_func s w = (Ok true, w1) /\ passes rest w1 w'
  end.

(** The loop of [validate] with a log of the steps it calls. *)
Fixpoint run_steps_logged (todo : list Step) (w : World)
    : (result bool * World) * list string :=
  match todo with
  | [] => (ret true w, [])
  | s :: rest =>
      match step_func s w with
      | (Ok true, w1) =>
          let '(r, called) := run_steps_logged rest w1 in
          (r, step_name s :: called)
      | (Ok false, w1) =>
          ((print_error ("Step '" +:+ step_name s +:+ "' failed") ;;
            ret false) w1,
           [step_name s])
      | (Raise e, w1) =>
          (if is_Exception e then
             (print_error ("Step '" +:+ step_name s
                           +:+ "' failed with exception: " +:+ exn_str e) ;;
              ret false) w1
           else (Raise e, w1),
           [step_name s])
      end
  end.

(** The names of the steps that [run_steps] calls from [w]. *)
Definition invoked (todo : list Step) (w : World) : list string :=
  (run_steps_logged todo w).2.

(** *** Properties of [run_command] *)

Lemma silent_app (t1 t2 : list event) :
  silent (t1 ++ t2) = silent t1 ++ silent t2.
Proof.
  induction t1 as [|e t1 IH]; simpl; [reflexivity|].
  destruct e; simpl; rewrite ?IH; reflexivity.
Qed.

Lemma spawns_app (t1 t2 : list event) :
  spawns (t1 ++ t2) = spawns t1 ++ spawns t2.
Proof.
  induction t1 as [|e t1 IH]; simpl; [reflexivity|].
  destruct e; simpl; rewrite ?IH; reflexivity.
Qed.

Lemma child_envs_app (t1 t2 : list event) :
  child_envs (t1 ++ t2) = child_envs t1 ++ child_envs t2.
Proof.
  induction t1 as [|e t1 IH]; simpl; [reflexivity|].
  destruct e; simpl; rewrite ?IH; reflexivity.
Qed.

Lemma records_app (t1 t2 : list event) :
  records (t1 ++ t2) = records t1 ++ records t2.
Proof.
  induction t1 as [|e t1 IH]; simpl; [reflexivity|].
  destruct e; simpl; rewrite ?IH; try reflexivity.
  case_bool_decide; simpl; congruence.
Qed.

Lemma same_but_prints_refl (w : World) : same_but_prints w w.
Proof. repeat split. Qed.

Lemma same_but_prints_print (line : string) (w1 w2 : World) :
  same_but_prints w1 w2 -> same_but_prints (emit (Printed line) w1) w2.
Proof.
  intros (Hf & He & Ht). repeat split; simpl; auto.
  rewrite silent_app. simpl. rewrite app_nil_r. exact Ht.
Qed.

(** The diagnostics of a checked command that failed. *)
Definition diagnostics (cmd : list string) (rc : Z) (out err : string)
    (w : World) : World :=
  let w1 := emit (Printed (error_line ("Command failed: " +:+ Py.join " " cmd))) w in
  let w2 := if Py.truthy out
            then emit (Printed ("STDOUT:" +:+ Py.LF +:+ out)) w1 else w1 in
  if Py.truthy err then emit (Printed ("STDERR:" +:+ Py.LF +:+ err)) w2 else w2.

(** What [run_command] does, by the outcome of the start of the child. *)
Lemma run_command_unfold (exe : string) (rest : list string)
    (cwd : option path) (check : bool) (w : World) :
  let cmd := exe :: rest in
  let started := emit (Spawned cmd (default root_dir cwd) (environ w)) w in
  run_command cmd cwd check w =
  match os_spawn w cmd (default root_dir cwd) (environ w) with
  | NoSuchExecutable =>
      (Ok (1, "", "Command not found: " +:+ exe),
       emit (Printed (error_line ("Command not found: " +:+ exe))) started)
  | Exited rc out err fs' =>
      (Ok (rc, out, err),
       if check && negb (rc =? 0)
       then diagnostics cmd rc out err (set_fs fs' started)
       else set_fs fs' started)
  | Faulted e fs' =>
      match exn_class_of e with
      | FileNotFoundError =>
          (Ok (1, "", "Command not found: " +:+ exe),
           emit (Printed (error_line ("Command not found: " +:+ exe)))
             (set_fs fs' started))
      | _ => (Raise e, set_fs fs' started)
      end
  end.
Proof.
  intros cmd started. unfold run_command, try_except, bind, subprocess_run.
  subst cmd started. simpl.
  destruct (os_spawn w (exe :: rest) (default root_dir cwd) (environ w))
    as [|rc out err fs'|e fs']; simpl; [reflexivity| |].
  - destruct (check && negb (rc =? 0)); simpl; [|reflexivity].
    unfold diagnostics, when, print_error, print, ret, error_line; simpl.
    destruct (Py.truthy out), (Py.truthy err); reflexivity.
  - destruct (exn_class_of e); reflexivity.
Qed.

Lemma diagnostics_same_but_prints cmd rc out err w :
  same_but_prints (diagnostics cmd rc out err w) w.
Proof.
  unfold diagnostics.
  destruct (Py.truthy out), (Py.truthy err);
    repeat apply same_but_prints_print; apply same_but_prints_refl.
Qed.

(** C10: the value that [run_command] returns is the same with
    [check=True] and with [check=False], whatever becomes of the child
    (zero exit, nonzero exit, executable not found, another fault of
    [subprocess.run], or no command at all); the two runs leave worlds
    that differ at most in the lines printed. *)
Theorem run_command_check_only_prints :
  forall (cmd : list string) (cwd : option path) (w : World),
    (run_command cmd cwd true w).1 = (run_command cmd cwd false w).1 /\
    same_but_prints (run_command cmd cwd true w).2
                    (run_command cmd cwd false w).2.
Proof.
  intros [|exe rest] cwd w.
  - split; [reflexivity|apply same_but_prints_refl].
  - rewrite !run_command_unfold.
    destruct (os_spawn w (exe :: rest) (default root_dir cwd) (environ w))
      as [|rc out err fs'|e fs']; simpl.
    + split; [reflexivity|apply same_but_prints_refl].
    + split; [reflexivity|].
      destruct (negb (rc =? 0)); simpl.
      * apply diagnostics_same_but_prints.
      * apply same_but_prints_refl.
    + split; [reflexivity|apply same_but_prints_refl].
Qed.

(** C5: when the executable of a non-empty command is not found,
    [run_command] raises nothing: it returns the triple
    [(1, "", "Command not found: <executable>")] and prints that message
    as an error.  The triple is the one an ordinary run of the command
    returns when the child exits with 1, an empty stdout and that text on
    stderr. *)
Theorem run_command_missing_executable :
  forall (exe : string) (rest : list string) (cwd : option path)
         (check : bool) (w : World),
    os_spawn w (exe :: rest) (default root_dir cwd) (environ w)
      = NoSuchExecutable ->
    run_command (exe :: rest) cwd check w =
      (Ok (1, "", "Command not found: " +:+ exe),
       emit (Printed (error_line ("Command not found: " +:+ exe)))
         (emit (Spawned (exe :: rest) (default root_dir cwd) (environ w)) w))
    /\
    forall (w2 : World) (fs2 : gmap path node),
      os_spawn w2 (exe :: rest) (default root_dir cwd) (environ w2)
        = Exited 1 "" ("Command not found: " +:+ exe) fs2 ->
      (run_command (exe :: rest) cwd check w2).1
        = (run_command (exe :: rest) cwd check w).1.
Proof.
  intros exe rest cwd check w Hmiss. rewrite run_command_unfold, Hmiss.
  split; [reflexivity|].
  intros w2 fs2 Hexit. rewrite run_command_unfold, Hexit. reflexivity.
Qed.

(** *** Properties of the step loop *)

Lemma run_steps_logged_erase (todo : list Step) (w : World) :
  (run_steps_logged todo w).1 = run_steps todo w.
Proof.
  revert w. induction todo as [|s rest IH]; intros w; simpl; [reflexivity|].
  destruct (step_func s w) as [[[|]|e] w1]; simpl; try reflexivity.
  specialize (IH w1). destruct (run_steps_logged rest w1). exact IH.
Qed.

Lemma run_steps_logged_pass (pre rest : list Step) (w wk : World) :
  passes pre w wk ->
  run_steps_logged (pre ++ rest) w =
    ((run_steps_logged rest wk).1,
     map step_name pre ++ (run_steps_logged rest wk).2).
Proof.
  revert w. induction pre as [|s pre IH]; intros w Hp; simpl in *.
  - subst wk. destruct (run_steps_logged rest w); reflexivity.
  - destruct Hp as (w1 & Hs & Hp). rewrite Hs, (IH _ Hp). reflexivity.
Qed.

Lemma run_steps_pass (pre rest : list Step) (w wk : World) :
  passes pre w wk -> run_steps (pre ++ rest) w = run_steps rest wk.
Proof.
  intros Hp. rewrite <- !run_steps_logged_erase.
  rewrite (run_steps_logged_pass _ _ _ _ Hp). reflexivity.
Qed.

(** How the loop ends: every step passed, or the first step that did not
    pass is [s], with the result [r] it gave. *)
Inductive loop_end (todo : list Step) (w : World) : Type :=
| AllPassed (w' : World) (Hp : passes todo w w')
| StoppedAt (k : nat) (s : Step) (wk wf : World) (r : result bool)
    (Hk : todo !! k = Some s)
    (Hp : passes (take k todo) w wk)
    (Hs : step_func s wk = (r, wf))
    (Hr : r <> Ok true).

Lemma loop_ends (todo : list Step) (w : World) : loop_end todo w.
Proof.
  revert w. induction todo as [|s rest IH]; intros w.
  - apply (AllPassed [] w w). reflexivity.
  - destruct (step_func s w) as [r w1] eqn:Hs.
    assert (Hcase : {r = Ok true} + {r <> Ok true}).
    { destruct r as [[|]|e]; [left; reflexivity|right; congruence..]. }
    destruct Hcase as [->|Hr].
    + destruct (IH w1) as [w' Hp|k s' wk wf r Hk Hp Hs' Hr].
      * apply (AllPassed _ _ w'). exists w1. auto.
      * apply (StoppedAt _ _ (S k) s' wk wf r); auto.
        simpl. exists w1. auto.
    + apply (StoppedAt _ _ 0%nat s w w1 r); auto. reflexivity.
Qed.

(** The line the loop prints for a step that did not pass. *)
Definition failure_line (s : Step) (r : result bool) : string :=
  match r with
  | Raise e =>
      error_line ("Step '" +:+ step_name s
                  +:+ "' failed with exception: " +:+ exn_str e)
  | Ok _ => error_line ("Step '" +:+ step_name s +:+ "' failed")
  end.

(** A result that the loop turns into the verdict [False]. *)
Definition contained (r : result bool) : bool :=
  match r with
  | Ok b => negb b
  | Raise e => is_Exception e
  end.

Lemma run_steps_logged_stop (todo : list Step) (k : nat) (s : Step)
    (w wk wf : World) (r : result bool) :
  todo !! k = Some s ->
  passes (take k todo) w wk ->
  step_func s wk = (r, wf) ->
  contained r = true ->
  run_steps_logged todo w =
    ((Ok false, emit (Printed (failure_line s r)) wf),
     map step_name (take (S k) todo)).
Proof.
  intros Hk Hp Hs Hc.
  rewrite <- (take_drop_middle todo k s Hk) at 1.
  rewrite (run_steps_logged_pass _ _ _ _ Hp). simpl. rewrite Hs.
  rewrite (take_S_r _ _ _ Hk), map_app. simpl.
  destruct r as [[|]|e]; simpl in *; try discriminate.
  - reflexivity.
  - rewrite Hc. reflexivity.
Qed.

Lemma run_steps_logged_all (todo : list Step) (w w' : World) :
  passes todo w w' ->
  run_steps_logged todo w = ((Ok true, w'), map step_name todo).
Proof.
  intros Hp. rewrite <- (app_nil_r todo) at 1.
  rewrite (run_steps_logged_pass _ _ _ _ Hp). simpl.
  rewrite app_nil_r. reflexivity.
Qed.

(** C1: in the loop of [validate] over any list of steps, when the step
    at position [k] is the first that returns [False] (all before it
    returned [True]), the loop returns [False], the last thing it does is
    to print that "Step '<name>' failed", the pipeline returns [False]
    in that very world (no build record), and the steps called are those
    at positions [0..k] and no other.  When every step returns [True]
    the loop runs to its end in the world the last step left, with no
    failure line, every step called once; the pipeline then returns
    [True] once the build record is written. *)
Theorem pipeline_fail_fast :
  forall (todo : list Step) (w : World),
    (forall (k : nat) (s : Step) (wk wf : World),
        todo !! k = Some s ->
        passes (take k todo) w wk ->
        step_func s wk = (Ok false, wf) ->
        let w' := emit (Printed (error_line
                          ("Step '" +:+ step_name s +:+ "' failed"))) wf in
        run_steps todo w = (Ok false, w') /\
        run_pipeline todo w = (Ok false, w') /\
        invoked todo w = map step_name (take (S k) todo))
    /\
    (forall (w' : World),
        passes todo w w' ->
        run_steps todo w = (Ok true, w') /\
        invoked todo w = map step_name todo /\
        forall (build_info : BuildInfo) (w'' : World),
          generate_build_info w' = (Ok build_info, w'') ->
          run_pipeline todo w =
            (Ok true,
             emit (Printed (success_line "Build info generated")) w'')).
Proof.
  intros todo w. split.
  - intros k s wk wf Hk Hp Hs w'.
    pose proof (run_steps_logged_stop todo k s w wk wf (Ok false)
                  Hk Hp Hs eq_refl) as Hlog.
    assert (Hrun : run_steps todo w = (Ok false, w')).
    { rewrite <- run_steps_logged_erase, Hlog. reflexivity. }
    split; [exact Hrun|]. split.
    + unfold run_pipeline, bind. rewrite Hrun. reflexivity.
    + unfold invoked. rewrite Hlog. reflexivity.
  - intros w' Hp.
    pose proof (run_steps_logged_all todo w w' Hp) as Hlog.
    assert (Hrun : run_steps todo w = (Ok true, w')).
    { rewrite <- run_steps_logged_erase, Hlog. reflexivity. }
    split; [exact Hrun|]. split.
    + unfold invoked. rewrite Hlog. reflexivity.
    + intros build_info w'' Hgen.
      unfold run_pipeline, bind. rewrite Hrun, Hgen. reflexivity.
Qed.

(** Every fault that a step of [todo] can raise is an [Exception]. *)
Definition raises_only_exceptions (todo : list Step) : Prop :=
  forall (s : Step) (w w' : World) (e : exn),
    s ∈ todo -> step_func s w = (Raise e, w') -> is_Exception e = true.

(** The loop ran to its end: every step returned [True]. *)
Definition all_succeeded (todo : list Step) (w : World) : Prop :=
  exists w', passes todo w w' /\ run_steps todo w = (Ok true, w').

(** The loop returned [False] at the first step that did not return
    [True], and the last line printed names that step. *)
Definition first_failure_identified (todo : list Step) (w : World) : Prop :=
  exists (k : nat) (s : Step) (wk wf : World) (r : result bool),
    todo !! k = Some s /\
    passes (take k todo) w wk /\
    step_func s wk = (r, wf) /\
    r <> Ok true /\
    run_steps todo w = (Ok false, emit (Printed (failure_line s r)) wf).

(** C4: when the step at position [k] raises an [Exception] (all before
    it returned [True]), the loop of [validate] catches it: it returns
    [False], the last thing it does is to print "Step '<name>' failed
    with exception: <message>", and no later step is called.  When no
    step raises anything but [Exception]s, the loop always ends with a
    verdict, and exactly one of: every step succeeded; the first failing
    step is identified. *)
Theorem pipeline_contains_exceptions :
  forall (todo : list Step) (w : World),
    (forall (k : nat) (s : Step) (wk wf : World) (e : exn),
        todo !! k = Some s ->
        passes (take k todo) w wk ->
        step_func s wk = (Raise e, wf) ->
        is_Exception e = true ->
        run_steps todo w =
          (Ok false,
           emit (Printed (error_line
                   ("Step '" +:+ step_name s
                    +:+ "' failed with exception: " +:+ exn_str e))) wf) /\
        invoked todo w = map step_name (take (S k) todo))
    /\
    (raises_only_exceptions todo ->
       (all_succeeded todo w \/ first_failure_identified todo w) /\
       ~ (all_succeeded todo w /\ first_failure_identified todo w)).
Proof.
  intros todo w. split.
  - intros k s wk wf e Hk Hp Hs He.
    pose proof (run_steps_logged_stop todo k s w wk wf (Raise e)
                  Hk Hp Hs He) as Hlog.
    split.
    + rewrite <- run_steps_logged_erase, Hlog. reflexivity.
    + unfold invoked. rewrite Hlog. reflexivity.
  - intros Hexn. split.
    + destruct (loop_ends todo w) as [w' Hp|k s wk wf r Hk Hp Hs Hr].
      * left. exists w'. split; [exact Hp|].
        rewrite <- run_steps_logged_erase.
        rewrite (run_steps_logged_all _ _ _ Hp). reflexivity.
      * right. exists k, s, wk, wf, r. repeat split; auto.
        assert (Hc : contained r = true).
        { destruct r as [[|]|e]; simpl; [congruence|reflexivity|].
          eapply Hexn; [|exact Hs].
          apply list_elem_of_lookup. eauto. }
        rewrite <- run_steps_logged_erase.
        rewrite (run_steps_logged_stop _ _ _ _ _ _ _ Hk Hp Hs Hc).
        reflexivity.
    + intros [(w' & _ & Hall) (k & s & wk & wf & r & _ & _ & _ & _ & Hstop)].
      congruence.
Qed.

(** *** What the steps leave alone *)

(** A relation between the world before and the world after that holds
    across printing, starting a child, looking at the tree and making
    the build directory holds across every step of the runner. *)
Section Keeps.

Variable R : World -> World -> Prop.
Hypothesis R_refl : forall w, R w w.
Hypothesis R_trans : forall w1 w2 w3, R w1 w2 -> R w2 w3 -> R w1 w3.
Hypothesis R_print : forall line w, R w (emit (Printed line) w).
Hypothesis R_spawn :
  forall w args cwd, R w (emit (Spawned args cwd (environ w)) w).
Hypothesis R_ran :
  forall w args cwd,
    R w (set_fs (tree_after (os_spawn w args cwd (environ w)) (fs w))
           (emit (Spawned args cwd (environ w)) w)).
Hypothesis R_mkdir : forall w, R w (mkdir_exist_ok build_dir w).2.

Definition keeps {A} (m : M A) : Prop := forall w, R w (m w).2.

Lemma keeps_ret {A} (a : A) : keeps (ret a).
Proof. intros w. apply R_refl. Qed.

Lemma keeps_raise {A} (e : exn) : keeps (@raise A e).
Proof. intros w. apply R_refl. Qed.

Lemma keeps_bind {A B} (m : M A) (k : A -> M B) :
  keeps m -> (forall a, keeps (k a)) -> keeps (bind m k).
Proof.
  intros Hm Hk w. unfold bind. specialize (Hm w).
  destruct (m w) as [[a|e] w1]; simpl in *; [|exact Hm].
  eapply R_trans; [exact Hm|apply Hk].
Qed.

Lemma keeps_when (b : bool) (m : M unit) : keeps m -> keeps (when b m).
Proof. intros Hm. destruct b; simpl; [exact Hm|apply keeps_ret]. Qed.

Lemma keeps_print (line : string) : keeps (print line).
Proof. intros w. apply R_print. Qed.

Lemma keeps_print_header (title : string) : keeps (print_header title).
Proof.
  unfold print_header. repeat (apply keeps_bind; [|intros _]);
    apply keeps_print.
Qed.

Lemma keeps_print_step (m : string) : keeps (print_step m).
Proof. apply keeps_print. Qed.

Lemma keeps_print_success (m : string) : keeps (print_success m).
Proof. apply keeps_print. Qed.

Lemma keeps_print_error (m : string) : keeps (print_error m).
Proof. apply keeps_print. Qed.

Lemma keeps_print_warning (m : string) : keeps (print_warning m).
Proof. apply keeps_print. Qed.

Lemma keeps_exists (p : path) : keeps (exists_ p).
Proof. intros w. apply R_refl. Qed.

Lemma keeps_stat_size_mb (p : path) : keeps (stat_size_mb p).
Proof. intros w. unfold stat_size_mb. destruct (fs w !! p); apply R_refl. Qed.

Lemma keeps_mkdir_build_dir : keeps (mkdir_exist_ok build_dir).
Proof. intros w. apply R_mkdir. Qed.

Lemma diagnostics_keeps cmd rc out err w : R w (diagnostics cmd rc out err w).
Proof.
  unfold diagnostics.
  destruct (Py.truthy out), (Py.truthy err);
    repeat (eapply R_trans; [|apply R_print]); apply R_refl.
Qed.

Lemma keeps_run_command (cmd : list string) (cwd : option path)
    (check : bool) : keeps (run_command cmd cwd check).
Proof.
  intros w. destruct cmd as [|exe rest]; [apply R_refl|].
  rewrite run_command_unfold.
  pose proof (R_ran w (exe :: rest) (default root_dir cwd)) as Hx.
  destruct (os_spawn w (exe :: rest) (default root_dir cwd) (environ w))
    as [|rc out err fs'|e fs']; simpl in *.
  - eapply R_trans; [apply R_spawn|apply R_print].
  - destruct (check && negb (rc =? 0)); [|exact Hx].
    eapply R_trans; [exact Hx|apply diagnostics_keeps].
  - destruct (exn_class_of e); try exact Hx.
    eapply R_trans; [exact Hx|apply R_print].
Qed.

Ltac keeps_step :=
  first
    [ apply keeps_ret | apply keeps_raise
    | apply keeps_print_step | apply keeps_print_success
    | apply keeps_print_error | apply keeps_print_warning
    | apply keeps_print_header | apply keeps_print
    | apply keeps_exists | apply keeps_stat_size_mb
    | apply keeps_mkdir_build_dir | apply keeps_run_command
    | apply keeps_when
    | apply keeps_bind; [|intros ?]
    | match goal with
      | |- keeps (let '(_, _) := ?x in _) => destruct x as [[? ?] ?]
      | |- keeps (if ?b then _ else _) => destruct b
      | |- keeps (match ?x with _ => _ end) => destruct x
      end ].

Ltac keeps_all := repeat keeps_step.

Lemma keeps_check_prerequisites : keeps check_prerequisites.
Proof. unfold check_prerequisites. keeps_all. Qed.

Lemma keeps_download_dependencies : keeps download_dependencies.
Proof. unfold download_dependencies. keeps_all. Qed.

Lemma keeps_format_code : keeps format_code.
Proof. unfold format_code. keeps_all. Qed.

Lemma keeps_lint_code : keeps lint_code.
Proof. unfold lint_code. keeps_all. Qed.

Lemma keeps_report_total_coverage (lines : list string) :
  keeps (report_total_coverage lines).
Proof. induction lines as [|line rest IH]; simpl; keeps_all. exact IH. Qed.

Lemma keeps_run_tests (with_coverage : bool) : keeps (run_tests with_coverage).
Proof.
  unfold run_tests. keeps_all; apply keeps_report_total_coverage.
Qed.

Lemma keeps_build_binary : keeps build_binary.
Proof. unfold build_binary. keeps_all. Qed.

Lemma keeps_run_security_checks : keeps run_security_checks.
Proof. unfold run_security_checks. keeps_all. Qed.

Lemma keeps_build_for_platform (goos goarch : string) :
  keeps (build_for_platform goos goarch).
Proof.
  unfold build_for_platform.
  apply keeps_bind; [keeps_all|intros _].
  apply keeps_bind; [keeps_all|intros _].
  intros w. cbv zeta.
  match goal with |- R w (?m w).2 => assert (Hm : keeps m) by keeps_all end.
  apply Hm.
Qed.

Lemma keeps_steps : Forall (fun s => keeps (step_func s)) steps.
Proof.
  unfold steps. repeat constructor; simpl.
  - apply keeps_check_prerequisites.
  - apply keeps_download_dependencies.
  - apply keeps_format_code.
  - apply keeps_lint_code.
  - apply keeps_run_tests.
  - apply keeps_run_security_checks.
  - apply keeps_build_binary.
Qed.

End Keeps.

(** *** The build record *)

(** Nothing was written to the build record between two worlds. *)
Definition no_record (w w' : World) : Prop :=
  records (trace w') = records (trace w).

Lemma no_record_emit (e : event) (w : World) :
  (forall c, e <> Wrote build_info_path c) -> no_record w (emit e w).
Proof.
  intros He. unfold no_record. simpl. rewrite records_app.
  destruct e as [| |p c]; simpl; rewrite ?app_nil_r; try reflexivity.
  case_bool_decide; [subst; exfalso; eapply He; reflexivity|].
  apply app_nil_r.
Qed.

Lemma no_record_mkdir (w : World) : no_record w (mkdir_exist_ok build_dir w).2.
Proof.
  unfold no_record, mkdir_exist_ok.
  destruct (fs w !! build_dir) as [[|]|]; reflexivity.
Qed.

Lemma no_record_keeps {A} (m : M A) :
  (forall R : World -> World -> Prop,
      (forall w, R w w) ->
      (forall w1 w2 w3, R w1 w2 -> R w2 w3 -> R w1 w3) ->
      (forall line w, R w (emit (Printed line) w)) ->
      (forall w args cwd, R w (emit (Spawned args cwd (environ w)) w)) ->
      (forall w args cwd,
          R w (set_fs (tree_after (os_spawn w args cwd (environ w)) (fs w))
                 (emit (Spawned args cwd (environ w)) w))) ->
      (forall w, R w (mkdir_exist_ok build_dir w).2) ->
      keeps R m) ->
  keeps no_record m.
Proof.
  intros H. apply H.
  - reflexivity.
  - unfold no_record. congruence.
  - intros. apply no_record_emit. discriminate.
  - intros. apply no_record_emit. discriminate.
  - intros. unfold no_record. simpl.
    change (no_record w (emit (Spawned args cwd (environ w)) w)).
    apply no_record_emit. discriminate.
  - apply no_record_mkdir.
Qed.

(** [subprocess.run] returned, or the fault it raised was handled: the
    call did not raise. *)
Definition returned {A} (r : result A) : bool :=
  match r with
  | Ok _ => true
  | Raise _ => false
  end.

Lemma bind_ok {A B} (m : M A) (k : A -> M B) (w w1 : World) (a : A) :
  m w = (Ok a, w1) -> bind m k w = k a w1.
Proof. intros H. unfold bind. rewrite H. reflexivity. Qed.

Lemma bind_raise {A B} (m : M A) (k : A -> M B) (w w1 : World) (e : exn) :
  m w = (Raise e, w1) -> bind m k w = (Raise e, w1).
Proof. intros H. unfold bind. rewrite H. reflexivity. Qed.

Lemma pair_eta {A B} (p : A * B) : p = (p.1, p.2).
Proof. destruct p; reflexivity. Qed.

(** The record that [generate_build_info] fills from the results of its
    four probes, in the world the last probe left. *)
Definition build_info_of (commit branch status version : Z * string * string)
    (w : World) : BuildInfo :=
  {| bi_timestamp := utc_now w;
     bi_go_version :=
       if version.1.1 =? 0 then Py.strip version.1.2 else "unknown";
     bi_git_commit :=
       if commit.1.1 =? 0 then Py.take 8 (Py.strip commit.1.2) else "unknown";
     bi_git_branch :=
       if branch.1.1 =? 0 then Py.strip branch.1.2 else "unknown";
     bi_git_dirty :=
       if status.1.1 =? 0 then Py.truthy (Py.strip status.1.2) else false;
     bi_platform := platform_system;
     bi_architecture := platform_machine |}.

(** The four probes of [generate_build_info], each in the world the one
    before it left. *)
Definition probe_commit (w : World) : result (Z * string * string) * World :=
  run_command ["git"; "rev-parse"; "HEAD"] None false w.

Definition probe_branch (w : World) : result (Z * string * string) * World :=
  run_command ["git"; "branch"; "--show-current"] None false (probe_commit w).2.

Definition probe_status (w : World) : result (Z * string * string) * World :=
  run_command ["git"; "status"; "--porcelain"] None false (probe_branch w).2.

Definition probe_version (w : World) : result (Z * string * string) * World :=
  run_command ["go"; "version"] None false (probe_status w).2.

(** [generate_build_info] by what its probes do: the first probe that
    raises ends it with that exception; when all four return, it writes
    the record made of their results. *)
Lemma generate_build_info_unfold (w : World) :
  generate_build_info w =
    match (probe_commit w).1 with
    | Raise e => (Raise e, (probe_commit w).2)
    | Ok commit =>
        match (probe_branch w).1 with
        | Raise e => (Raise e, (probe_branch w).2)
        | Ok branch =>
            match (probe_status w).1 with
            | Raise e => (Raise e, (probe_status w).2)
            | Ok status =>
                match (probe_version w).1 with
                | Raise e => (Raise e, (probe_version w).2)
                | Ok version =>
                    let build_info :=
                      build_info_of commit branch status version
                        (probe_version w).2 in
                    (write_text build_info_path (json_dumps build_info) ;;
                     ret build_info) (probe_version w).2
                end
            end
        end
    end.
Proof.
  unfold probe_version, probe_status, probe_branch, probe_commit.
  unfold generate_build_info.
  destruct (run_command ["git"; "rev-parse"; "HEAD"] None false w)
    as [[[[rc1 o1] e1]|x1] w1] eqn:E1; cbn [fst snd];
    [rewrite (bind_ok _ _ _ _ _ E1)|exact (bind_raise _ _ _ _ _ E1)].
  destruct (run_command ["git"; "branch"; "--show-current"] None false w1)
    as [[[[rc2 o2] e2]|x2] w2] eqn:E2; cbn [fst snd];
    [rewrite (bind_ok _ _ _ _ _ E2)|exact (bind_raise _ _ _ _ _ E2)].
  destruct (run_command ["git"; "status"; "--porcelain"] None false w2)
    as [[[[rc3 o3] e3]|x3] w3] eqn:E3; cbn [fst snd];
    [rewrite (bind_ok _ _ _ _ _ E3)|exact (bind_raise _ _ _ _ _ E3)].
  destruct (run_command ["go"; "version"] None false w3)
    as [[[[rc4 o4] e4]|x4] w4] eqn:E4; cbn [fst snd];
    [rewrite (bind_ok _ _ _ _ _ E4)|exact (bind_raise _ _ _ _ _ E4)].
  reflexivity.
Qed.

(** The place of the build record can be written: its directory is
    there and the name is not taken by a directory. *)
Definition writable (f : gmap path node) (p : path) : bool :=
  is_dir_in f (parent p) &&
  negb (match f !! p with Some Dir => true | _ => false end).

Lemma write_text_writable (p : path) (content : string) (w : World) :
  writable (fs w) p = true ->
  write_text p content w =
    (Ok tt, emit (Wrote p content) (set_fs (<[p := File content]> (fs w)) w)).
Proof.
  unfold writable, write_text, is_dir_in. intros [Hd Hp]%andb_prop.
  destruct (dir_fault (fs w) (parent p)); [discriminate|].
  destruct (fs w !! p) as [[|]|]; simpl in *; congruence.
Qed.

Lemma write_text_records (content : string) (w : World) :
  match (write_text build_info_path content w).1 with
  | Ok _ =>
      records (trace (write_text build_info_path content w).2)
        = records (trace w) ++ [content]
  | Raise _ => no_record w (write_text build_info_path content w).2
  end.
Proof.
  unfold write_text, no_record.
  destruct (dir_fault (fs w) (parent build_info_path)); simpl; [reflexivity|].
  destruct (fs w !! build_info_path) as [[|]|]; simpl; try reflexivity;
    rewrite records_app; simpl;
    try (rewrite bool_decide_eq_true_2 by reflexivity); reflexivity.
Qed.

Lemma no_record_trans (w1 w2 w3 : World) :
  no_record w1 w2 -> no_record w2 w3 -> no_record w1 w3.
Proof. unfold no_record. congruence. Qed.

Lemma no_record_run_command cmd cwd check w :
  no_record w (run_command cmd cwd check w).2.
Proof.
  revert w. change (keeps no_record (run_command cmd cwd check)).
  apply no_record_keeps. intros. eapply keeps_run_command; eassumption.
Qed.

Lemma generate_build_info_records (w : World) :
  match (generate_build_info w).1 with
  | Ok build_info =>
      records (trace (generate_build_info w).2)
        = records (trace w) ++ [json_dumps build_info]
  | Raise _ => no_record w (generate_build_info w).2
  end.
Proof.
  rewrite generate_build_info_unfold.
  assert (H1 : no_record w (probe_commit w).2)
    by apply no_record_run_command.
  assert (H2 : no_record w (probe_branch w).2).
  { eapply no_record_trans; [exact H1|apply no_record_run_command]. }
  assert (H3 : no_record w (probe_status w).2).
  { eapply no_record_trans; [exact H2|apply no_record_run_command]. }
  assert (H4 : no_record w (probe_version w).2).
  { eapply no_record_trans; [exact H3|apply no_record_run_command]. }
  destruct (probe_commit w).1 as [c|?]; [|exact H1].
  destruct (probe_branch w).1 as [b|?]; [|exact H2].
  destruct (probe_status w).1 as [s|?]; [|exact H3].
  destruct (probe_version w).1 as [v|?]; [|exact H4].
  cbv zeta. set (bi := build_info_of c b s v (probe_version w).2).
  pose proof (write_text_records (json_dumps bi) (probe_version w).2) as Hw.
  unfold bind, ret.
  destruct (write_text build_info_path (json_dumps bi) (probe_version w).2)
    as [[[]|e] w5]; simpl in *; unfold no_record in *; congruence.
Qed.

Lemma run_steps_stop (todo : list Step) (k : nat) (s : Step)
    (w wk wf : World) (r : result bool) :
  todo !! k = Some s ->
  passes (take k todo) w wk ->
  step_func s wk = (r, wf) ->
  r <> Ok true ->
  run_steps todo w = (Ok false, emit (Printed (failure_line s r)) wf) \/
  exists e, r = Raise e /\ is_Exception e = false /\
            run_steps todo w = (Raise e, wf).
Proof.
  intros Hk Hp Hs Hr.
  destruct (contained r) eqn:Hc.
  - left. rewrite <- run_steps_logged_erase.
    rewrite (run_steps_logged_stop _ _ _ _ _ _ _ Hk Hp Hs Hc). reflexivity.
  - right. destruct r as [[|]|e]; simpl in Hc; try congruence.
    exists e. repeat split; [exact Hc|].
    rewrite <- (take_drop_middle todo k s Hk).
    rewrite (run_steps_pass _ _ _ _ Hp). simpl. rewrite Hs, Hc. reflexivity.
Qed.

(** The world a failed run of the pipeline ends in: the one the failing
    step left, with at most the failure line added. *)
Lemma run_pipeline_stop (todo : list Step) (k : nat) (s : Step)
    (w wk wf : World) (r : result bool) :
  todo !! k = Some s ->
  passes (take k todo) w wk ->
  step_func s wk = (r, wf) ->
  r <> Ok true ->
  (run_pipeline todo w).1 <> Ok true /\
  ((run_pipeline todo w).2 = wf \/
   (run_pipeline todo w).2 = emit (Printed (failure_line s r)) wf).
Proof.
  intros Hk Hp Hs Hr. unfold run_pipeline, bind.
  destruct (run_steps_stop _ _ _ _ _ _ _ Hk Hp Hs Hr)
    as [->|(e & -> & He & ->)]; simpl.
  - split; [discriminate|]. right. reflexivity.
  - split; [discriminate|]. left. reflexivity.
Qed.

Lemma print_header_ok (title : string) (w : World) :
  (print_header title w).1 = Ok tt.
Proof. reflexivity. Qed.

Lemma no_record_print_header (title : string) (w : World) :
  no_record w (print_header title w).2.
Proof.
  revert w. change (keeps no_record (print_header title)).
  apply no_record_keeps. intros. eapply keeps_print_header; eassumption.
Qed.

Lemma no_record_steps :
  Forall (fun s => keeps no_record (step_func s)) steps.
Proof.
  assert (H : forall R : World -> World -> Prop,
             (forall w, R w w) ->
             (forall w1 w2 w3, R w1 w2 -> R w2 w3 -> R w1 w3) ->
             (forall line w, R w (emit (Printed line) w)) ->
             (forall w args cwd, R w (emit (Spawned args cwd (environ w)) w)) ->
             (forall w args cwd,
                 R w (set_fs (tree_after (os_spawn w args cwd (environ w))
                                (fs w))
                        (emit (Spawned args cwd (environ w)) w))) ->
             (forall w, R w (mkdir_exist_ok build_dir w).2) ->
             Forall (fun s => keeps R (step_func s)) steps).
  { intros. eapply keeps_steps; eassumption. }
  specialize (H no_record).
  apply H.
  - reflexivity.
  - unfold no_record. congruence.
  - intros. apply no_record_emit. discriminate.
  - intros. apply no_record_emit. discriminate.
  - intros. change (no_record w (emit (Spawned args cwd (environ w)) w)).
    apply no_record_emit. discriminate.
  - apply no_record_mkdir.
Qed.

Lemma no_record_passes (todo : list Step) (w w' : World) :
  Forall (fun s => keeps no_record (step_func s)) todo ->
  passes todo w w' -> no_record w w'.
Proof.
  intros Hall. revert w. induction Hall as [|s rest Hs _ IH]; intros w Hp;
    simpl in Hp.
  - subst. reflexivity.
  - destruct Hp as (w1 & Hstep & Hp).
    eapply no_record_trans; [|apply IH; exact Hp].
    specialize (Hs w). rewrite Hstep in Hs. exact Hs.
Qed.

Lemma Forall_take_keeps (todo : list Step) (k : nat) :
  Forall (fun s => keeps no_record (step_func s)) todo ->
  Forall (fun s => keeps no_record (step_func s)) (take k todo).
Proof. apply Forall_take. Qed.

(** C7: in a run of [validate], something is written to the build record
    only when every step of the pipeline has returned [True], and then
    after the last step (the steps themselves write nothing to it); in a
    run where some step returns [False] or raises, [validate] does not
    return [True], nothing is written to the build record, and the run
    ends in the world the failing step left, with at most the failure
    line added. *)
Theorem build_info_only_after_success :
  forall (w : World),
    let w0 := (print_header "Shoal Build & Test Validation" w).2 in
    let w' := (validate w).2 in
    (records (trace w') <> records (trace w) ->
       exists (wk : World) (build_info : BuildInfo),
         passes steps w0 wk /\
         records (trace wk) = records (trace w) /\
         records (trace w') = records (trace w) ++ [json_dumps build_info])
    /\
    (forall (k : nat) (s : Step) (wk wf : World) (r : result bool),
        steps !! k = Some s ->
        passes (take k steps) w0 wk ->
        step_func s wk = (r, wf) ->
        r <> Ok true ->
        (validate w).1 <> Ok true /\
        records (trace w') = records (trace w) /\
        (w' = wf \/ w' = emit (Printed (failure_line s r)) wf)).
Proof.
  intros w w0 w'.
  assert (Hval : validate w = run_pipeline steps w0) by reflexivity.
  assert (H0 : no_record w w0) by apply no_record_print_header.
  assert (Hstop :
    forall k s wk wf r,
      steps !! k = Some s -> passes (take k steps) w0 wk ->
      step_func s wk = (r, wf) -> r <> Ok true ->
      (validate w).1 <> Ok true /\
      records (trace w') = records (trace w) /\
      (w' = wf \/ w' = emit (Printed (failure_line s r)) wf)).
  { intros k s wk wf r Hk Hp Hs Hr.
    destruct (run_pipeline_stop _ _ _ _ _ _ _ Hk Hp Hs Hr) as [Hres Hw].
    subst w'. rewrite Hval. split; [exact Hres|]. split; [|exact Hw].
    assert (Hwf : no_record w wf).
    { eapply no_record_trans; [exact H0|].
      eapply no_record_trans.
      - eapply no_record_passes; [|exact Hp].
        apply Forall_take_keeps, no_record_steps.
      - pose proof no_record_steps as Hall.
        rewrite Forall_forall in Hall.
        assert (Hin : s ∈ steps).
        { apply list_elem_of_lookup. eauto. }
        specialize (Hall s Hin wk). rewrite Hs in Hall. exact Hall. }
    destruct Hw as [->| ->]; [exact Hwf|].
    eapply no_record_trans; [exact Hwf|].
    apply no_record_emit. discriminate. }
  split; [|exact Hstop].
  intros Hchanged.
  destruct (loop_ends steps w0) as [wk Hp|k s wk wf r Hk Hp Hs Hr].
  - assert (Hwk : no_record w wk).
    { eapply no_record_trans; [exact H0|].
      eapply no_record_passes; [apply no_record_steps|exact Hp]. }
    pose proof (generate_build_info_records wk) as Hgen.
    assert (Hrun : run_steps steps w0 = (Ok true, wk)).
    { rewrite <- run_steps_logged_erase.
      rewrite (run_steps_logged_all _ _ _ Hp). reflexivity. }
    subst w'. rewrite Hval in *. unfold run_pipeline, bind in *.
    rewrite Hrun in *.
    destruct (generate_build_info wk) as [[bi|e] w2]; simpl in *.
    + exists wk, bi. split; [exact Hp|]. split; [exact Hwk|].
      rewrite records_app. simpl. rewrite app_nil_r, Hgen, Hwk. reflexivity.
    + exfalso. apply Hchanged. unfold no_record in *. congruence.
  - exfalso. apply Hchanged.
    apply (Hstop k s wk wf r Hk Hp Hs Hr).
Qed.

(** A probe failed: it returned with a return code that is not zero (a
    missing executable gives the return code 1). *)
Definition probe_failed (r : result (Z * string * string)) : Prop :=
  match r with
  | Ok (rc, _, _) => rc <> 0
  | Raise _ => False
  end.

(** [run_command] raises exactly what [subprocess.run] raises that is no
    [FileNotFoundError]. *)
Lemma run_command_raises (exe : string) (rest : list string)
    (cwd : option path) (check : bool) (w : World) (e : exn) :
  (run_command (exe :: rest) cwd check w).1 = Raise e <->
  (exists fs',
      os_spawn w (exe :: rest) (default root_dir cwd) (environ w)
        = Faulted e fs') /\
  exn_class_of e <> FileNotFoundError.
Proof.
  rewrite run_command_unfold.
  destruct (os_spawn w (exe :: rest) (default root_dir cwd) (environ w))
    as [|rc out err fs'|e0 fs']; cbn [fst].
  - split; [discriminate|]. intros [[fs' H] _]. discriminate.
  - split; [discriminate|]. intros [[fs0 H] _]. discriminate.
  - destruct (exn_class_of e0) eqn:Hc; cbn [fst]; split;
      try discriminate;
      try (intros [= <-]; split; [exists fs'; reflexivity|];
           rewrite Hc; discriminate);
      try (intros [[fs0 [= <- <-]] _]; reflexivity).
    intros [[fs0 [= <- <-]] Hne]. congruence.
Qed.

(** C6, as the code has it: when the steps have passed, every probe
    returns (its command exits, with whatever code, or its executable is
    not found) and the place of the build record can be written, the
    recorder raises nothing and the pipeline returns [True]; each probe
    that failed leaves its placeholder in the record: "unknown" for the
    commit, "unknown" for the branch, [False] for the dirty flag,
    "unknown" for the toolchain version.  But a probe for which
    [subprocess.run] raises anything else than [FileNotFoundError] does
    not degrade: the exception leaves [generate_build_info], and the
    pipeline, which calls the recorder outside its [try], raises it
    too. *)
Theorem build_info_probes_degrade :
  forall (todo : list Step) (w w1 : World),
    passes todo w w1 ->
    let p1 := probe_commit w1 in
    let p2 := probe_branch w1 in
    let p3 := probe_status w1 in
    let p4 := probe_version w1 in
    (returned p1.1 = true -> returned p2.1 = true ->
     returned p3.1 = true -> returned p4.1 = true ->
     writable (fs p4.2) build_info_path = true ->
     exists (build_info : BuildInfo) (w2 : World),
       generate_build_info w1 = (Ok build_info, w2) /\
       run_pipeline todo w =
         (Ok true, emit (Printed (success_line "Build info generated")) w2) /\
       (probe_failed p1.1 -> bi_git_commit build_info = "unknown") /\
       (probe_failed p2.1 -> bi_git_branch build_info = "unknown") /\
       (probe_failed p3.1 -> bi_git_dirty build_info = false) /\
       (probe_failed p4.1 -> bi_go_version build_info = "unknown"))
    /\
    (forall (e : exn),
        p1.1 = Raise e \/
        (returned p1.1 = true /\ p2.1 = Raise e) \/
        (returned p1.1 = true /\ returned p2.1 = true /\ p3.1 = Raise e) \/
        (returned p1.1 = true /\ returned p2.1 = true /\
         returned p3.1 = true /\ p4.1 = Raise e) ->
        (generate_build_info w1).1 = Raise e)
    /\
    (forall (e : exn) (w2 : World),
        generate_build_info w1 = (Raise e, w2) ->
        run_pipeline todo w = (Raise e, w2)).
Proof.
  intros todo w w1 Hp p1 p2 p3 p4.
  assert (Hrun : run_steps todo w = (Ok true, w1)).
  { rewrite <- run_steps_logged_erase, (run_steps_logged_all _ _ _ Hp).
    reflexivity. }
  pose proof (generate_build_info_unfold w1) as Hgen.
  fold p1 p2 p3 p4 in Hgen.
  split; [|split].
  - intros H1 H2 H3 H4 Hw.
    destruct p1.1 as [c|?]; [|discriminate].
    destruct p2.1 as [b|?]; [|discriminate].
    destruct p3.1 as [s|?]; [|discriminate].
    destruct p4.1 as [v|?]; [|discriminate].
    cbv zeta in Hgen.
    set (bi := build_info_of c b s v p4.2) in *.
    assert (Hgen' : generate_build_info w1 =
              (Ok bi, emit (Wrote build_info_path (json_dumps bi))
                        (set_fs (<[build_info_path := File (json_dumps bi)]>
                                   (fs p4.2)) p4.2))).
    { rewrite Hgen. unfold bind.
      rewrite (write_text_writable _ _ _ Hw). reflexivity. }
    eexists bi, _. split; [exact Hgen'|]. split.
    + unfold run_pipeline, bind. rewrite Hrun, Hgen'. reflexivity.
    + subst bi.
      destruct c as [[rc1 o1] e1], b as [[rc2 o2] e2],
               s as [[rc3 o3] e3], v as [[rc4 o4] e4]; simpl.
      repeat split; intros Hne;
        apply Z.eqb_neq in Hne; rewrite Hne; reflexivity.
  - intros e He. rewrite Hgen.
    destruct He as [H1|[[H1 H2]|[(H1 & H2 & H3)|(H1 & H2 & H3 & H4)]]].
    + rewrite H1. reflexivity.
    + destruct p1.1; [|discriminate]. rewrite H2. reflexivity.
    + destruct p1.1; [|discriminate]. destruct p2.1; [|discriminate].
      rewrite H3. reflexivity.
    + destruct p1.1; [|discriminate]. destruct p2.1; [|discriminate].
      destruct p3.1; [|discriminate]. rewrite H4. reflexivity.
  - intros e w2 Hraise. unfold run_pipeline, bind. rewrite Hrun, Hraise.
    reflexivity.
Qed.

(** *** Building for a platform *)

(** The name of the build directory is not taken by a regular file. *)
Definition build_dir_free (f : gmap path node) : Prop :=
  forall c, f !! build_dir <> Some (File c).

(** No call of [subprocess.run] breaks the property [P] of the project
    tree. *)
Definition spawn_keeps (P : gmap path node -> Prop) : Prop :=
  forall w args cwd env,
    P (fs w) -> P (tree_after (os_spawn w args cwd env) (fs w)).

(** The path of the artifact of a platform. *)
Definition artifact_path (goos goarch : string) : path :=
  path_join build_dir (platform_binary_name goos goarch).

(** The line [print_step] prints. *)
Definition step_line (step : string) : string :=
  Colors.BOLD +:+ Colors.CYAN +:+ "→" +:+ Colors.RESET +:+ " " +:+ step.

Lemma bind_print {B} (line : string) (k : unit -> M B) (w : World) :
  bind (print line) k w = k tt (emit (Printed line) w).
Proof. reflexivity. Qed.

Lemma bind_exists {B} (p : path) (k : bool -> M B) (w : World) :
  bind (exists_ p) k w = k (bool_decide (is_Some (fs w !! p))) w.
Proof. reflexivity. Qed.

Lemma bind_stat_size_mb {B} (p : path) (k : string -> M B) (w : World)
    (n : node) :
  fs w !! p = Some n -> bind (stat_size_mb p) k w = k (size_mb n) w.
Proof. intros H. unfold bind, stat_size_mb. rewrite H. reflexivity. Qed.

Lemma spawns_emit_print (line : string) (w : World) :
  spawns (trace (emit (Printed line) w)) = spawns (trace w).
Proof. simpl. rewrite spawns_app. simpl. apply app_nil_r. Qed.

Lemma child_envs_emit_print (line : string) (w : World) :
  child_envs (trace (emit (Printed line) w)) = child_envs (trace w).
Proof. simpl. rewrite child_envs_app. simpl. apply app_nil_r. Qed.

(** Whatever [run_command] returns or raises for a command line, it
    leaves the environment as it was and has handed that one command
    line, with that environment, to [subprocess.run]. *)
Lemma run_command_trace (exe : string) (rest : list string)
    (cwd : option path) (check : bool) (w : World) :
  let w' := (run_command (exe :: rest) cwd check w).2 in
  environ w' = environ w /\
  spawns (trace w') = spawns (trace w) ++ [exe :: rest] /\
  child_envs (trace w') = child_envs (trace w) ++ [environ w].
Proof.
  cbv zeta. rewrite run_command_unfold.
  destruct (os_spawn w (exe :: rest) (default root_dir cwd) (environ w))
    as [|rc out err fs'|e fs']; simpl.
  - rewrite !spawns_app, !child_envs_app. simpl. rewrite !app_nil_r. auto.
  - destruct (check && negb (rc =? 0)); simpl.
    + unfold diagnostics.
      destruct (Py.truthy out), (Py.truthy err); simpl;
        rewrite ?spawns_app, ?child_envs_app; simpl;
        rewrite ?app_nil_r; auto.
    + rewrite !spawns_app, !child_envs_app. simpl. auto.
  - destruct (exn_class_of e); simpl;
      rewrite ?spawns_app, ?child_envs_app; simpl;
      rewrite ?app_nil_r; auto.
Qed.

(** The last line of a build for a platform: what the build returned. *)
Definition outcome_line (goos goarch : string) (ok : bool) (w' : World)
    : string :=
  if ok then
    success_line
      ("Built: " +:+ path_str (artifact_path goos goarch) +:+ " (" +:+
       match fs w' !! artifact_path goos goarch with
       | Some n => size_mb n
       | None => ""
       end +:+ " MB)")
  else error_line ("Failed to build for " +:+ goos +:+ "/" +:+ goarch).

(** The world in which a build starts the compiler: the step is
    announced and the build directory is there. *)
Definition ready (line : string) (w : World) : World :=
  match fs w !! build_dir with
  | None => set_fs (<[build_dir := Dir]> (fs w)) (emit (Printed line) w)
  | _ => emit (Printed line) w
  end.

Lemma mkdir_emit (line : string) (w : World) :
  mkdir_exist_ok build_dir (emit (Printed line) w) =
    match fs w !! build_dir with
    | Some (File _) =>
        (Raise (Exn FileExistsError
                  (os_error_str Mkdir FileExistsError build_dir)),
         emit (Printed line) w)
    | _ => (Ok tt, ready line w)
    end.
Proof.
  unfold mkdir_exist_ok, ready. cbn [fs emit].
  destruct (fs w !! build_dir) as [[|]|]; reflexivity.
Qed.

Lemma ready_trace (line : string) (w : World) :
  environ (ready line w) = environ w /\
  spawns (trace (ready line w)) = spawns (trace w) /\
  child_envs (trace (ready line w)) = child_envs (trace w).
Proof.
  unfold ready. destruct (fs w !! build_dir) as [[|]|]; cbn [environ set_fs];
    rewrite ?spawns_emit_print, ?child_envs_emit_print; auto;
    cbn [trace set_fs]; rewrite spawns_emit_print, child_envs_emit_print; auto.
Qed.

(** [build_for_platform] by cases: it raises [FileExistsError] when the
    name of the build directory is taken by a file, before anything is
    started; it raises what [run_command] raises for the compiler; and
    otherwise it returns whether the compiler exited with 0 and the
    artifact is there, after a last line that says so. *)
Lemma build_for_platform_unfold (goos goarch : string) (w : World) :
  let line := step_line ("Building for " +:+ goos +:+ "/" +:+ goarch) in
  let compile :=
    run_command (go_build_cmd (artifact_path goos goarch)) None true
      (ready line w) in
  build_for_platform goos goarch w =
    match fs w !! build_dir with
    | Some (File _) =>
        (Raise (Exn FileExistsError
                  (os_error_str Mkdir FileExistsError build_dir)),
         emit (Printed line) w)
    | _ =>
        match compile.1 with
        | Raise e => (Raise e, compile.2)
        | Ok (rc, _, _) =>
            let ok :=
              (rc =? 0) &&
              bool_decide (is_Some (fs compile.2 !! artifact_path goos goarch))
            in
            (Ok ok, emit (Printed (outcome_line goos goarch ok compile.2))
                      compile.2)
        end
    end.
Proof.
  cbv zeta. unfold build_for_platform, print_step.
  rewrite bind_print.
  fold (step_line ("Building for " +:+ goos +:+ "/" +:+ goarch)).
  fold (artifact_path goos goarch).
  set (line := step_line ("Building for " +:+ goos +:+ "/" +:+ goarch)).
  assert (Hgo : forall w1,
    (let* '(ret_code, _, _) :=
       run_command (go_build_cmd (artifact_path goos goarch)) None true in
     let* present := exists_ (artifact_path goos goarch) in
     if negb (ret_code =? 0) || negb present then
       print_error ("Failed to build for " +:+ goos +:+ "/" +:+ goarch) ;;
       ret false
     else
       let* size := stat_size_mb (artifact_path goos goarch) in
       print_success ("Built: " +:+ path_str (artifact_path goos goarch)
                      +:+ " (" +:+ size +:+ " MB)") ;;
       ret true) w1
    = match (run_command (go_build_cmd (artifact_path goos goarch))
               None true w1).1 with
      | Raise e =>
          (Raise e,
           (run_command (go_build_cmd (artifact_path goos goarch))
              None true w1).2)
      | Ok (rc, _, _) =>
          let w2 := (run_command (go_build_cmd (artifact_path goos goarch))
                       None true w1).2 in
          let ok :=
            (rc =? 0) &&
            bool_decide (is_Some (fs w2 !! artifact_path goos goarch)) in
          (Ok ok, emit (Printed (outcome_line goos goarch ok w2)) w2)
      end).
  { intros w1.
    destruct (run_command (go_build_cmd (artifact_path goos goarch))
                None true w1) as [[[[rc out] err]|e] w2] eqn:Hrun;
      cbn [fst snd]; [|exact (bind_raise _ _ _ _ _ Hrun)].
    rewrite (bind_ok _ _ _ _ _ Hrun), bind_exists. cbv zeta.
    unfold outcome_line.
    destruct (rc =? 0); cbn [negb andb orb].
    - case_bool_decide as Hpres; cbn [negb].
      + destruct Hpres as [n Hn]. rewrite (bind_stat_size_mb _ _ _ n Hn), Hn.
        reflexivity.
      + reflexivity.
    - reflexivity. }
  pose proof (mkdir_emit line w) as Hm.
  destruct (fs w !! build_dir) as [[c|]|] eqn:Hb.
  - exact (bind_raise _ _ _ _ _ Hm).
  - rewrite (bind_ok _ _ _ _ _ Hm). apply Hgo.
  - rewrite (bind_ok _ _ _ _ _ Hm). apply Hgo.
Qed.

(** What one build does: when it returns, the name of the build
    directory was free, the compiler was started once, with the
    environment of the script, success is reported only when the
    artifact is there, and the last line printed says what is returned.
    It raises when the name of the build directory is taken by a file,
    before anything is started, and when [run_command] raises for the
    compiler. *)
Lemma build_for_platform_spec (goos goarch : string) (w : World) :
  let line := step_line ("Building for " +:+ goos +:+ "/" +:+ goarch) in
  match build_for_platform goos goarch w with
  | (Ok ok, w') =>
      build_dir_free (fs w) /\
      environ w' = environ w /\
      spawns (trace w')
        = spawns (trace w) ++ [go_build_cmd (artifact_path goos goarch)] /\
      child_envs (trace w') = child_envs (trace w) ++ [environ w] /\
      (ok = true -> is_Some (fs w' !! artifact_path goos goarch)) /\
      last (trace w') = Some (Printed (outcome_line goos goarch ok w'))
  | (Raise e, w') =>
      (~ build_dir_free (fs w) /\ spawns (trace w') = spawns (trace w)) \/
      (build_dir_free (fs w) /\
       run_command (go_build_cmd (artifact_path goos goarch)) None true
         (ready line w) = (Raise e, w') /\
       spawns (trace w')
         = spawns (trace w) ++ [go_build_cmd (artifact_path goos goarch)])
  end.
Proof.
  cbv zeta. rewrite build_for_platform_unfold. cbv zeta.
  set (line := step_line ("Building for " +:+ goos +:+ "/" +:+ goarch)).
  set (cmd := go_build_cmd (artifact_path goos goarch)).
  destruct (ready_trace line w) as (He0 & Hsp0 & Hce0).
  pose proof (run_command_trace "go" (tail cmd) None true (ready line w))
    as Ht.
  cbv zeta in Ht. change ("go" :: tail cmd) with cmd in Ht.
  destruct Ht as (He & Hsp & Hce). rewrite He0, Hsp0 in *. rewrite Hce0 in Hce.
  assert (Hcases :
    build_dir_free (fs w) ->
    match
      match (run_command cmd None true (ready line w)).1 with
      | Ok (rc, _, _) =>
          let ok :=
            (rc =? 0) &&
            bool_decide
              (is_Some ((fs (run_command cmd None true (ready line w)).2)
                          !! artifact_path goos goarch)) in
          (Ok ok,
           emit (Printed (outcome_line goos goarch ok
                            (run_command cmd None true (ready line w)).2))
             (run_command cmd None true (ready line w)).2)
      | Raise e => (Raise e, (run_command cmd None true (ready line w)).2)
      end
    with
    | (Ok ok, w') =>
        build_dir_free (fs w) /\
        environ w' = environ w /\
        spawns (trace w') = spawns (trace w) ++ [cmd] /\
        child_envs (trace w') = child_envs (trace w) ++ [environ w] /\
        (ok = true -> is_Some (fs w' !! artifact_path goos goarch)) /\
        last (trace w') = Some (Printed (outcome_line goos goarch ok w'))
    | (Raise e, w') =>
        (~ build_dir_free (fs w) /\ spawns (trace w') = spawns (trace w)) \/
        (build_dir_free (fs w) /\
         run_command cmd None true (ready line w) = (Raise e, w') /\
         spawns (trace w') = spawns (trace w) ++ [cmd])
    end).
  { intros Hfree.
    destruct (run_command cmd None true (ready line w))
      as [[[[rc out] err]|e] w2]; cbn [fst snd] in *.
    - cbv zeta. rewrite spawns_emit_print, child_envs_emit_print.
      repeat split; auto.
      + intros Hok. apply andb_prop in Hok as [_ Hpres].
        apply bool_decide_eq_true in Hpres. exact Hpres.
      + cbn [trace emit]. rewrite last_snoc. reflexivity.
    - right. auto. }
  destruct (fs w !! build_dir) as [[c|]|] eqn:Hb.
  - left. split.
    + intros Hfree. apply (Hfree c). exact Hb.
    + apply spawns_emit_print.
  - apply Hcases. intros c. rewrite Hb. discriminate.
  - apply Hcases. intros c. rewrite Hb. discriminate.
Qed.

Lemma append_assoc (a b c : string) : (a +:+ b) +:+ c = a +:+ (b +:+ c).
Proof.
  induction a as [|x a IH]; [reflexivity|].
  change (String x ((a +:+ b) +:+ c) = String x (a +:+ (b +:+ c))).
  f_equal. exact IH.
Qed.

Lemma platform_binary_name_joined (goos goarch : string) :
  platform_binary_name goos goarch =
    Py.join "-" ["shoal"; goos; goarch]
    +:+ (if bool_decide (goos = "windows") then ".exe" else "").
Proof.
  unfold platform_binary_name. cbn [Py.join].
  assert (He : (if (goos =? "windows")%string then ".exe" else "") =
               (if bool_decide (goos = "windows") then ".exe" else "")).
  { destruct (String.eqb_spec goos "windows") as [->|Hne].
    - reflexivity.
    - rewrite bool_decide_eq_false_2 by exact Hne. reflexivity. }
  rewrite He, !append_assoc. reflexivity.
Qed.

Lemma platform_binary_name_exe (goos goarch : string) :
  platform_binary_name goos goarch
    = Py.join "-" ["shoal"; goos; goarch] +:+ ".exe"
  <-> goos = "windows".
Proof.
  rewrite platform_binary_name_joined. split.
  - intros Heq. case_bool_decide as Hw; [exact Hw|].
    apply (inj (String.app _)) in Heq. discriminate.
  - intros ->. reflexivity.
Qed.

(** C8: a build for a platform that reports success has started the
    compiler once, with one output path, and the artifact is there at
    that path: the build directory, then the file name "shoal", the
    operating system and the architecture joined by hyphens, followed by
    ".exe" exactly when the operating system is "windows".  The path
    depends on the target alone (a later build for the target writes the
    same file), and the targets of the matrix have different names. *)
Theorem artifact_named_by_platform :
  forall (goos goarch : string) (w w' : World),
    build_for_platform goos goarch w = (Ok true, w') ->
    let name := platform_binary_name goos goarch in
    is_Some (fs w' !! path_join build_dir name) /\
    spawns (trace w')
      = spawns (trace w) ++ [go_build_cmd (path_join build_dir name)] /\
    go_build_cmd (path_join build_dir name) !! 6%nat = Some "-o" /\
    go_build_cmd (path_join build_dir name) !! 7%nat
      = Some (path_str (path_join build_dir name)) /\
    last (path_join build_dir name) = Some name /\
    name = Py.join "-" ["shoal"; goos; goarch]
           +:+ (if bool_decide (goos = "windows") then ".exe" else "") /\
    (name = Py.join "-" ["shoal"; goos; goarch] +:+ ".exe"
     <-> goos = "windows") /\
    NoDup (map (fun t => platform_binary_name t.1 t.2) SUPPORTED_PLATFORMS).
Proof.
  intros goos goarch w w' Hrun name.
  pose proof (build_for_platform_spec goos goarch w) as Hspec.
  cbv zeta in Hspec.
  rewrite Hrun in Hspec. destruct Hspec as (_ & _ & Hsp & _ & Hthere & _).
  split; [apply Hthere; reflexivity|].
  split; [exact Hsp|].
  split; [reflexivity|]. split; [reflexivity|].
  split; [unfold path_join; apply last_snoc|].
  split; [apply platform_binary_name_joined|].
  split; [apply platform_binary_name_exe|].
  apply (bool_decide_unpack _ (dec := NoDup_dec _)). vm_compute. exact I.
Qed.

(** *** Building for all platforms *)

(** The builds for [platforms] run one after the other from [w]; each
    returns its entry of [oks] and prints, as its last line, what it
    returns; they leave [w']. *)
Fixpoint attempts (platforms : list (string * string)) (w : World)
    (oks : list bool) (w' : World) : Prop :=
  match platforms, oks with
  | [], [] => w' = w
  | (goos, goarch) :: rest, ok :: oks' =>
      exists w1,
        build_for_platform goos goarch w = (Ok ok, w1) /\
        last (trace w1) = Some (Printed (outcome_line goos goarch ok w1)) /\
        attempts rest w1 oks' w'
  | _, _ => False
  end.

(** For every target, [subprocess.run] starts the compiler or does not
    find it: it raises nothing but [FileNotFoundError]. *)
Definition compiler_starts : Prop :=
  forall (w : World) (goos goarch : string) (e : exn) (fs' : gmap path node),
    os_spawn w (go_build_cmd (artifact_path goos goarch)) root_dir (environ w)
      = Faulted e fs' ->
    exn_class_of e = FileNotFoundError.

Lemma build_dir_free_kept (goos goarch : string) (w : World) :
  spawn_keeps build_dir_free ->
  build_dir_free (fs w) ->
  build_dir_free (fs (build_for_platform goos goarch w).2).
Proof.
  intros Hkeep.
  revert w.
  change (keeps (fun w w' => build_dir_free (fs w) -> build_dir_free (fs w'))
            (build_for_platform goos goarch)).
  apply keeps_build_for_platform.
  - auto.
  - auto.
  - auto.
  - auto.
  - intros w args cwd Hfree. simpl. apply Hkeep. exact Hfree.
  - intros w Hfree. unfold mkdir_exist_ok.
    destruct (fs w !! build_dir) as [[c|]|] eqn:Hb; simpl; auto.
    intros c. unfold build_dir_free. rewrite lookup_insert_eq. discriminate.
Qed.

(** With a build directory that is no file and a compiler that starts,
    a build raises nothing. *)
Lemma build_for_platform_returns (goos goarch : string) (w : World) :
  compiler_starts ->
  build_dir_free (fs w) ->
  exists ok w1, build_for_platform goos goarch w = (Ok ok, w1).
Proof.
  intros Hstarts Hfree.
  pose proof (build_for_platform_spec goos goarch w) as Hspec.
  cbv zeta in Hspec.
  destruct (build_for_platform goos goarch w) as [[ok|e] w1]; [eauto|].
  exfalso. destruct Hspec as [[Hnot _]|(_ & Hrun & _)]; [contradiction|].
  assert (Hr : (run_command (go_build_cmd (artifact_path goos goarch)) None
                  true
                  (ready (step_line ("Building for " +:+ goos +:+ "/"
                                     +:+ goarch)) w)).1 = Raise e)
    by (rewrite Hrun; reflexivity).
  apply run_command_raises in Hr as [[fs' Hf] Hne].
  apply Hne. eapply Hstarts. exact Hf.
Qed.

Lemma build_each_spec (platforms : list (string * string)) :
  spawn_keeps build_dir_free ->
  compiler_starts ->
  forall (all_ok : bool) (w : World),
    build_dir_free (fs w) ->
    exists (oks : list bool) (w' : World),
      attempts platforms w oks w' /\
      build_each platforms all_ok w = (Ok (all_ok && forallb id oks), w') /\
      spawns (trace w') =
        spawns (trace w)
        ++ map (fun t => go_build_cmd (artifact_path t.1 t.2)) platforms.
Proof.
  intros Hkeep Hstarts.
  induction platforms as [|[goos goarch] rest IH]; intros all_ok w Hfree.
  - exists [], w. simpl. rewrite andb_true_r, app_nil_r. auto.
  - pose proof (build_for_platform_spec goos goarch w) as Hspec.
    cbv zeta in Hspec.
    pose proof (build_dir_free_kept goos goarch w Hkeep Hfree) as Hfree1.
    destruct (build_for_platform_returns goos goarch w Hstarts Hfree)
      as (ok & w1 & Hrun).
    rewrite Hrun in Hspec, Hfree1. cbn [snd] in Hfree1.
    destruct Hspec as (_ & _ & Hsp & _ & _ & Hlast).
    destruct (IH (all_ok && ok) w1 Hfree1) as (oks & w' & Hatt & Heach & Hsp').
    exists (ok :: oks), w'. split; [|split].
    + simpl. exists w1. auto.
    + simpl. unfold bind. rewrite Hrun, Heach.
      rewrite andb_assoc. reflexivity.
    + rewrite Hsp', Hsp. simpl. rewrite <- app_assoc. reflexivity.
Qed.

Lemma attempts_length platforms w oks w' :
  attempts platforms w oks w' -> length oks = length platforms.
Proof.
  revert w oks. induction platforms as [|[goos goarch] rest IH];
    intros w [|ok oks] H; simpl in *; try contradiction; [reflexivity|].
  destruct H as (w1 & _ & _ & H). f_equal. eauto.
Qed.

(** What each build of the loop returns, in the order of the loop. *)
Fixpoint outcomes (platforms : list (string * string)) (w : World)
    : list (result bool) :=
  match platforms with
  | [] => []
  | (goos, goarch) :: rest =>
      (build_for_platform goos goarch w).1
      :: outcomes rest (build_for_platform goos goarch w).2
  end.

Lemma attempts_outcomes platforms w oks w' :
  attempts platforms w oks w' -> outcomes platforms w = map Ok oks.
Proof.
  revert w oks. induction platforms as [|[goos goarch] rest IH];
    intros w [|ok oks] H; simpl in *; try contradiction; [reflexivity|].
  destruct H as (w1 & Hrun & _ & H). rewrite Hrun. simpl. f_equal. eauto.
Qed.

Lemma attempts_spawns platforms w oks w' :
  attempts platforms w oks w' ->
  spawns (trace w') =
    spawns (trace w)
    ++ map (fun t => go_build_cmd (artifact_path t.1 t.2)) platforms.
Proof.
  revert w oks. induction platforms as [|[goos goarch] rest IH];
    intros w [|ok oks] H; simpl in *; try contradiction.
  - subst. rewrite app_nil_r. reflexivity.
  - destruct H as (w1 & Hrun & _ & H).
    pose proof (build_for_platform_spec goos goarch w) as Hspec.
    cbv zeta in Hspec. rewrite Hrun in Hspec.
    destruct Hspec as (_ & _ & Hsp & _).
    rewrite (IH _ _ H), Hsp, <- app_assoc. reflexivity.
Qed.

(** A build that raises ends the loop. *)
Lemma build_each_stops (pre post : list (string * string))
    (goos goarch : string) (all_ok : bool) (w : World) (oks : list bool)
    (wk wf : World) (e : exn) :
  attempts pre w oks wk ->
  build_for_platform goos goarch wk = (Raise e, wf) ->
  build_each (pre ++ (goos, goarch) :: post) all_ok w = (Raise e, wf).
Proof.
  revert all_ok w oks. induction pre as [|[o a] pre IH];
    intros all_ok w [|ok oks] Hatt Hraise; simpl in *; try contradiction.
  - subst wk. exact (bind_raise _ _ _ _ _ Hraise).
  - destruct Hatt as (w1 & Hrun & _ & Hatt).
    rewrite (bind_ok _ _ _ _ _ Hrun). eapply IH; eassumption.
Qed.

(** C3, as the code has it.  When no build raises (the name of the
    build directory is never taken by a regular file, and
    [subprocess.run] starts the compiler or does not find it), the build
    for all platforms hands the compiler's command line to
    [subprocess.run] exactly once for each declared target, in the order
    of the declaration, whatever the results of the builds before; it
    returns [True] exactly when every one of these builds returned
    [True]; that boolean is all it returns, and what each build returned
    is only printed, as the last line of that build.  A build that
    raises ends the run: the exception leaves [build_all_platforms], and
    no later target is attempted. *)
Theorem build_all_platforms_attempts_all :
  forall (w : World),
    let w0 := (print_header "Building for all supported platforms" w).2 in
    let cmd := fun t : string * string =>
                 go_build_cmd (artifact_path t.1 t.2) in
    (spawn_keeps build_dir_free ->
     compiler_starts ->
     build_dir_free (fs w) ->
     exists (oks : list bool) (w' : World),
       attempts SUPPORTED_PLATFORMS w0 oks w' /\
       outcomes SUPPORTED_PLATFORMS w0 = map Ok oks /\
       length oks = length SUPPORTED_PLATFORMS /\
       build_all_platforms w = (Ok (forallb id oks), w') /\
       (forallb id oks = true <-> Forall (fun ok => ok = true) oks) /\
       spawns (trace w') = spawns (trace w) ++ map cmd SUPPORTED_PLATFORMS)
    /\
    (forall (pre post : list (string * string)) (goos goarch : string)
            (oks : list bool) (wk wf : World) (e : exn),
        SUPPORTED_PLATFORMS = pre ++ (goos, goarch) :: post ->
        attempts pre w0 oks wk ->
        build_for_platform goos goarch wk = (Raise e, wf) ->
        build_all_platforms w = (Raise e, wf) /\
        (spawns (trace wf) = spawns (trace w) ++ map cmd pre \/
         spawns (trace wf)
           = spawns (trace w) ++ map cmd pre ++ [cmd (goos, goarch)])).
Proof.
  intros w w0 cmd.
  assert (Hw0 : spawns (trace w0) = spawns (trace w)).
  { unfold w0. simpl. rewrite !spawns_app. simpl. rewrite !app_nil_r.
    reflexivity. }
  split.
  - intros Hkeep Hstarts Hfree.
    destruct (build_each_spec SUPPORTED_PLATFORMS Hkeep Hstarts true w0)
      as (oks & w' & Hatt & Heach & Hsp); [exact Hfree|].
    exists oks, w'. split; [exact Hatt|].
    split; [eapply attempts_outcomes; exact Hatt|].
    split; [eapply attempts_length; exact Hatt|].
    split; [exact Heach|]. split.
    + rewrite forallb_forall, Forall_forall. unfold id.
      split; intros H x Hx; apply H; apply list_elem_of_In; exact Hx.
    + rewrite Hsp, Hw0. reflexivity.
  - intros pre post goos goarch oks wk wf e Hsplit Hatt Hraise. split.
    + unfold build_all_platforms.
      rewrite (bind_ok _ _ w w0 tt) by reflexivity.
      rewrite Hsplit. eapply build_each_stops; eassumption.
    + pose proof (attempts_spawns _ _ _ _ Hatt) as Hsp. rewrite Hw0 in Hsp.
      pose proof (build_for_platform_spec goos goarch wk) as Hspec.
      cbv zeta in Hspec. rewrite Hraise in Hspec.
      destruct Hspec as [[_ Hs]|(_ & _ & Hs)]; rewrite Hs, Hsp.
      * left. reflexivity.
      * right. rewrite <- app_assoc. reflexivity.
Qed.

(** *** Cleaning *)

(** The tree after [unlink_each]. *)
Fixpoint sweep (patterns : list string) (f : gmap path node)
    : gmap path node :=
  match patterns with
  | [] => f
  | pattern :: rest =>
      sweep rest (filter (fun e => ~ rglob_file pattern e) f)
  end.

Lemma unlink_each_sweep (patterns : list string) (w : World) :
  unlink_each patterns w = (Ok tt, set_fs (sweep patterns (fs w)) w).
Proof.
  revert w. induction patterns as [|pattern rest IH]; intros w; simpl.
  - destruct w; reflexivity.
  - unfold bind, unlink_matching. rewrite IH. reflexivity.
Qed.

Lemma sweep_lookup (patterns : list string) (f : gmap path node)
    (p : path) (n : node) :
  sweep patterns f !! p = Some n <->
  f !! p = Some n /\ forall pattern, pattern ∈ patterns ->
                                     ~ rglob_file pattern (p, n).
Proof.
  revert f. induction patterns as [|pattern rest IH]; intros f; simpl.
  - split; [intros H; split; [exact H|]|intros [H _]; exact H].
    intros pattern Hin. inversion Hin.
  - rewrite IH, map_lookup_filter_Some. split.
    + intros [[Hf Hp] Hrest]. split; [exact Hf|].
      intros pattern' Hin. apply elem_of_cons in Hin as [->|Hin]; auto.
    + intros [Hf Hall]. split; [split; [exact Hf|]|].
      * apply Hall. left.
      * intros pattern' Hin. apply Hall. right. exact Hin.
Qed.

Lemma sweep_None (patterns : list string) (f : gmap path node) (p : path) :
  f !! p = None -> sweep patterns f !! p = None.
Proof.
  intros Hf. destruct (sweep patterns f !! p) as [n|] eqn:Hs; [|reflexivity].
  apply sweep_lookup in Hs as [Hs _]. congruence.
Qed.

Lemma sweep_idempotent (patterns : list string) (f : gmap path node) :
  sweep patterns (sweep patterns f) = sweep patterns f.
Proof.
  apply map_eq. intros p. apply option_eq. intros n.
  rewrite (sweep_lookup patterns (sweep patterns f)). split.
  - intros [H _]. exact H.
  - intros H. split; [exact H|]. apply sweep_lookup in H as [_ H]. exact H.
Qed.

Lemma sweep_nothing (patterns : list string) (f : gmap path node) :
  (forall pattern p n,
      pattern ∈ patterns -> f !! p = Some n -> ~ rglob_file pattern (p, n)) ->
  sweep patterns f = f.
Proof.
  intros Hno. apply map_eq. intros p. apply option_eq. intros n.
  rewrite sweep_lookup. split; [intros [H _]; exact H|].
  intros H. split; [exact H|]. intros pattern Hin. eapply Hno; eauto.
Qed.

(** The path of the binary that [clean] removes from the root. *)
Definition root_binary : path := path_join root_dir binary_name.

(** The tree that [clean] leaves, from the tree it finds. *)
Definition clean_tree (f : gmap path node) : gmap path node :=
  match f !! build_dir with
  | Some (File _) => f
  | found =>
      let f1 := match found with
                | Some Dir => filter (fun e => ~ below build_dir e.1) f
                | _ => f
                end in
      match f1 !! root_binary with
      | Some Dir => f1
      | Some (File _) => sweep test_artifacts (delete root_binary f1)
      | None => sweep test_artifacts f1
      end
  end.

(** What [clean] returns, from the tree it finds: it raises when the
    name of the build directory is taken by a file or the name of the
    binary by a directory, and returns [True] otherwise. *)
Definition clean_raises (f : gmap path node) : bool :=
  match f !! build_dir, f !! root_binary with
  | Some (File _), _ => true
  | _, Some Dir => true
  | _, _ => false
  end.

Lemma root_binary_not_below : ~ below build_dir root_binary.
Proof.
  unfold below, build_dir, root_binary, path_join, root_dir, binary_name.
  simpl. intros [k Hk].
  destruct (platform_system =? "Windows")%string; simpl in Hk; discriminate.
Qed.

Lemma root_binary_not_build_dir : root_binary <> build_dir.
Proof.
  unfold build_dir, root_binary, path_join, root_dir, binary_name. simpl.
  destruct (platform_system =? "Windows")%string; discriminate.
Qed.

Lemma clean_spec (w : World) :
  exists (r : result bool) (w' : World),
    clean w = (r, w') /\
    fs w' = clean_tree (fs w) /\
    environ w' = environ w /\
    (clean_raises (fs w) = false -> r = Ok true) /\
    (clean_raises (fs w) = true -> exists e, r = Raise e).
Proof.
  destruct (clean w) as [r w'] eqn:Hc. exists r, w'.
  split; [reflexivity|]. revert Hc.
  unfold clean, clean_tree, clean_raises.
  fold root_binary.
  unfold print_step. unfold bind at 1. unfold print at 1.
  unfold bind at 1. unfold exists_ at 1. cbn [fs emit].
  assert (Hrb : filter (fun e => ~ below build_dir e.1) (fs w) !! root_binary
                = fs w !! root_binary).
  { destruct (fs w !! root_binary) as [n|] eqn:Hr.
    - apply map_lookup_filter_Some. split; [exact Hr|].
      apply root_binary_not_below.
    - apply map_lookup_filter_None. left. exact Hr. }
  destruct (fs w !! build_dir) as [[c|]|] eqn:Hb.
  - rewrite bool_decide_eq_true_2 by eauto. cbn [when].
    unfold bind at 1. unfold bind at 1. unfold rmtree at 1. cbn [fs emit].
    rewrite Hb. intros [= <- <-]. cbn [fs environ emit].
    repeat split; eauto. discriminate.
  - rewrite bool_decide_eq_true_2 by eauto. cbn [when].
    unfold bind at 1. unfold bind at 1. unfold rmtree at 1. cbn [fs emit].
    rewrite Hb. unfold print_success at 1, print at 1.
    unfold bind at 1. unfold exists_ at 1. cbn [fs emit set_fs].
    rewrite Hrb.
    destruct (fs w !! root_binary) as [[c|]|] eqn:Hr.
    + rewrite bool_decide_eq_true_2 by eauto. cbn [when].
      unfold bind at 1. unfold bind at 1. unfold unlink at 1.
      cbn [fs emit set_fs]. rewrite Hrb.
      unfold print_success at 1, print at 1.
      unfold bind at 1. rewrite unlink_each_sweep.
      unfold bind, print_success, print, ret.
      intros [= <- <-]. cbn [fs environ emit set_fs].
      repeat split; eauto. discriminate.
    + rewrite bool_decide_eq_true_2 by eauto. cbn [when].
      unfold bind at 1. unfold bind at 1. unfold unlink at 1.
      cbn [fs emit set_fs]. rewrite Hrb.
      intros [= <- <-]. cbn [fs environ emit set_fs].
      repeat split; eauto. discriminate.
    + rewrite bool_decide_eq_false_2 by (intros [? ?]; discriminate).
      cbn [when]. unfold bind at 1. unfold ret at 1.
      unfold bind at 1. rewrite unlink_each_sweep.
      unfold bind, print_success, print, ret.
      intros [= <- <-]. cbn [fs environ emit set_fs].
      repeat split; eauto. discriminate.
  - rewrite bool_decide_eq_false_2 by (intros [? ?]; discriminate).
    cbn [when]. unfold bind at 1. unfold ret at 1.
    unfold bind at 1. unfold exists_ at 1. cbn [fs emit].
    destruct (fs w !! root_binary) as [[c|]|] eqn:Hr.
    + rewrite bool_decide_eq_true_2 by eauto. cbn [when].
      unfold bind at 1. unfold bind at 1. unfold unlink at 1.
      cbn [fs emit set_fs]. rewrite Hr.
      unfold print_success at 1, print at 1.
      unfold bind at 1. rewrite unlink_each_sweep.
      unfold bind, print_success, print, ret.
      intros [= <- <-]. cbn [fs environ emit set_fs].
      repeat split; eauto. discriminate.
    + rewrite bool_decide_eq_true_2 by eauto. cbn [when].
      unfold bind at 1. unfold bind at 1. unfold unlink at 1.
      cbn [fs emit set_fs]. rewrite Hr.
      intros [= <- <-]. cbn [fs environ emit set_fs].
      repeat split; eauto. discriminate.
    + rewrite bool_decide_eq_false_2 by (intros [? ?]; discriminate).
      cbn [when]. unfold bind at 1. unfold ret at 1.
      unfold bind at 1. rewrite unlink_each_sweep.
      unfold bind, print_success, print, ret.
      intros [= <- <-]. cbn [fs environ emit set_fs].
      repeat split; eauto. discriminate.
Qed.

Lemma filter_below_build_dir (f : gmap path node) :
  filter (fun e => ~ below build_dir e.1) f !! build_dir = None.
Proof.
  apply map_lookup_filter_None. right. intros n _ Hn. apply Hn.
  unfold below. reflexivity.
Qed.

Lemma clean_tree_swept (g : gmap path node) :
  g !! build_dir = None -> g !! root_binary = None ->
  clean_tree g = sweep test_artifacts g /\ clean_raises g = false.
Proof.
  intros Hb Hr. unfold clean_tree, clean_raises. rewrite Hb, Hr. auto.
Qed.

Lemma clean_tree_blocked (g : gmap path node) :
  g !! build_dir = None -> g !! root_binary = Some Dir ->
  clean_tree g = g.
Proof. intros Hb Hr. unfold clean_tree. rewrite Hb, Hr. reflexivity. Qed.

(** What [clean] leaves is a tree that [clean] leaves as it is, and when
    the first run did not raise the second does not either. *)
Lemma clean_tree_idempotent (f : gmap path node) :
  clean_tree (clean_tree f) = clean_tree f /\
  (clean_raises f = false -> clean_raises (clean_tree f) = false).
Proof.
  assert (Hswept : forall g,
             g !! build_dir = None -> g !! root_binary = None ->
             clean_tree (sweep test_artifacts g) = sweep test_artifacts g /\
             clean_raises (sweep test_artifacts g) = false).
  { intros g Hb Hr.
    destruct (clean_tree_swept (sweep test_artifacts g)) as [Ht Hn];
      [apply sweep_None; exact Hb|apply sweep_None; exact Hr|].
    rewrite Ht, sweep_idempotent. auto. }
  assert (Hbin : forall g,
             g !! build_dir = None ->
             clean_tree (clean_tree g) = clean_tree g /\
             (clean_raises g = false -> clean_raises (clean_tree g) = false)).
  { intros g Hb. unfold clean_tree at 2 3 4, clean_raises at 1. rewrite Hb.
    destruct (g !! root_binary) as [[c|]|] eqn:Hr.
    - destruct (Hswept (delete root_binary g)) as [H1 H2].
      + rewrite lookup_delete_ne by apply root_binary_not_build_dir. exact Hb.
      + apply lookup_delete_eq.
      + auto.
    - split; [|discriminate].
      apply clean_tree_blocked; assumption.
    - destruct (Hswept g Hb Hr). auto. }
  destruct (f !! build_dir) as [[c|]|] eqn:Hb.
  - unfold clean_tree at 2 3 4, clean_raises at 1. rewrite Hb.
    split; [|discriminate].
    unfold clean_tree. rewrite Hb. reflexivity.
  - set (f1 := filter (fun e => ~ below build_dir e.1) f).
    assert (Hf1 : f1 !! build_dir = None) by apply filter_below_build_dir.
    assert (Hrb : f1 !! root_binary = f !! root_binary).
    { destruct (f !! root_binary) as [n|] eqn:Hr.
      - apply map_lookup_filter_Some. split; [exact Hr|].
        apply root_binary_not_below.
      - apply map_lookup_filter_None. left. exact Hr. }
    assert (Ht : clean_tree f = clean_tree f1).
    { unfold clean_tree. rewrite Hb, Hf1. fold f1. reflexivity. }
    assert (Hn : clean_raises f = clean_raises f1).
    { unfold clean_raises. rewrite Hb, Hf1, Hrb. reflexivity. }
    rewrite Ht, Hn. apply Hbin. exact Hf1.
  - apply Hbin. exact Hb.
Qed.

(** There is nothing for [clean] to remove. *)
Definition nothing_to_remove (f : gmap path node) : Prop :=
  f !! build_dir = None /\
  f !! root_binary = None /\
  forall pattern p n,
    pattern ∈ test_artifacts -> f !! p = Some n ->
    ~ rglob_file pattern (p, n).

(** C9: from every world, a second [clean] right after the first leaves
    the project tree (and the environment) as the first left them; when
    the first returned [True] the second does; and where there is
    nothing to remove, [clean] returns [True] and leaves the tree as it
    found it. *)
Theorem clean_idempotent :
  forall (w : World),
    let w1 := (clean w).2 in
    let w2 := (clean w1).2 in
    fs w2 = fs w1 /\
    environ w2 = environ w1 /\
    ((clean w).1 = Ok true -> (clean w1).1 = Ok true) /\
    (nothing_to_remove (fs w) -> (clean w).1 = Ok true /\ fs w1 = fs w).
Proof.
  intros w w1 w2. subst w2 w1.
  destruct (clean_spec w) as (r & w1 & Hc & Hfs & Henv & Hok & Hraise).
  rewrite Hc. cbn [fst snd].
  destruct (clean_spec w1) as (r2 & w2 & Hc2 & Hfs2 & Henv2 & Hok2 & Hraise2).
  rewrite Hc2. cbn [fst snd].
  destruct (clean_tree_idempotent (fs w)) as [Hidem Hverdict].
  split; [rewrite Hfs2, Hfs; exact Hidem|].
  split; [exact Henv2|]. split.
  - intros ->. apply Hok2. rewrite Hfs. apply Hverdict.
    destruct (clean_raises (fs w)); [|reflexivity].
    destruct (Hraise eq_refl) as [e He]. discriminate.
  - intros (Hb & Hr & Hno).
    destruct (clean_tree_swept (fs w) Hb Hr) as [Ht Hn].
    split; [apply Hok; exact Hn|].
    rewrite Hfs, Ht. apply sweep_nothing. exact Hno.
Qed.

(** ** The command line *)

(** [f"{time.time() - self.start_time:.1f}"] when the summary is printed. *)
Variable elapsed_str : World -> string.

(** [sys.exit(status)]: the text of the [SystemExit] is the status. *)
Definition sys_exit {A} (status : Z) : M A :=
  raise (Exn SystemExit (pretty status)).

(** The commands that the parser of [main] takes. *)
Definition choices : list string :=
  [ "build"; "test"; "clean"; "fmt"; "lint"; "coverage"; "deps"; "validate";
    "build-all" ].

(** [parser.parse_args()], for a command line that is the command
    [command] followed, when [platform] is given, by [--platform] and
    its value (a command line with no command is the one with
    "validate").  A command that is none of the choices is refused with
    [sys.exit(2)], after a usage message on the error stream, which the
    trace does not hold. *)
Definition parse_args (command : string) (platform : option string)
    : M (string * option string) :=
  if bool_decide (command ∈ choices) then ret (command, platform)
  else sys_exit 2.

Definition print_summary (success : bool) (elapsed_time : string) : M unit :=
  print_header "Build Summary" ;;
  let status := if success then "SUCCESS" else "FAILED" in
  let color := if success then Colors.GREEN else Colors.RED in
  print ("Status: " +:+ Colors.BOLD +:+ color +:+ status +:+ Colors.RESET) ;;
  print ("Time: " +:+ elapsed_time +:+ "s") ;;
  let* build_there := exists_ build_dir in
  when (success && build_there)
    (let binary_path := path_join build_dir binary_name in
     let* binary_there := exists_ binary_path in
     when binary_there (print ("Binary: " +:+ path_str binary_path))).

(** [a() and b()] for two operations that return booleans. *)
Definition and_then (a b : M bool) : M bool :=
  let* ok := a in
  if ok then b else ret false.

(** The branch of [main] for a command: what the [try] block runs.
    [platform] is [args.platform]; an absent or empty one is false. *)
Definition dispatch (command : string) (platform : option string) : M bool :=
  if String.eqb command "clean" then clean
  else if String.eqb command "deps" then
    and_then check_prerequisites download_dependencies
  else if String.eqb command "fmt" then
    and_then check_prerequisites format_code
  else if String.eqb command "lint" then
    and_then check_prerequisites lint_code
  else if String.eqb command "test" then
    and_then check_prerequisites
      (and_then download_dependencies (run_tests false))
  else if String.eqb command "coverage" then
    and_then check_prerequisites
      (and_then download_dependencies (run_tests true))
  else if String.eqb command "build" then
    if Py.truthy (default "" platform) then
      match Py.split_on "/" (default "" platform) with
      | [goos; goarch] =>
          and_then check_prerequisites
            (and_then download_dependencies
               (build_for_platform goos goarch))
      | _ =>
          print_error
            "--platform must be in the form os/arch, e.g., linux/amd64" ;;
          sys_exit 1
      end
    else
      and_then check_prerequisites
        (and_then download_dependencies build_binary)
  else if String.eqb command "build-all" then
    and_then check_prerequisites
      (and_then download_dependencies build_all_platforms)
  else if String.eqb command "validate" then validate
  else ret false.

Definition main (command : string) (platform : option string) : M unit :=
  let* '(command, platform) := parse_args command platform in
  let* success :=
    try_except (dispatch command platform)
      (fun e =>
         match exn_class_of e with
         | KeyboardInterrupt =>
             Some (print_error "Build interrupted by user" ;; ret false)
         | SystemExit => None
         | _ =>
             Some (print_error
                     ("Build failed with exception: " +:+ exn_str e) ;;
                   ret false)
         end) in
  (fun w => print_summary success (elapsed_str w) w) ;;
  sys_exit (if success then 0 else 1).

(** *** What no operation of the runner does *)

(** A relation between the world before and the world after that holds
    across printing, across any change of the project tree, across a file
    written by the script and across the start of a child in the project
    root with the environment of the script holds across every
    operation of the runner, [main] included. *)
Section KeepsAll.

Variable R : World -> World -> Prop.
Hypothesis R_refl : forall w, R w w.
Hypothesis R_trans : forall w1 w2 w3, R w1 w2 -> R w2 w3 -> R w1 w3.
Hypothesis R_print : forall line w, R w (emit (Printed line) w).
Hypothesis R_tree : forall f w, R w (set_fs f w).
Hypothesis R_wrote : forall p c w, R w (emit (Wrote p c) w).
Hypothesis R_spawn_root :
  forall w args, R w (emit (Spawned args root_dir (environ w)) w).

Lemma keeps_all_bind {A B} (m : M A) (k : A -> M B) :
  keeps R m -> (forall a, keeps R (k a)) -> keeps R (bind m k).
Proof. apply keeps_bind; assumption. Qed.

Lemma keeps_all_print (line : string) : keeps R (print line).
Proof. intros w. apply R_print. Qed.

Lemma keeps_all_print_header (title : string) : keeps R (print_header title).
Proof. apply keeps_print_header; assumption. Qed.

Lemma keeps_all_mkdir (p : path) : keeps R (mkdir_exist_ok p).
Proof.
  intros w. unfold mkdir_exist_ok, refused, raise.
  destruct (fs w !! p) as [[|]|]; simpl; auto.
Qed.

Lemma keeps_all_rmtree (p : path) : keeps R (rmtree p).
Proof.
  intros w. unfold rmtree, refused, raise.
  destruct (fs w !! p) as [[|]|]; simpl; auto.
Qed.

Lemma keeps_all_unlink (p : path) : keeps R (unlink p).
Proof.
  intros w. unfold unlink, refused, raise.
  destruct (fs w !! p) as [[|]|]; simpl; auto.
Qed.

Lemma keeps_all_unlink_matching (pattern : string) :
  keeps R (unlink_matching pattern).
Proof. intros w. apply R_tree. Qed.

Lemma keeps_all_unlink_each (patterns : list string) :
  keeps R (unlink_each patterns).
Proof.
  induction patterns as [|pattern rest IH]; simpl.
  - apply (keeps_ret R R_refl).
  - apply keeps_all_bind; [apply keeps_all_unlink_matching|intros _; exact IH].
Qed.

Lemma keeps_all_write_text (p : path) (content : string) :
  keeps R (write_text p content).
Proof.
  intros w. unfold write_text, refused, raise.
  destruct (dir_fault (fs w) (parent p)); simpl; auto.
  destruct (fs w !! p) as [[|]|]; simpl; auto;
    (eapply R_trans; [apply R_tree|apply R_wrote]).
Qed.

Lemma keeps_all_run_command (cmd : list string) (check : bool) :
  keeps R (run_command cmd None check).
Proof.
  intros w. destruct cmd as [|exe rest]; [apply R_refl|].
  rewrite run_command_unfold. simpl default.
  assert (Hx : forall fs',
             R w (set_fs fs'
                    (emit (Spawned (exe :: rest) root_dir (environ w)) w))).
  { intros fs'. eapply R_trans; [apply R_spawn_root|apply R_tree]. }
  destruct (os_spawn w (exe :: rest) root_dir (environ w))
    as [|rc out err fs'|e fs'] eqn:Hs; simpl.
  - eapply R_trans; [apply R_spawn_root|apply R_print].
  - destruct (check && negb (rc =? 0)); [|apply Hx].
    eapply R_trans; [apply Hx|]. apply diagnostics_keeps; assumption.
  - destruct (exn_class_of e); try apply Hx.
    eapply R_trans; [apply Hx|apply R_print].
Qed.

Lemma keeps_all_try_except {A} (m : M A) (h : exn -> option (M A)) :
  keeps R m ->
  (forall e k, h e = Some k -> keeps R k) ->
  keeps R (try_except m h).
Proof.
  intros Hm Hh w. unfold try_except. specialize (Hm w).
  destruct (m w) as [[a|e] w1]; simpl in *; [exact Hm|].
  destruct (h e) as [k|] eqn:He; simpl; [|exact Hm].
  eapply R_trans; [exact Hm|]. eapply Hh. exact He.
Qed.

Ltac keeps_all_step :=
  first
    [ apply (keeps_ret R R_refl)
    | apply (keeps_raise R R_refl)
    | apply keeps_all_print_header
    | apply keeps_all_print
    | apply (keeps_exists R R_refl)
    | apply (keeps_stat_size_mb R R_refl)
    | apply keeps_all_mkdir | apply keeps_all_rmtree
    | apply keeps_all_unlink | apply keeps_all_unlink_each
    | apply keeps_all_write_text
    | apply keeps_all_run_command
    | apply (keeps_when R R_refl)
    | apply keeps_all_bind; [|intros ?]
    | match goal with
      | |- keeps R (let '(_, _) := ?x in _) => destruct x as [[? ?] ?]
      | |- keeps R (if ?b then _ else _) => destruct b
      | |- keeps R (match ?x with _ => _ end) => destruct x
      end ].

Ltac keeps_all_go := repeat keeps_all_step.

Lemma keeps_all_check_prerequisites : keeps R check_prerequisites.
Proof. unfold check_prerequisites. keeps_all_go. Qed.

Lemma keeps_all_download_dependencies : keeps R download_dependencies.
Proof. unfold download_dependencies. keeps_all_go. Qed.

Lemma keeps_all_format_code : keeps R format_code.
Proof. unfold format_code. keeps_all_go. Qed.

Lemma keeps_all_lint_code : keeps R lint_code.
Proof. unfold lint_code. keeps_all_go. Qed.

Lemma keeps_all_report_total_coverage (lines : list string) :
  keeps R (report_total_coverage lines).
Proof.
  induction lines as [|line rest IH]; simpl; keeps_all_go. exact IH.
Qed.

Lemma keeps_all_run_tests (with_coverage : bool) :
  keeps R (run_tests with_coverage).
Proof.
  unfold run_tests. keeps_all_go; apply keeps_all_report_total_coverage.
Qed.

Lemma keeps_all_build_binary : keeps R build_binary.
Proof. unfold build_binary. keeps_all_go. Qed.

Lemma keeps_all_run_security_checks : keeps R run_security_checks.
Proof. unfold run_security_checks. keeps_all_go. Qed.

Lemma keeps_all_build_for_platform (goos goarch : string) :
  keeps R (build_for_platform goos goarch).
Proof.
  unfold build_for_platform.
  apply keeps_all_bind; [keeps_all_go|intros _].
  apply keeps_all_bind; [keeps_all_go|intros _].
  intros w. cbv zeta.
  match goal with |- R w (?m w).2 => assert (Hm : keeps R m) by keeps_all_go end.
  apply Hm.
Qed.

Lemma keeps_all_build_each (platforms : list (string * string))
    (all_ok : bool) : keeps R (build_each platforms all_ok).
Proof.
  revert all_ok. induction platforms as [|[goos goarch] rest IH];
    intros all_ok; simpl.
  - apply (keeps_ret R R_refl).
  - apply keeps_all_bind; [apply keeps_all_build_for_platform|].
    intros ok. apply IH.
Qed.

Lemma keeps_all_build_all_platforms : keeps R build_all_platforms.
Proof.
  unfold build_all_platforms.
  apply keeps_all_bind; [apply keeps_all_print_header|intros _].
  apply keeps_all_build_each.
Qed.

Lemma keeps_all_clean : keeps R clean.
Proof. unfold clean, print_step, print_success. keeps_all_go. Qed.

Lemma keeps_all_generate_build_info : keeps R generate_build_info.
Proof.
  unfold generate_build_info.
  do 4 (apply keeps_all_bind; [keeps_all_go|intros [[? ?] ?]]).
  intros w. cbv zeta.
  match goal with |- R w (?m w).2 => assert (Hm : keeps R m) by keeps_all_go end.
  apply Hm.
Qed.

Lemma keeps_all_run_steps (todo : list Step) :
  Forall (fun s => keeps R (step_func s)) todo -> keeps R (run_steps todo).
Proof.
  induction 1 as [|s rest Hs _ IH]; simpl; [apply (keeps_ret R R_refl)|].
  intros w. specialize (Hs w).
  destruct (step_func s w) as [[[|]|e] w1]; simpl in *.
  - eapply R_trans; [exact Hs|apply IH].
  - eapply R_trans; [exact Hs|apply R_print].
  - destruct (is_Exception e); simpl; [|exact Hs].
    eapply R_trans; [exact Hs|apply R_print].
Qed.

Lemma keeps_all_steps : Forall (fun s => keeps R (step_func s)) steps.
Proof.
  unfold steps. repeat constructor; simpl.
  - apply keeps_all_check_prerequisites.
  - apply keeps_all_download_dependencies.
  - apply keeps_all_format_code.
  - apply keeps_all_lint_code.
  - apply keeps_all_run_tests.
  - apply keeps_all_run_security_checks.
  - apply keeps_all_build_binary.
Qed.

Lemma keeps_all_validate : keeps R validate.
Proof.
  unfold validate, run_pipeline.
  apply keeps_all_bind; [apply keeps_all_print_header|intros _].
  apply keeps_all_bind; [apply keeps_all_run_steps, keeps_all_steps|].
  intros [|]; [|apply (keeps_ret R R_refl)].
  apply keeps_all_bind; [apply keeps_all_generate_build_info|intros _].
  keeps_all_go.
Qed.

Lemma keeps_all_and_then (a b : M bool) :
  keeps R a -> keeps R b -> keeps R (and_then a b).
Proof.
  intros Ha Hb. unfold and_then. apply keeps_all_bind; [exact Ha|].
  intros [|]; [exact Hb|apply (keeps_ret R R_refl)].
Qed.

Lemma keeps_all_print_summary (success : bool) (elapsed_time : string) :
  keeps R (print_summary success elapsed_time).
Proof. unfold print_summary. keeps_all_go. Qed.

Lemma keeps_all_dispatch (command : string) (platform : option string) :
  keeps R (dispatch command platform).
Proof.
  unfold dispatch.
  repeat match goal with
         | |- keeps R (if ?b then _ else _) => destruct b
         end;
    try match goal with
        | |- keeps R (match ?x with _ => _ end) =>
            destruct x as [|goos [|goarch [|? ?]]]
        end;
    repeat first
      [ simple apply keeps_all_clean | simple apply keeps_all_validate
      | simple apply keeps_all_check_prerequisites
      | simple apply keeps_all_download_dependencies
      | simple apply keeps_all_format_code | simple apply keeps_all_lint_code
      | simple apply keeps_all_run_tests | simple apply keeps_all_build_binary
      | simple apply keeps_all_build_for_platform
      | simple apply keeps_all_build_all_platforms
      | simple apply keeps_all_and_then
      | simple apply (keeps_ret R R_refl)
      | simple apply (keeps_raise R R_refl)
      | simple apply keeps_all_print
      | apply (keeps_all_print (error_line _))
      | apply (keeps_raise R R_refl)
      | simple apply keeps_all_bind; [|intros ?] ].
Qed.

Lemma keeps_all_main (command : string) (platform : option string) :
  keeps R (main command platform).
Proof.
  unfold main, parse_args, sys_exit, print_error.
  apply keeps_all_bind; [keeps_all_go|intros [command' platform']].
  apply keeps_all_bind.
  - apply keeps_all_try_except; [apply keeps_all_dispatch|].
    intros e k Hk. destruct (exn_class_of e); inversion Hk; subst;
      keeps_all_go.
  - intros success. apply keeps_all_bind; [|intros _; keeps_all_go].
    intros w. apply keeps_all_print_summary.
Qed.

End KeepsAll.

(** *** What the runner can raise *)

(** The faults of the file system and of an empty command line. *)
Definition os_error (e : exn) : Prop :=
  match exn_class_of e with
  | FileNotFoundError | FileExistsError | NotADirectoryError
  | IsADirectoryError | IndexError => True
  | _ => False
  end.

(** What the runner raises is a fault of the file system, the fault of
    an empty command line, or what [subprocess.run] raised. *)
Section RaisesOnly.

Variable P : exn -> Prop.
Hypothesis P_os : forall e, os_error e -> P e.
Hypothesis P_host :
  forall w args cwd env e fs',
    os_spawn w args cwd env = Faulted e fs' -> P e.

(** Whatever [m] raises satisfies [P]. *)
Definition raises_only {A} (m : M A) : Prop :=
  forall w e w', m w = (Raise e, w') -> P e.

Lemma raises_only_ret {A} (a : A) : raises_only (ret a).
Proof. intros w e w' H. discriminate. Qed.

Lemma raises_only_raise {A} (e : exn) : P e -> raises_only (@raise A e).
Proof. intros He w e' w' H. injection H as <- _. exact He. Qed.

Lemma raises_only_bind {A B} (m : M A) (k : A -> M B) :
  raises_only m -> (forall a, raises_only (k a)) -> raises_only (bind m k).
Proof.
  intros Hm Hk w e w' H. unfold bind in H.
  destruct (m w) as [[a|e0] w1] eqn:Hmw.
  - eapply Hk. exact H.
  - injection H as <- <-. eapply Hm. exact Hmw.
Qed.

Lemma raises_only_when (b : bool) (m : M unit) :
  raises_only m -> raises_only (when b m).
Proof. intros Hm. destruct b; simpl; [exact Hm|apply raises_only_ret]. Qed.

Lemma raises_only_print (line : string) : raises_only (print line).
Proof. intros w e w' H. discriminate. Qed.

Lemma raises_only_print_header (title : string) :
  raises_only (print_header title).
Proof. intros w e w' H. discriminate. Qed.

Lemma raises_only_exists (p : path) : raises_only (exists_ p).
Proof. intros w e w' H. discriminate. Qed.

Lemma raises_only_stat_size_mb (p : path) : raises_only (stat_size_mb p).
Proof.
  intros w e w' H. unfold stat_size_mb, refused, raise in H.
  destruct (fs w !! p); [discriminate|].
  injection H as <- _. apply P_os. exact I.
Qed.

Lemma raises_only_mkdir (p : path) : raises_only (mkdir_exist_ok p).
Proof.
  intros w e w' H. unfold mkdir_exist_ok, refused, raise in H.
  destruct (fs w !! p) as [[|]|]; try discriminate.
  injection H as <- _. apply P_os. exact I.
Qed.

Lemma raises_only_rmtree (p : path) : raises_only (rmtree p).
Proof.
  intros w e w' H. unfold rmtree, refused, raise in H.
  destruct (fs w !! p) as [[|]|]; try discriminate;
    injection H as <- _; apply P_os; exact I.
Qed.

Lemma raises_only_unlink (p : path) : raises_only (unlink p).
Proof.
  intros w e w' H. unfold unlink, refused, raise in H.
  destruct (fs w !! p) as [[|]|]; try discriminate;
    injection H as <- _; apply P_os; exact I.
Qed.

Lemma raises_only_unlink_each (patterns : list string) :
  raises_only (unlink_each patterns).
Proof.
  intros w e w' H. rewrite unlink_each_sweep in H. discriminate.
Qed.

Lemma walk_fault (f : gmap path node) (from : path) (names : list string)
    (c : exn_class) :
  walk f from names = Some c ->
  c = NotADirectoryError \/ c = FileNotFoundError.
Proof.
  revert from. induction names as [|name names IH]; intros from H;
    simpl in H; [discriminate|].
  destruct (f !! (from ++ [name])) as [[|]|].
  - injection H as <-. auto.
  - eapply IH. exact H.
  - injection H as <-. auto.
Qed.

Lemma raises_only_write_text (p : path) (content : string) :
  raises_only (write_text p content).
Proof.
  intros w e w' H. unfold write_text, refused, raise in H.
  destruct (dir_fault (fs w) (parent p)) as [c|] eqn:Hd.
  - injection H as <- _. apply P_os. unfold os_error. cbn [exn_class_of].
    destruct (walk_fault _ _ _ _ Hd) as [-> | ->]; exact I.
  - destruct (fs w !! p) as [[|]|]; try discriminate.
    injection H as <- _. apply P_os. exact I.
Qed.

Lemma raises_only_run_command (cmd : list string) (cwd : option path)
    (check : bool) : raises_only (run_command cmd cwd check).
Proof.
  intros w e w' H. destruct cmd as [|exe rest].
  - injection H as <- _. apply P_os. exact I.
  - assert (Hr : (run_command (exe :: rest) cwd check w).1 = Raise e)
      by (rewrite H; reflexivity).
    apply run_command_raises in Hr as [[fs' Hf] _].
    eapply P_host. exact Hf.
Qed.

Ltac raises_step :=
  first
    [ simple apply raises_only_ret
    | simple apply raises_only_print_header
    | simple apply raises_only_print
    | apply (raises_only_print (step_line _))
    | apply (raises_only_print (success_line _))
    | apply (raises_only_print (error_line _))
    | simple apply raises_only_exists
    | simple apply raises_only_stat_size_mb
    | simple apply raises_only_mkdir | simple apply raises_only_rmtree
    | simple apply raises_only_unlink | simple apply raises_only_unlink_each
    | simple apply raises_only_write_text
    | simple apply raises_only_run_command
    | simple apply raises_only_when
    | simple apply raises_only_bind; [|intros ?]
    | match goal with
      | |- raises_only (let '(_, _) := ?x in _) => destruct x as [[? ?] ?]
      | |- raises_only (if ?b then _ else _) => destruct b
      | |- raises_only (match ?x with _ => _ end) => destruct x
      end
    | apply raises_only_raise; apply P_os; exact I
    | apply raises_only_print ].

Ltac raises_go := repeat raises_step.

Lemma raises_only_check_prerequisites : raises_only check_prerequisites.
Proof. unfold check_prerequisites. raises_go. Qed.

Lemma raises_only_download_dependencies : raises_only download_dependencies.
Proof. unfold download_dependencies. raises_go. Qed.

Lemma raises_only_format_code : raises_only format_code.
Proof. unfold format_code. raises_go. Qed.

Lemma raises_only_lint_code : raises_only lint_code.
Proof. unfold lint_code. raises_go. Qed.

Lemma raises_only_report_total_coverage (lines : list string) :
  raises_only (report_total_coverage lines).
Proof.
  induction lines as [|line rest IH]; simpl; raises_go. exact IH.
Qed.

Lemma raises_only_run_tests (with_coverage : bool) :
  raises_only (run_tests with_coverage).
Proof.
  unfold run_tests. raises_go; apply raises_only_report_total_coverage.
Qed.

Lemma raises_only_build_binary : raises_only build_binary.
Proof. unfold build_binary. raises_go. Qed.

Lemma raises_only_run_security_checks : raises_only run_security_checks.
Proof. unfold run_security_checks. raises_go. Qed.

Lemma raises_only_fun {A} (m : World -> M A) :
  (forall w0, raises_only (m w0)) -> raises_only (fun w => m w w).
Proof. intros H w e w' Hr. eapply H. exact Hr. Qed.

Lemma raises_only_build_for_platform (goos goarch : string) :
  raises_only (build_for_platform goos goarch).
Proof.
  unfold build_for_platform.
  simple apply raises_only_bind; [raises_go|intros _].
  simple apply raises_only_bind; [raises_go|intros _].
  apply (raises_only_fun (fun w0 => _)). intros w0. cbv zeta. raises_go.
Qed.

Lemma raises_only_build_each (platforms : list (string * string))
    (all_ok : bool) : raises_only (build_each platforms all_ok).
Proof.
  revert all_ok. induction platforms as [|[goos goarch] rest IH];
    intros all_ok; simpl.
  - apply raises_only_ret.
  - simple apply raises_only_bind; [apply raises_only_build_for_platform|].
    intros ok. apply IH.
Qed.

Lemma raises_only_build_all_platforms : raises_only build_all_platforms.
Proof.
  unfold build_all_platforms.
  simple apply raises_only_bind; [apply raises_only_print_header|intros _].
  apply raises_only_build_each.
Qed.

Lemma raises_only_clean : raises_only clean.
Proof. unfold clean. raises_go. Qed.

Lemma raises_only_generate_build_info : raises_only generate_build_info.
Proof.
  unfold generate_build_info.
  do 4 (simple apply raises_only_bind;
        [apply raises_only_run_command|intros [[? ?] ?]]).
  apply (raises_only_fun (fun w0 => _)). intros w0. cbv zeta. raises_go.
Qed.

Lemma raises_only_run_steps (todo : list Step) :
  Forall (fun s => raises_only (step_func s)) todo ->
  raises_only (run_steps todo).
Proof.
  induction 1 as [|s rest Hs _ IH]; simpl; [apply raises_only_ret|].
  intros w e w' H.
  destruct (step_func s w) as [[[|]|e0] w1] eqn:Hstep.
  - eapply IH. exact H.
  - discriminate.
  - destruct (is_Exception e0); [discriminate|].
    injection H as <- <-. eapply Hs. exact Hstep.
Qed.

Lemma raises_only_steps :
  Forall (fun s => raises_only (step_func s)) steps.
Proof.
  unfold steps. repeat constructor; simpl.
  - apply raises_only_check_prerequisites.
  - apply raises_only_download_dependencies.
  - apply raises_only_format_code.
  - apply raises_only_lint_code.
  - apply raises_only_run_tests.
  - apply raises_only_run_security_checks.
  - apply raises_only_build_binary.
Qed.

Lemma raises_only_validate : raises_only validate.
Proof.
  unfold validate, run_pipeline.
  simple apply raises_only_bind; [apply raises_only_print_header|intros _].
  simple apply raises_only_bind;
    [apply raises_only_run_steps, raises_only_steps|].
  intros [|]; [|apply raises_only_ret].
  simple apply raises_only_bind;
    [apply raises_only_generate_build_info|intros _].
  raises_go.
Qed.

Lemma raises_only_and_then (a b : M bool) :
  raises_only a -> raises_only b -> raises_only (and_then a b).
Proof.
  intros Ha Hb. unfold and_then. simple apply raises_only_bind; [exact Ha|].
  intros [|]; [exact Hb|apply raises_only_ret].
Qed.

Lemma raises_only_print_summary (success : bool) (elapsed_time : string) :
  raises_only (print_summary success elapsed_time).
Proof. unfold print_summary. raises_go. Qed.

Hypothesis P_exit : P (Exn SystemExit "1").

Lemma raises_only_dispatch (command : string) (platform : option string) :
  raises_only (dispatch command platform).
Proof.
  unfold dispatch.
  repeat match goal with
         | |- raises_only (if ?b then _ else _) => destruct b
         end;
    try match goal with
        | |- raises_only (match ?x with _ => _ end) =>
            destruct x as [|goos [|goarch [|? ?]]]
        end;
    repeat first
      [ simple apply raises_only_clean | simple apply raises_only_validate
      | simple apply raises_only_check_prerequisites
      | simple apply raises_only_download_dependencies
      | simple apply raises_only_format_code
      | simple apply raises_only_lint_code
      | simple apply raises_only_run_tests
      | simple apply raises_only_build_binary
      | simple apply raises_only_build_for_platform
      | simple apply raises_only_build_all_platforms
      | simple apply raises_only_and_then
      | simple apply raises_only_ret
      | apply (raises_only_print (error_line _))
      | apply (raises_only_raise _ P_exit)
      | simple apply raises_only_bind; [|intros ?] ].
Qed.

End RaisesOnly.

(** *** Properties of [main] *)

(** A child started in the project root with the environment [env]. *)
Definition started_in_root (env : gmap string string) (e : event) : Prop :=
  match e with
  | Spawned _ cwd env' => cwd = root_dir /\ env' = env
  | _ => True
  end.

(** From [w] to [w'] the environment of the script stayed as it was, the
    trace was only added to, and every child that was started ran in the
    project root with that environment. *)
Definition orderly (w w' : World) : Prop :=
  environ w' = environ w /\
  exists added,
    trace w' = trace w ++ added /\
    Forall (started_in_root (environ w)) added.

Lemma orderly_refl (w : World) : orderly w w.
Proof. split; [reflexivity|]. exists []. rewrite app_nil_r. auto. Qed.

Lemma orderly_trans (w1 w2 w3 : World) :
  orderly w1 w2 -> orderly w2 w3 -> orderly w1 w3.
Proof.
  intros (He1 & a1 & Ht1 & Hf1) (He2 & a2 & Ht2 & Hf2).
  split; [congruence|]. exists (a1 ++ a2). split.
  - rewrite Ht2, Ht1, app_assoc. reflexivity.
  - apply Forall_app. split; [exact Hf1|]. rewrite <- He1. exact Hf2.
Qed.

Lemma orderly_emit (e : event) (w : World) :
  started_in_root (environ w) e -> orderly w (emit e w).
Proof.
  intros He. split; [reflexivity|]. exists [e]. split; [reflexivity|].
  constructor; [exact He|constructor].
Qed.

Lemma orderly_tree (f : gmap path node) (w : World) : orderly w (set_fs f w).
Proof. split; [reflexivity|]. exists []. simpl. rewrite app_nil_r. auto. Qed.

(** X1: whatever the command and the platform argument, [main] leaves
    [os.environ] as it found it, only adds to the trace, and every child
    process it starts runs in the project root with exactly the
    environment of the script. *)
Theorem main_children_inherit :
  forall (command : string) (platform : option string) (w : World),
    let w' := (main command platform w).2 in
    environ w' = environ w /\
    exists added,
      trace w' = trace w ++ added /\
      Forall (started_in_root (environ w)) added.
Proof.
  intros command platform w.
  apply (keeps_all_main orderly orderly_refl orderly_trans).
  - intros. apply orderly_emit. exact I.
  - intros. apply orderly_tree.
  - intros. apply orderly_emit. exact I.
  - intros. apply orderly_emit. split; reflexivity.
Qed.

(** The operation returned [True]. *)
Definition succeeded (r : result bool) : bool :=
  match r with
  | Ok true => true
  | _ => false
  end.

Lemma os_error_is_Exception (e : exn) : os_error e -> is_Exception e = true.
Proof.
  unfold os_error, is_Exception. destruct (exn_class_of e);
    intros H; try reflexivity; contradiction.
Qed.

Lemma print_summary_ok (success : bool) (elapsed_time : string) (w : World) :
  (print_summary success elapsed_time w).1 = Ok tt.
Proof.
  destruct (print_summary success elapsed_time w) as [[[]|e] w'] eqn:H;
    [reflexivity|].
  exfalso.
  exact (raises_only_print_summary (fun _ => False) success elapsed_time
           w e w' H).
Qed.

(** What [main] does after the [try] block. *)
Definition finish (success : bool) : M unit :=
  (fun w => print_summary success (elapsed_str w) w) ;;
  sys_exit (if success then 0 else 1).

Lemma finish_exit (success : bool) (w : World) :
  (finish success w).1 =
    Raise (Exn SystemExit (if success then "0" else "1")).
Proof.
  unfold finish, bind.
  pose proof (print_summary_ok success (elapsed_str w) w) as Hs.
  destruct (print_summary success (elapsed_str w) w) as [r w2].
  simpl in Hs. subst r. destruct success; reflexivity.
Qed.

Lemma main_unfold (command : string) (platform : option string) (w : World) :
  main command platform w =
    if bool_decide (command ∈ choices) then
      match dispatch command platform w with
      | (Ok success, w1) => finish success w1
      | (Raise e, w1) =>
          match exn_class_of e with
          | KeyboardInterrupt =>
              finish false
                (emit (Printed (error_line "Build interrupted by user")) w1)
          | SystemExit => (Raise e, w1)
          | _ =>
              finish false
                (emit (Printed (error_line
                         ("Build failed with exception: " +:+ exn_str e))) w1)
          end
      end
    else (Raise (Exn SystemExit "2"), w).
Proof.
  unfold main, parse_args. case_bool_decide; [|reflexivity].
  rewrite (bind_ok _ _ w w (command, platform)) by reflexivity.
  fold finish. unfold bind at 1. unfold try_except.
  destruct (dispatch command platform w) as [[b|e] w1]; [reflexivity|].
  destruct (exn_class_of e); reflexivity.
Qed.

(** X2: [main] always ends in [sys.exit] (when [subprocess.run] itself
    never raises [SystemExit]): with status 2 when the command is none
    of the choices of the parser, with status 0 when the operation of
    the command returned [True], and with status 1 in every other case:
    the operation returned [False], raised an exception or was
    interrupted (both caught at the top), or the platform argument was
    refused.  No other fault leaves [main]. *)
Theorem main_exit_status :
  forall (command : string) (platform : option string) (w : World),
    (forall w args cwd env e fs',
        os_spawn w args cwd env = Faulted e fs' ->
        exn_class_of e <> SystemExit) ->
    (main command platform w).1 =
      Raise (Exn SystemExit
               (if bool_decide (command ∈ choices)
                then if succeeded (dispatch command platform w).1
                     then "0" else "1"
                else "2")).
Proof.
  intros command platform w Hhost. rewrite main_unfold.
  case_bool_decide; [|reflexivity].
  destruct (dispatch command platform w) as [[b|e] w1] eqn:Hd.
  - rewrite finish_exit. destruct b; reflexivity.
  - assert (He : exn_class_of e <> SystemExit \/ e = Exn SystemExit "1").
    { eapply (raises_only_dispatch
                (fun e => exn_class_of e <> SystemExit
                          \/ e = Exn SystemExit "1"));
        [| |right; reflexivity|exact Hd].
      - intros e0 H0. left. unfold os_error in H0.
        destruct (exn_class_of e0); try contradiction; discriminate.
      - intros w0 args cwd env e0 fs' H0. left. eapply Hhost. exact H0. }
    cbn [fst succeeded].
    destruct He as [He| ->]; [|reflexivity].
    destruct (exn_class_of e); try apply finish_exit. congruence.
Qed.

(** The number of times a character stands in a text. *)
Fixpoint count_char (c : ascii) (s : string) : nat :=
  match s with
  | EmptyString => 0
  | String d s' => (if Ascii.eqb d c then 1 else 0) + count_char c s'
  end.

Lemma length_split_on (sep : ascii) (s : string) :
  length (Py.split_on sep s) = S (count_char sep s).
Proof.
  induction s as [|d s IH]; simpl; [reflexivity|].
  destruct (Ascii.eqb d sep); simpl; [rewrite IH; reflexivity|].
  destruct (Py.split_on sep s) as [|f fs0]; simpl in *; [discriminate|].
  exact IH.
Qed.

Lemma dispatch_build (platform : option string) :
  dispatch "build" platform =
    if Py.truthy (default "" platform) then
      match Py.split_on "/" (default "" platform) with
      | [goos; goarch] =>
          and_then check_prerequisites
            (and_then download_dependencies
               (build_for_platform goos goarch))
      | _ =>
          print_error
            "--platform must be in the form os/arch, e.g., linux/amd64" ;;
          sys_exit 1
      end
    else
      and_then check_prerequisites
        (and_then download_dependencies build_binary).
Proof. reflexivity. Qed.

(** X3: [build] with a platform argument that is not empty and does not
    hold exactly one "/" prints the usage error and exits with status 1
    at once: no prerequisite check, no child process, no summary. *)
Theorem main_refuses_platform :
  forall (p : string) (w : World),
    Py.truthy p = true ->
    count_char "/" p <> 1%nat ->
    main "build" (Some p) w =
      (Raise (Exn SystemExit "1"),
       emit (Printed (error_line
               "--platform must be in the form os/arch, e.g., linux/amd64"))
         w).
Proof.
  intros p w Hp Hc.
  assert (Hd : dispatch "build" (Some p) w =
               (Raise (Exn SystemExit "1"),
                emit (Printed (error_line
                  "--platform must be in the form os/arch, e.g., linux/amd64"))
                  w)).
  { rewrite dispatch_build. change (default "" (Some p)) with p. rewrite Hp.
    pose proof (length_split_on "/" p) as Hl.
    destruct (Py.split_on "/" p) as [|a [|b [|c rest]]]; simpl in Hl;
      try reflexivity.
    exfalso. apply Hc. congruence. }
  rewrite main_unfold, Hd.
  rewrite bool_decide_eq_true_2 by (unfold choices; repeat constructor).
  reflexivity.
Qed.

(** *** Verdicts of the steps *)

(** The command ran and exited with 0. *)
Definition passed (r : result (Z * string * string)) : bool :=
  match r with
  | Ok (rc, _, _) => rc =? 0
  | Raise _ => false
  end.

(** What an operation gives after a command: the exception that the
    command raised, and [v] when the command returned. *)
Definition unless_raised {A} (r : result A) (v : result bool) : result bool :=
  match r with
  | Ok _ => v
  | Raise e => Raise e
  end.

(** The line [print_warning] prints. *)
Definition warning_line (message : string) : string :=
  Colors.BOLD +:+ Colors.YELLOW +:+ "⚠" +:+ Colors.RESET +:+ " " +:+ message.

(** A command that is run: whatever it returns or raises, it leaves the
    environment and adds its command line to the commands started. *)
Lemma run_command_cases (exe : string) (rest : list string)
    (cwd : option path) (check : bool) (w : World) :
  exists r w',
    run_command (exe :: rest) cwd check w = (r, w') /\
    environ w' = environ w /\
    spawns (trace w') = spawns (trace w) ++ [exe :: rest].
Proof.
  pose proof (run_command_trace exe rest cwd check w) as (He & Hs & _).
  destruct (run_command (exe :: rest) cwd check w) as [r w']. eauto.
Qed.

Ltac run_cmd rc out err e w' Hrun Hsp :=
  match goal with
  | |- context [run_command (?exe :: ?rest) ?cwd ?check ?w] =>
      let He := fresh "He" in
      let r := fresh "r" in
      destruct (run_command_cases exe rest cwd check w)
        as (r & w' & Hrun & He & Hsp);
      destruct r as [[[rc out] err]|e];
      [ rewrite ?Hrun; rewrite ?(bind_ok _ _ _ _ _ Hrun)
      | rewrite ?Hrun; rewrite ?(bind_raise _ _ _ _ _ Hrun) ];
      cbn [fst snd passed unless_raised returned]
  | |- context [bind (run_command (?exe :: ?rest) ?cwd ?check) _ ?w] =>
      let He := fresh "He" in
      let r := fresh "r" in
      destruct (run_command_cases exe rest cwd check w)
        as (r & w' & Hrun & He & Hsp);
      destruct r as [[[rc out] err]|e];
      [ rewrite ?(bind_ok _ _ _ _ _ Hrun)
      | rewrite ?(bind_raise _ _ _ _ _ Hrun) ];
      cbn [fst snd passed unless_raised returned]
  end.

(** X4: [check_prerequisites] hands [go version] to [subprocess.run]
    and nothing else; it raises what that command raises, and otherwise
    returns [True] exactly when the command exits with 0 and [go.mod] is
    in the project root afterwards; it leaves the project tree as the
    command left it. *)
Theorem check_prerequisites_verdict :
  forall (w : World),
    let version :=
      run_command ["go"; "version"] None false
        (emit (Printed (step_line "Checking prerequisites")) w) in
    (check_prerequisites w).1 =
      unless_raised version.1
        (Ok (passed version.1 &&
             bool_decide
               (is_Some (fs version.2 !! path_join root_dir "go.mod"))))
    /\
    spawns (trace (check_prerequisites w).2)
      = spawns (trace w) ++ [["go"; "version"]] /\
    fs (check_prerequisites w).2 = fs version.2.
Proof.
  intros w. cbv zeta. unfold check_prerequisites, print_step.
  rewrite bind_print. fold (step_line "Checking prerequisites").
  run_cmd rc out err e w1 Hrun Hsp; rewrite spawns_emit_print in Hsp;
    [|auto].
  destruct (rc =? 0); cbn [negb andb].
  - unfold print_success. rewrite bind_print, bind_exists. cbn [fs emit].
    case_bool_decide; cbn [negb]; unfold print_error, print_success;
      rewrite bind_print; cbn [fst snd ret];
      rewrite !spawns_emit_print; auto.
  - unfold print_error. rewrite bind_print. cbn [fst snd ret].
    rewrite !spawns_emit_print. auto.
Qed.

Lemma and_then_stop (a b : M bool) (w : World) :
  (a w).1 <> Ok true -> and_then a b w = a w.
Proof.
  intros H. unfold and_then, bind.
  destruct (a w) as [[[|]|e] w1]; simpl in *; try reflexivity; congruence.
Qed.

(** The commands of [main] that begin with the prerequisite check. *)
Definition gated : list string :=
  ["deps"; "fmt"; "lint"; "test"; "coverage"; "build"; "build-all"].

(** X5: for the commands deps, fmt, lint, test, coverage, build (with no
    platform or a well-formed one) and build-all, when the prerequisite
    check does not return [True] the command does nothing more: what it
    returns and the world it leaves are those of the check alone. *)
Theorem dispatch_stops_at_prerequisites :
  forall (command : string) (platform : option string) (w : World),
    command ∈ gated ->
    Py.truthy (default "" platform) = false \/
      count_char "/" (default "" platform) = 1%nat ->
    (check_prerequisites w).1 <> Ok true ->
    dispatch command platform w = check_prerequisites w.
Proof.
  intros command platform w Hin Hplat Hfail. unfold gated in Hin.
  repeat (apply elem_of_cons in Hin as [->|Hin]);
    try (apply (and_then_stop check_prerequisites _ w Hfail)).
  - rewrite dispatch_build.
    destruct (Py.truthy (default "" platform)) eqn:Ht.
    + destruct Hplat as [Hp|Hp]; [discriminate|].
      pose proof (length_split_on "/" (default "" platform)) as Hl.
      rewrite Hp in Hl.
      destruct (Py.split_on "/" (default "" platform))
        as [|goos [|goarch [|? ?]]]; try discriminate.
      apply (and_then_stop check_prerequisites _ w Hfail).
    + apply (and_then_stop check_prerequisites _ w Hfail).
  - inversion Hin.
Qed.

(** X6: [download_dependencies] starts [go mod verify] only after
    [go mod download] has exited with 0; it raises what either command
    raises, and otherwise returns [True] exactly when both exit with
    0. *)
Theorem download_dependencies_verdict :
  forall (w : World),
    let download :=
      run_command ["go"; "mod"; "download"] None true
        (emit (Printed (step_line "Downloading dependencies")) w) in
    let verify :=
      run_command ["go"; "mod"; "verify"] None true download.2 in
    (download_dependencies w).1 =
      unless_raised download.1
        (if passed download.1
         then unless_raised verify.1 (Ok (passed verify.1))
         else Ok false) /\
    spawns (trace (download_dependencies w).2) =
      spawns (trace w) ++
      (if passed download.1
       then [["go"; "mod"; "download"]; ["go"; "mod"; "verify"]]
       else [["go"; "mod"; "download"]]).
Proof.
  intros w. cbv zeta. unfold download_dependencies, print_step.
  rewrite bind_print. fold (step_line "Downloading dependencies").
  run_cmd rc out err e w1 Hrun Hsp; rewrite spawns_emit_print in Hsp;
    [|auto].
  destruct (rc =? 0); cbn [negb andb].
  - run_cmd rc2 out2 err2 e2 w2 Hrun2 Hsp2;
      [|rewrite Hsp2, Hsp, <- app_assoc; auto].
    destruct (rc2 =? 0); cbn [negb]; unfold print_error, print_success;
      rewrite bind_print; cbn [fst snd ret];
      rewrite !spawns_emit_print, Hsp2, Hsp, <- app_assoc; auto.
  - cbn [fst snd ret]. auto.
Qed.

(** X7: [lint_code] probes for golangci-lint and then runs exactly one
    linter: [golangci-lint run] when the probe exits with 0, and
    [go vet ./...] when the probe fails or the tool is not installed.
    It raises what the probe or the linter raises, and otherwise returns
    [True] exactly when that one linter exits with 0. *)
Theorem lint_code_fallback :
  forall (w : World),
    let probe :=
      run_command ["golangci-lint"; "--version"] None false
        (emit (Printed (step_line "Linting code")) w) in
    let linter :=
      if passed probe.1 then ["golangci-lint"; "run"]
      else ["go"; "vet"; "./..."] in
    let run := run_command linter None true probe.2 in
    (lint_code w).1 =
      unless_raised probe.1 (unless_raised run.1 (Ok (passed run.1))) /\
    spawns (trace (lint_code w).2) =
      spawns (trace w) ++
      (if returned probe.1 then [["golangci-lint"; "--version"]; linter]
       else [["golangci-lint"; "--version"]]).
Proof.
  intros w. cbv zeta. unfold lint_code, print_step.
  rewrite bind_print. fold (step_line "Linting code").
  run_cmd rc out err e w1 Hrun Hsp; rewrite spawns_emit_print in Hsp;
    [|auto].
  destruct (rc =? 0); cbn [negb andb];
    (run_cmd rc2 out2 err2 e2 w2 Hrun2 Hsp2;
     [|rewrite Hsp2, Hsp, <- app_assoc; auto]);
    (destruct (rc2 =? 0); cbn [negb]; unfold print_success;
     rewrite ?bind_print; cbn [fst snd ret];
     rewrite ?spawns_emit_print, Hsp2, Hsp, <- app_assoc; auto).
Qed.

(** X8: [run_security_checks] raises what the probe for gosec or the
    scan raises.  When the probe returns and gosec is not installed or
    the probe fails, the scan is skipped and the result is [True], with
    a warning as the last line; when the probe exits with 0,
    [gosec ./...] is run and the result is [True] exactly when the scan
    exits with 0. *)
Theorem security_scan_optional :
  forall (w : World),
    let probe :=
      run_command ["gosec"; "-version"] None false
        (emit (Printed (step_line "Running security checks")) w) in
    let scan := run_command ["gosec"; "./..."] None true probe.2 in
    (run_security_checks w).1 =
      unless_raised probe.1
        (if passed probe.1 then unless_raised scan.1 (Ok (passed scan.1))
         else Ok true) /\
    (returned probe.1 = true -> passed probe.1 = false ->
     run_security_checks w =
       (Ok true,
        emit (Printed (warning_line
                "gosec not available - skipping security scan")) probe.2)) /\
    spawns (trace (run_security_checks w).2) =
      spawns (trace w) ++
      (if passed probe.1 then [["gosec"; "-version"]; ["gosec"; "./..."]]
       else [["gosec"; "-version"]]).
Proof.
  intros w. cbv zeta. unfold run_security_checks, print_step.
  rewrite bind_print. fold (step_line "Running security checks").
  run_cmd rc out err e w1 Hrun Hsp; rewrite spawns_emit_print in Hsp;
    [|split; [reflexivity|split; [discriminate|exact Hsp]]].
  destruct (rc =? 0).
  - run_cmd rc2 out2 err2 e2 w2 Hrun2 Hsp2;
      [|split; [reflexivity|split; [discriminate|]];
        rewrite Hsp2, Hsp, <- app_assoc; reflexivity].
    destruct (rc2 =? 0); cbn [negb]; unfold print_success, print_warning;
      rewrite bind_print; cbn [fst snd ret];
      rewrite !spawns_emit_print, Hsp2, Hsp, <- app_assoc;
      (split; [reflexivity|split; [discriminate|reflexivity]]).
  - unfold print_warning. rewrite bind_print. cbn [fst snd ret].
    rewrite spawns_emit_print.
    split; [reflexivity|split; [reflexivity|exact Hsp]].
Qed.


(** *** Characters *)

(** A character and what follows its first byte are continuation bytes. *)
Fixpoint all_cont (s : string) : bool :=
  match s with
  | EmptyString => true
  | String c s' => Py.is_cont c && all_cont s'
  end.

(** A piece of a text that ends where a character ends. *)
Definition tail_cont (ch : string) : bool :=
  match ch with
  | EmptyString => false
  | String _ t => all_cont t
  end.

(** A whole character. *)
Definition whole (ch : string) : bool :=
  tail_cont ch && negb (Py.starts_cont ch).

(** The shape of [Py.chars s]: whole characters, after a first piece
    that may begin in the middle of one. *)
Definition segmented (l : list string) : Prop :=
  match l with
  | [] => True
  | ch :: rest => tail_cont ch = true /\ Forall (fun c => whole c = true) rest
  end.

Lemma whole_segmented (l : list string) :
  Forall (fun c => whole c = true) l -> segmented l.
Proof.
  intros [|ch rest Hch Hrest]; simpl; [exact I|].
  split; [|exact Hrest]. apply andb_prop in Hch as [H _]. exact H.
Qed.

Lemma segmented_chars (s : string) : segmented (Py.chars s).
Proof.
  induction s as [|c s IH]; simpl; [exact I|].
  destruct (Py.chars s) as [|ch rest]; simpl; [auto|].
  destruct IH as [Ht Hrest].
  destruct (Py.starts_cont ch) eqn:Hs; simpl.
  - split; [|exact Hrest]. destruct ch as [|k t]; [discriminate|].
    simpl in *. rewrite Hs, Ht. reflexivity.
  - split; [reflexivity|]. constructor; [|exact Hrest].
    unfold whole. rewrite Ht, Hs. reflexivity.
Qed.

Lemma text_chars (s : string) : Py.text (Py.chars s) = s.
Proof.
  induction s as [|c s IH]; simpl; [reflexivity|].
  destruct (Py.chars s) as [|ch rest]; simpl in *.
  - rewrite <- IH. reflexivity.
  - destruct (Py.starts_cont ch); simpl; rewrite <- IH; reflexivity.
Qed.

(** A text that does not begin in the middle of a character. *)
Definition begins_whole (s : string) : Prop :=
  match Py.chars s with
  | ch :: _ => Py.starts_cont ch = false
  | [] => True
  end.

Lemma chars_String (c : ascii) (s : string) :
  Py.chars (String c s) =
    match Py.chars s with
    | ch :: rest =>
        if Py.starts_cont ch then String c ch :: rest
        else String c EmptyString :: ch :: rest
    | [] => [String c EmptyString]
    end.
Proof. reflexivity. Qed.

Lemma chars_piece (c : ascii) (t s : string) :
  all_cont t = true -> begins_whole s ->
  Py.chars (String c (t +:+ s)) = String c t :: Py.chars s.
Proof.
  revert c. induction t as [|k t IH]; intros c Ht Hs.
  - change (String c ("" +:+ s)) with (String c s). rewrite chars_String.
    unfold begins_whole in Hs.
    destruct (Py.chars s) as [|ch rest]; [reflexivity|]. rewrite Hs. reflexivity.
  - cbn [all_cont] in Ht. apply andb_prop in Ht as [Hk Ht].
    change (String c (String k t +:+ s)) with (String c (String k (t +:+ s))).
    rewrite chars_String, (IH k Ht Hs). cbn [Py.starts_cont]. rewrite Hk.
    reflexivity.
Qed.

Lemma chars_text_whole (l : list string) :
  Forall (fun c => whole c = true) l -> Py.chars (Py.text l) = l.
Proof.
  induction 1 as [|ch rest Hch Hrest IH]; [reflexivity|].
  apply andb_prop in Hch as [Ht _].
  destruct ch as [|c t]; [discriminate|]. cbn [tail_cont] in Ht.
  cbn [Py.text]. change (String c t +:+ Py.text rest)
    with (String c (t +:+ Py.text rest)).
  rewrite chars_piece; [rewrite IH; reflexivity|exact Ht|].
  unfold begins_whole. rewrite IH.
  destruct Hrest as [|ch' rest' Hch' _]; [exact I|].
  apply andb_prop in Hch' as [_ Hs]. apply negb_true_iff in Hs. exact Hs.
Qed.

(** Cutting a text into characters and putting these together again
    gives the same characters. *)
Lemma chars_text (l : list string) :
  segmented l -> Py.chars (Py.text l) = l.
Proof.
  destruct l as [|ch rest]; [reflexivity|]. intros [Ht Hrest].
  destruct ch as [|c t]; [discriminate|]. cbn [tail_cont] in Ht.
  cbn [Py.text]. change (String c t +:+ Py.text rest)
    with (String c (t +:+ Py.text rest)).
  rewrite chars_piece; [rewrite chars_text_whole by exact Hrest; reflexivity
                       |exact Ht|].
  unfold begins_whole. rewrite chars_text_whole by exact Hrest.
  destruct Hrest as [|ch' rest' Hch' _]; [exact I|].
  apply andb_prop in Hch' as [_ Hs]. apply negb_true_iff in Hs. exact Hs.
Qed.

Lemma segmented_app_l (a b : list string) : segmented (a ++ b) -> segmented a.
Proof.
  destruct a as [|ch a]; [intros _; exact I|]. simpl.
  intros [Ht Hall]. split; [exact Ht|].
  apply Forall_app in Hall as [Ha _]. exact Ha.
Qed.

Lemma segmented_app_r (a b : list string) : segmented (a ++ b) -> segmented b.
Proof.
  destruct a as [|ch a]; [auto|]. simpl. intros [_ Hall].
  apply Forall_app in Hall as [_ Hb]. apply whole_segmented, Hb.
Qed.

(** *** Stripped text *)

Lemma lstrip_chars_suffix (l : list string) :
  exists pre, l = pre ++ Py.lstrip_chars l.
Proof.
  induction l as [|ch l [pre IH]]; [exists []; reflexivity|].
  simpl. destruct (Py.is_space ch).
  - exists (ch :: pre). simpl. f_equal. exact IH.
  - exists []. reflexivity.
Qed.

Lemma rstrip_chars_prefix (l : list string) :
  exists post, l = Py.rstrip_chars l ++ post.
Proof.
  unfold Py.rstrip_chars.
  destruct (lstrip_chars_suffix (rev l)) as [pre H].
  exists (rev pre). rewrite <- rev_app_distr, <- H, rev_involutive. reflexivity.
Qed.

Lemma segmented_lstrip_chars (l : list string) :
  segmented l -> segmented (Py.lstrip_chars l).
Proof.
  intros H. destruct (lstrip_chars_suffix l) as [pre Hl].
  rewrite Hl in H. eapply segmented_app_r. exact H.
Qed.

Lemma segmented_rstrip_chars (l : list string) :
  segmented l -> segmented (Py.rstrip_chars l).
Proof.
  intros H. destruct (rstrip_chars_prefix l) as [post Hl].
  rewrite Hl in H. eapply segmented_app_l. exact H.
Qed.

Lemma segmented_firstn (n : nat) (l : list string) :
  segmented l -> segmented (firstn n l).
Proof.
  intros H. rewrite <- (firstn_skipn n l) in H.
  eapply segmented_app_l. exact H.
Qed.

Lemma chars_lstrip (s : string) :
  Py.chars (Py.lstrip s) = Py.lstrip_chars (Py.chars s).
Proof. apply chars_text, segmented_lstrip_chars, segmented_chars. Qed.

Lemma chars_rstrip (s : string) :
  Py.chars (Py.rstrip s) = Py.rstrip_chars (Py.chars s).
Proof. apply chars_text, segmented_rstrip_chars, segmented_chars. Qed.

Lemma chars_strip (s : string) :
  Py.chars (Py.strip s) = Py.rstrip_chars (Py.lstrip_chars (Py.chars s)).
Proof. unfold Py.strip. rewrite chars_rstrip, chars_lstrip. reflexivity. Qed.

Lemma chars_take (n : nat) (s : string) :
  Py.chars (Py.take n s) = firstn n (Py.chars s).
Proof. apply chars_text, segmented_firstn, segmented_chars. Qed.

(** A list of characters with no whitespace in front. *)
Definition started (l : list string) : Prop :=
  match l with
  | [] => True
  | ch :: _ => Py.is_space ch = false
  end.

Lemma lstrip_chars_started (l : list string) : started (Py.lstrip_chars l).
Proof.
  induction l as [|ch l IH]; simpl; [exact I|].
  destruct (Py.is_space ch) eqn:Hc; [exact IH|exact Hc].
Qed.

Lemma started_lstrip_chars (l : list string) :
  started l -> Py.lstrip_chars l = l.
Proof. destruct l as [|ch l]; simpl; [reflexivity|]. intros ->. reflexivity. Qed.

Lemma started_prefix (a b : list string) : started (a ++ b) -> started a.
Proof. destruct a; simpl; auto. Qed.

Lemma lstrip_chars_idempotent (l : list string) :
  Py.lstrip_chars (Py.lstrip_chars l) = Py.lstrip_chars l.
Proof. apply started_lstrip_chars, lstrip_chars_started. Qed.

Lemma rstrip_chars_idempotent (l : list string) :
  Py.rstrip_chars (Py.rstrip_chars l) = Py.rstrip_chars l.
Proof.
  unfold Py.rstrip_chars. rewrite rev_involutive, lstrip_chars_idempotent.
  reflexivity.
Qed.

Lemma started_rstrip_chars (l : list string) :
  started l -> started (Py.rstrip_chars l).
Proof.
  intros H. destruct (rstrip_chars_prefix l) as [post Hl].
  rewrite Hl in H. eapply started_prefix. exact H.
Qed.

Lemma started_firstn (n : nat) (l : list string) :
  started l -> started (firstn n l).
Proof.
  intros H. rewrite <- (firstn_skipn n l) in H.
  eapply started_prefix. exact H.
Qed.

Lemma started_strip (s : string) : started (Py.chars (Py.strip s)).
Proof.
  rewrite chars_strip. apply started_rstrip_chars, lstrip_chars_started.
Qed.

Lemma lstrip_started (s : string) :
  started (Py.chars s) -> Py.lstrip s = s.
Proof.
  intros H. unfold Py.lstrip. rewrite (started_lstrip_chars _ H).
  apply text_chars.
Qed.

Lemma rstrip_idempotent (s : string) : Py.rstrip (Py.rstrip s) = Py.rstrip s.
Proof.
  unfold Py.rstrip at 1. rewrite chars_rstrip, rstrip_chars_idempotent.
  reflexivity.
Qed.

(** [s.strip().strip() == s.strip()] *)
Lemma strip_idempotent (s : string) : Py.strip (Py.strip s) = Py.strip s.
Proof.
  unfold Py.strip at 1. rewrite (lstrip_started _ (started_strip s)).
  unfold Py.strip. apply rstrip_idempotent.
Qed.

(** [len(s[:n]) <= n] *)
Lemma len_take (n : nat) (s : string) : (Py.len (Py.take n s) <= n)%nat.
Proof.
  unfold Py.len. rewrite chars_take, length_firstn. lia.
Qed.

Lemma lstrip_take_strip (n : nat) (s : string) :
  Py.lstrip (Py.take n (Py.strip s)) = Py.take n (Py.strip s).
Proof.
  apply lstrip_started. rewrite chars_take.
  apply started_firstn, started_strip.
Qed.

(** A text with a character that is no whitespace. *)
Definition has_nonspace (s : string) : bool :=
  existsb (fun ch => negb (Py.is_space ch)) (Py.chars s).

Lemma truthy_text (l : list string) :
  segmented l -> Py.truthy (Py.text l) = negb (bool_decide (l = [])).
Proof.
  destruct l as [|ch rest]; [reflexivity|]. intros [Ht _].
  destruct ch; [discriminate|]. reflexivity.
Qed.

Lemma lstrip_chars_nil (l : list string) :
  Py.lstrip_chars l = [] <->
  existsb (fun ch => negb (Py.is_space ch)) l = false.
Proof.
  induction l as [|ch l IH]; simpl; [tauto|].
  destruct (Py.is_space ch); simpl; [exact IH|]. split; discriminate.
Qed.

Lemma existsb_rev {A} (f : A -> bool) (l : list A) :
  existsb f (rev l) = existsb f l.
Proof.
  induction l as [|a l IH]; [reflexivity|]. simpl.
  rewrite existsb_app, IH. simpl. rewrite orb_false_r. apply orb_comm.
Qed.

Lemma existsb_lstrip_chars (l : list string) :
  existsb (fun ch => negb (Py.is_space ch)) (Py.lstrip_chars l)
  = existsb (fun ch => negb (Py.is_space ch)) l.
Proof.
  induction l as [|ch l IH]; [reflexivity|]. simpl.
  destruct (Py.is_space ch) eqn:Hc; simpl; [exact IH|].
  rewrite Hc. reflexivity.
Qed.

(** [bool(s.strip())] holds exactly when [s] has a character that is
    no whitespace. *)
Lemma truthy_strip (s : string) : Py.truthy (Py.strip s) = has_nonspace s.
Proof.
  unfold Py.strip, Py.rstrip at 1.
  rewrite truthy_text
    by (apply segmented_rstrip_chars, segmented_chars).
  rewrite chars_lstrip. unfold has_nonspace.
  set (l := Py.chars s).
  destruct (existsb (fun ch => negb (Py.is_space ch)) l) eqn:He.
  - rewrite bool_decide_eq_false_2; [reflexivity|].
    unfold Py.rstrip_chars. intros H.
    apply (f_equal (@rev string)) in H. rewrite rev_involutive in H.
    simpl in H. apply lstrip_chars_nil in H.
    rewrite existsb_rev, existsb_lstrip_chars, He in H. discriminate.
  - rewrite bool_decide_eq_true_2; [reflexivity|].
    apply lstrip_chars_nil in He. rewrite He. reflexivity.
Qed.

(** *** The coverage line *)

Lemma truthy_snoc (cur ch : string) :
  Py.truthy ch = true -> Py.truthy (cur +:+ ch) = true.
Proof. destruct cur; [intros H; exact H|reflexivity]. Qed.

Lemma words_aux_truthy (l : list string) (cur : string) :
  Py.truthy cur = true -> Py.words_aux cur l <> [].
Proof.
  revert cur. induction l as [|ch l IH]; intros cur Hc; simpl.
  - rewrite Hc. discriminate.
  - destruct (Py.is_space ch).
    + rewrite Hc. discriminate.
    + apply IH. destruct cur; [discriminate|reflexivity].
Qed.

Lemma is_space_truthy (ch : string) :
  Py.truthy ch = false -> Py.is_space ch = false.
Proof. destruct ch; [reflexivity|discriminate]. Qed.

Lemma words_aux_nonspace (l : list string) (cur : string) :
  Forall (fun ch => Py.truthy ch = true) l ->
  existsb (fun ch => negb (Py.is_space ch)) l = true ->
  Py.words_aux cur l <> [].
Proof.
  intros Hall. revert cur.
  induction Hall as [|ch l Hch _ IH]; intros cur Hs; simpl in *.
  - discriminate.
  - destruct (Py.is_space ch); simpl in Hs.
    + destruct (Py.truthy cur); [discriminate|apply IH; exact Hs].
    + apply words_aux_truthy, truthy_snoc, Hch.
Qed.

Lemma chars_truthy (s : string) :
  Forall (fun ch => Py.truthy ch = true) (Py.chars s).
Proof.
  induction s as [|c s IH]; simpl; [constructor|].
  destruct (Py.chars s) as [|ch rest]; [repeat constructor|].
  inversion IH; subst.
  destruct (Py.starts_cont ch); repeat constructor; auto.
Qed.

(** The first byte of a character. *)
Definition first_byte (ch : string) : option ascii :=
  match ch with
  | String c _ => Some c
  | EmptyString => None
  end.

Lemma chars_first_byte (c : ascii) (s : string) :
  exists ch rest, Py.chars (String c s) = ch :: rest /\ first_byte ch = Some c.
Proof.
  simpl. destruct (Py.chars s) as [|ch rest]; [eauto|].
  destruct (Py.starts_cont ch); eauto.
Qed.

Lemma chars_later_byte (c k : ascii) (s : string) :
  Py.is_cont k = false ->
  Exists (fun ch => first_byte ch = Some k) (Py.chars s) ->
  Exists (fun ch => first_byte ch = Some k) (Py.chars (String c s)).
Proof.
  intros Hk H. simpl. destruct (Py.chars s) as [|ch rest]; [inversion H|].
  destruct (Py.starts_cont ch) eqn:Hs.
  - inversion H as [? ? Hch|? ? Hrest]; subst.
    + destruct ch as [|d t]; [discriminate|]. simpl in *.
      injection Hch as ->. congruence.
    + apply Exists_cons_tl. exact Hrest.
  - apply Exists_cons_tl. exact H.
Qed.

Lemma contains_total_char (s : string) :
  Py.contains "total:" s = true ->
  Exists (fun ch => first_byte ch = Some "t"%char) (Py.chars s).
Proof.
  induction s as [|c s IH].
  - intros H. vm_compute in H. discriminate.
  - intros H.
    change (String.prefix "total:" (String c s)
            || Py.contains "total:" s = true) in H.
    apply orb_prop in H as [H|H].
    + change ((if ascii_dec "t" c then String.prefix "otal:" s else false)
              = true) in H.
      destruct (ascii_dec "t" c) as [<-|]; [|discriminate].
      destruct (chars_first_byte "t" s) as (ch & rest & -> & Hf).
      apply Exists_cons_hd. exact Hf.
    + apply chars_later_byte; [reflexivity|]. apply IH, H.
Qed.

Lemma is_space_t (ch : string) :
  first_byte ch = Some "t"%char -> Py.is_space ch = false.
Proof.
  destruct ch as [|c t]; [discriminate|]. intros [= ->].
  unfold Py.is_space. simpl.
  destruct (map N_of_ascii (list_ascii_of_string t)); reflexivity.
Qed.

Lemma contains_total_nonspace (s : string) :
  Py.contains "total:" s = true -> has_nonspace s = true.
Proof.
  intros H. apply contains_total_char in H. unfold has_nonspace.
  apply existsb_exists. apply Exists_exists in H as (ch & Hin & Hf).
  exists ch. split; [apply list_elem_of_In; exact Hin|].
  rewrite (is_space_t _ Hf). reflexivity.
Qed.

(** A line that holds "total:" has a last word. *)
Lemma total_line_has_last_word (line : string) :
  Py.contains "total:" line = true ->
  exists coverage, last (Py.words line) = Some coverage.
Proof.
  intros H. apply contains_total_nonspace in H.
  pose proof (words_aux_nonspace (Py.chars line) EmptyString
                (chars_truthy line) H) as Hw.
  fold (Py.words line) in Hw.
  destruct (last (Py.words line)) as [c|] eqn:Hl; [eauto|].
  apply last_None in Hl. contradiction.
Qed.

(** Whatever [m] does, it raises nothing. *)
Definition never_raises {A} (m : M A) : Prop :=
  raises_only (fun _ => False) m.

Lemma raises_only_weaken {A} (P Q : exn -> Prop) (m : M A) :
  (forall e, P e -> Q e) -> raises_only P m -> raises_only Q m.
Proof. intros HPQ Hm w e w' H. apply HPQ. eapply Hm. exact H. Qed.

Lemma never_raises_report_total_coverage (lines : list string) :
  never_raises (report_total_coverage lines).
Proof.
  induction lines as [|line rest IH]; simpl.
  - apply raises_only_ret.
  - destruct (Py.contains "total:" line) eqn:Hc; [|exact IH].
    destruct (total_line_has_last_word line Hc) as [c ->].
    apply raises_only_print.
Qed.

(** The two commands of the coverage report. *)
Definition cover_commands : list (list string) :=
  [ ["go"; "tool"; "cover"; "-func=coverage.out"];
    ["go"; "tool"; "cover"; "-html=coverage.out"; "-o"; "coverage.html"] ].

(** An exception that [run_command] raised for a command of the
    coverage report. *)
Definition cover_fault (e : exn) : Prop :=
  exists (c : list string) (w1 : World),
    c ∈ cover_commands /\ (run_command c None false w1).1 = Raise e.

Lemma raises_only_cover (c : list string) :
  c ∈ cover_commands -> raises_only cover_fault (run_command c None false).
Proof.
  intros Hc w e w' H. exists c, w. split; [exact Hc|]. rewrite H. reflexivity.
Qed.

(** X9: [run_tests] raises what the test command raises; it returns
    [False], with nothing more done, when that command exits with
    another code than 0; and when the command exits with 0 it returns
    [True], unless [subprocess.run] raises for one of the two commands
    of the coverage report.  Nothing else can raise: not a missing
    coverage profile, not a coverage tool that fails, and not the
    parsing of the coverage line (a line that holds "total:" always has
    a last word, so [line.split()[-1]] cannot fail). *)
Theorem run_tests_verdict :
  forall (with_coverage : bool) (w : World),
    let cmd := ["go"; "test"]
               ++ (if with_coverage then ["-coverprofile=coverage.out"]
                   else [])
               ++ ["-v"; "./..."] in
    let test :=
      run_command cmd None true
        (emit (Printed (step_line "Running tests")) w) in
    match test.1 with
    | Raise e => run_tests with_coverage w = (Raise e, test.2)
    | Ok (rc, _, _) =>
        if rc =? 0 then
          match (run_tests with_coverage w).1 with
          | Ok ok => ok = true
          | Raise e => with_coverage = true /\ cover_fault e
          end
        else run_tests with_coverage w = (Ok false, test.2)
    end.
Proof.
  intros with_coverage w. cbv zeta. unfold run_tests, print_step.
  rewrite bind_print. fold (step_line "Running tests").
  assert (Hcmd : forall l, ["go"; "test"] ++ l = "go" :: "test" :: l)
    by reflexivity.
  rewrite Hcmd.
  run_cmd rc out err e w1 Hrun Hsp; [|reflexivity].
  destruct (rc =? 0); cbn [negb]; [|reflexivity].
  unfold print_success at 1. rewrite bind_print.
  destruct with_coverage.
  - rewrite bind_exists.
    match goal with
    | |- context [bind (when ?b ?body) _ ?w2] =>
        set (m := when b body);
        assert (Hbody : raises_only cover_fault m);
        [unfold m|destruct (m w2) as [[[]|e] w3] eqn:Hw]
    end.
    + apply raises_only_when.
      apply raises_only_bind;
        [apply raises_only_cover; unfold cover_commands; repeat constructor|].
      intros [[rc2 out2] err2].
      apply raises_only_when.
      apply raises_only_bind.
      { apply (raises_only_weaken (fun _ => False)); [contradiction|].
        apply never_raises_report_total_coverage. }
      intros _. apply raises_only_bind;
        [apply raises_only_cover; unfold cover_commands; repeat constructor|].
      intros _. apply raises_only_bind; [apply raises_only_exists|].
      intros html. apply raises_only_when. apply raises_only_print.
    + rewrite (bind_ok _ _ _ _ _ Hw). reflexivity.
    + rewrite (bind_raise _ _ _ _ _ Hw). cbn [fst].
      split; [reflexivity|exact (Hbody _ _ _ Hw)].
  - reflexivity.
Qed.

(** X10: [build_binary] raises [FileExistsError] before anything is
    started when the name of the build directory is taken by a regular
    file, and it raises what the compiler's command raises.  Otherwise
    it returns [False] unless the compiler exits with 0 and the binary
    is there afterwards.  The execution test ([<binary> -h]) is started
    only then; its return code changes nothing in what is returned, but
    what [subprocess.run] raises for it (a binary that the host cannot
    execute) leaves [build_binary], after the line that tells that the
    binary is built. *)
Theorem build_binary_verdict :
  forall (w : World),
    let line := step_line "Building application" in
    let started := emit (Printed line) w in
    let binary_path := path_join build_dir binary_name in
    let compile :=
      run_command (go_build_cmd binary_path) None true
        (mkdir_exist_ok build_dir started).2 in
    let built :=
      passed compile.1 && bool_decide (is_Some (fs compile.2 !! binary_path)) in
    let announced :=
      emit (Printed (success_line
              ("Binary built: " +:+ path_str binary_path +:+ " (" +:+
               match fs compile.2 !! binary_path with
               | Some n => size_mb n
               | None => ""
               end +:+ " MB)"))) compile.2 in
    let trial := run_command [path_str binary_path; "-h"] None false announced in
    match fs w !! build_dir with
    | Some (File _) =>
        build_binary w =
          (Raise (Exn FileExistsError
                    (os_error_str Mkdir FileExistsError build_dir)),
           started)
    | _ =>
        (build_binary w).1 =
          unless_raised compile.1
            (if built then unless_raised trial.1 (Ok true) else Ok false) /\
        spawns (trace (build_binary w).2) =
          spawns (trace w) ++
          (if built
           then [go_build_cmd binary_path; [path_str binary_path; "-h"]]
           else [go_build_cmd binary_path])
    end.
Proof.
  intros w. cbv zeta. unfold build_binary, print_step.
  rewrite bind_print. fold (step_line "Building application").
  set (line := step_line "Building application").
  set (binary_path := path_join build_dir binary_name).
  assert (Hgo : forall w1,
    spawns (trace w1) = spawns (trace w) ->
    (let compile := run_command (go_build_cmd binary_path) None true w1 in
     let built :=
       passed compile.1 &&
       bool_decide (is_Some (fs compile.2 !! binary_path)) in
     let announced :=
       emit (Printed (success_line
               ("Binary built: " +:+ path_str binary_path +:+ " (" +:+
                match fs compile.2 !! binary_path with
                | Some n => size_mb n
                | None => ""
                end +:+ " MB)"))) compile.2 in
     let trial :=
       run_command [path_str binary_path; "-h"] None false announced in
     let rest :=
       (let* '(ret_code, _, _) :=
          run_command (go_build_cmd binary_path) None true in
        if negb (ret_code =? 0) then ret false
        else
          let* present := exists_ binary_path in
          if negb present then
            print_error "Binary was not created" ;; ret false
          else
            let* size := stat_size_mb binary_path in
            print_success ("Binary built: " +:+ path_str binary_path
                           +:+ " (" +:+ size +:+ " MB)") ;;
            let* '(ret_code, _, _) :=
              run_command [path_str binary_path; "-h"] None false in
            (if ret_code =? 0
             then print_success "Binary execution test passed"
             else print_warning
                    "Binary execution test failed (may be normal)") ;;
            ret true) w1 in
     rest.1 =
       unless_raised compile.1
         (if built then unless_raised trial.1 (Ok true) else Ok false) /\
     spawns (trace rest.2) =
       spawns (trace w) ++
       (if built
        then [go_build_cmd binary_path; [path_str binary_path; "-h"]]
        else [go_build_cmd binary_path]))).
  { intros w1 Hw1. cbv zeta. unfold go_build_cmd.
    run_cmd rc out err e w2 Hrun Hsp; rewrite Hw1 in Hsp; [|auto].
    destruct (rc =? 0); cbn [negb andb].
    - rewrite bind_exists. case_bool_decide as Hpres; cbn [negb].
      + destruct Hpres as [n Hn]. rewrite (bind_stat_size_mb _ _ _ n Hn), Hn.
        unfold print_success, print_warning, success_line.
        rewrite !bind_print.
        run_cmd rc2 out2 err2 e2 w3 Hrun2 Hsp2;
          rewrite spawns_emit_print in Hsp2;
          [|rewrite Hsp2, Hsp, <- app_assoc; auto].
        destruct (rc2 =? 0); rewrite !bind_print; cbn [fst snd ret];
          rewrite !spawns_emit_print, Hsp2, Hsp, <- app_assoc; auto.
      + unfold print_error. rewrite bind_print. cbn [fst snd ret].
        rewrite spawns_emit_print. auto.
    - cbn [fst snd ret]. auto. }
  pose proof (mkdir_emit line w) as Hm.
  destruct (fs w !! build_dir) as [[c|]|] eqn:Hb.
  - exact (bind_raise _ _ _ _ _ Hm).
  - rewrite (bind_ok _ _ _ _ _ Hm), Hm. apply Hgo.
    apply (ready_trace line w).
  - rewrite (bind_ok _ _ _ _ _ Hm), Hm. apply Hgo.
    apply (ready_trace line w).
Qed.

(** X11: [build_for_platform] raises [FileExistsError] before anything
    is started when the name of the build directory is taken by a
    regular file, and it raises what the compiler's command raises.
    Otherwise it returns [True] exactly when the compiler exits with 0
    and the artifact of the platform is there afterwards: a compiler
    that exits with 0 and leaves no artifact is a failure, and so is a
    nonzero exit that leaves one. *)
Theorem build_for_platform_verdict :
  forall (goos goarch : string) (w : World),
    let started :=
      emit (Printed (step_line ("Building for " +:+ goos +:+ "/" +:+ goarch)))
        w in
    let compile :=
      run_command (go_build_cmd (artifact_path goos goarch)) None true
        (mkdir_exist_ok build_dir started).2 in
    match fs w !! build_dir with
    | Some (File _) =>
        build_for_platform goos goarch w =
          (Raise (Exn FileExistsError
                    (os_error_str Mkdir FileExistsError build_dir)),
           started)
    | _ =>
        (build_for_platform goos goarch w).1 =
          unless_raised compile.1
            (Ok (passed compile.1 &&
                 bool_decide
                   (is_Some (fs compile.2 !! artifact_path goos goarch))))
    end.
Proof.
  intros goos goarch w. cbv zeta. rewrite build_for_platform_unfold.
  cbv zeta.
  set (line := step_line ("Building for " +:+ goos +:+ "/" +:+ goarch)).
  pose proof (mkdir_emit line w) as Hm.
  destruct (fs w !! build_dir) as [[c|]|] eqn:Hb; [reflexivity| |];
    rewrite Hm; cbn [snd];
    destruct (run_command (go_build_cmd (artifact_path goos goarch)) None
                true (ready line w)) as [[[[rc out] err]|e] w2];
    reflexivity.
Qed.

(** *** What the build record holds *)

Lemma generate_build_info_ok (w w' : World) (build_info : BuildInfo) :
  generate_build_info w = (Ok build_info, w') ->
  exists commit branch status version,
    (probe_commit w).1 = Ok commit /\ (probe_branch w).1 = Ok branch /\
    (probe_status w).1 = Ok status /\ (probe_version w).1 = Ok version /\
    build_info = build_info_of commit branch status version (probe_version w).2 /\
    writable (fs (probe_version w).2) build_info_path = true /\
    w' = emit (Wrote build_info_path (json_dumps build_info))
           (set_fs (<[build_info_path := File (json_dumps build_info)]>
                      (fs (probe_version w).2)) (probe_version w).2).
Proof.
  intros Hgen. rewrite generate_build_info_unfold in Hgen.
  destruct (probe_commit w).1 as [c|?]; [|discriminate].
  destruct (probe_branch w).1 as [b|?]; [|discriminate].
  destruct (probe_status w).1 as [s|?]; [|discriminate].
  destruct (probe_version w).1 as [v|?]; [|discriminate].
  cbv zeta in Hgen.
  exists c, b, s, v. repeat (split; [reflexivity|]).
  set (w4 := (probe_version w).2) in *.
  set (bi := build_info_of c b s v w4) in *.
  unfold bind, write_text, writable, is_dir_in, refused, raise in *.
  destruct (dir_fault (fs w4) (parent build_info_path)); [discriminate|].
  destruct (fs w4 !! build_info_path) as [[|]|] eqn:Hp; try discriminate;
    injection Hgen as <- <-; rewrite ?Hp; auto.
Qed.

(** X12: when [generate_build_info] returns, the file of the build
    record holds the serialisation of the very record it returns, the
    record names the host's platform and architecture, and the commands
    started are the four probes, in their order. *)
Theorem generate_build_info_written :
  forall (w w' : World) (build_info : BuildInfo),
    generate_build_info w = (Ok build_info, w') ->
    fs w' !! build_info_path = Some (File (json_dumps build_info)) /\
    records (trace w') = records (trace w) ++ [json_dumps build_info] /\
    bi_platform build_info = platform_system /\
    bi_architecture build_info = platform_machine /\
    spawns (trace w') =
      spawns (trace w) ++
      [ ["git"; "rev-parse"; "HEAD"]; ["git"; "branch"; "--show-current"];
        ["git"; "status"; "--porcelain"]; ["go"; "version"] ].
Proof.
  intros w w' bi Hgen.
  pose proof (generate_build_info_records w) as Hrec. rewrite Hgen in Hrec.
  destruct (generate_build_info_ok w w' bi Hgen)
    as (c & b & s & v & _ & _ & _ & _ & Hbi & _ & Hw').
  split; [|split; [exact Hrec|split; [|split]]].
  - rewrite Hw'. simpl. apply lookup_insert_eq.
  - rewrite Hbi. reflexivity.
  - rewrite Hbi. reflexivity.
  - rewrite Hw'. simpl. rewrite spawns_app. simpl. rewrite app_nil_r.
    unfold probe_version, probe_status, probe_branch, probe_commit.
    repeat match goal with
           | |- context [run_command (?exe :: ?rest) ?cwd ?check ?x] =>
               let H := fresh "Ht" in
               pose proof (run_command_trace exe rest cwd check x)
                 as (_ & H & _);
               rewrite H; clear H
           end.
    rewrite <- !app_assoc. reflexivity.
Qed.

(** X13: in the record that [generate_build_info] returns, the commit
    has at most 8 characters and no whitespace in front, the branch and
    the toolchain version are stripped of whitespace at both ends, and
    the dirty flag is set exactly when [git status --porcelain] exited
    with 0 and printed a character that is no whitespace.  Characters
    and whitespace are those of Python's [str]: a character of several
    bytes counts once, and the no-break space and the other blanks of
    Unicode are whitespace. *)
Theorem build_info_fields :
  forall (w w' : World) (build_info : BuildInfo),
    generate_build_info w = (Ok build_info, w') ->
    (Py.len (bi_git_commit build_info) <= 8)%nat /\
    Py.lstrip (bi_git_commit build_info) = bi_git_commit build_info /\
    Py.strip (bi_git_branch build_info) = bi_git_branch build_info /\
    Py.strip (bi_go_version build_info) = bi_go_version build_info /\
    (bi_git_dirty build_info = true <->
     exists rc out err,
       (probe_status w).1 = Ok (rc, out, err) /\
       rc = 0 /\ has_nonspace out = true).
Proof.
  intros w w' bi Hgen.
  destruct (generate_build_info_ok w w' bi Hgen)
    as ([[rc1 o1] e1] & [[rc2 o2] e2] & [[rc3 o3] e3] & [[rc4 o4] e4]
        & _ & _ & H3 & _ & -> & _ & _).
  unfold build_info_of.
  cbn [bi_git_commit bi_git_branch bi_go_version bi_git_dirty fst snd].
  repeat split.
  - destruct (rc1 =? 0); [apply len_take|vm_compute; lia].
  - destruct (rc1 =? 0); [apply lstrip_take_strip|reflexivity].
  - destruct (rc2 =? 0); [apply strip_idempotent|reflexivity].
  - destruct (rc4 =? 0); [apply strip_idempotent|reflexivity].
  - intros Hd. exists rc3, o3, e3. split; [exact H3|].
    destruct (rc3 =? 0) eqn:Hrc; [|discriminate].
    split; [apply Z.eqb_eq; exact Hrc|]. rewrite <- truthy_strip. exact Hd.
  - intros (rc & out & err & Hp & -> & Hn).
    rewrite H3 in Hp. injection Hp as <- <- <-.
    rewrite Z.eqb_refl, truthy_strip. exact Hn.
Qed.

(** *** What [clean] removes *)

(** A pattern with no [*] and no [?]. *)
Fixpoint wild_free (pat : string) : bool :=
  match pat with
  | EmptyString => true
  | String c pat' =>
      negb (Ascii.eqb c "*") && negb (Ascii.eqb c "?") && wild_free pat'
  end.

Lemma glob_match_plain (c : ascii) (pat s : string) :
  Ascii.eqb c "*" = false -> Ascii.eqb c "?" = false ->
  glob_match (String c pat) s =
    match s with
    | EmptyString => false
    | String d s' => Ascii.eqb c d && glob_match pat s'
    end.
Proof.
  intros H1 H2.
  destruct c as [[] [] [] [] [] [] [] []]; try reflexivity;
    vm_compute in H1, H2; discriminate.
Qed.

Lemma glob_match_star (pat s : string) :
  glob_match (String "*" pat) s =
    glob_match pat s ||
    match s with
    | EmptyString => false
    | String _ s' => glob_match (String "*" pat) s'
    end.
Proof. destruct s; reflexivity. Qed.

(** A pattern without wildcards matches itself and nothing else. *)
Lemma glob_match_literal (pat s : string) :
  wild_free pat = true -> (glob_match pat s = true <-> s = pat).
Proof.
  revert s. induction pat as [|c pat IH]; intros s Hw.
  - destruct s; simpl; split; congruence.
  - cbn [wild_free] in Hw.
    apply andb_prop in Hw as [Hw Hp]. apply andb_prop in Hw as [H1 H2].
    apply negb_true_iff in H1, H2.
    rewrite (glob_match_plain c pat s H1 H2).
    destruct s as [|d s]; [split; discriminate|].
    rewrite andb_true_iff, (IH s Hp). split.
    + intros [Hc ->]. apply Ascii.eqb_eq in Hc. congruence.
    + intros [= -> ->]. split; [apply Ascii.eqb_refl|reflexivity].
Qed.

(** [*] followed by a text without wildcards matches the names that end
    in that text. *)
Lemma glob_match_suffix (suf s : string) :
  wild_free suf = true ->
  (glob_match (String "*" suf) s = true <-> exists pre, s = pre +:+ suf).
Proof.
  intros Hw. induction s as [|d s IH].
  - rewrite glob_match_star, orb_false_r, (glob_match_literal suf "" Hw).
    split.
    + intros <-. exists "". reflexivity.
    + intros [[|c pre] H]; [exact H|discriminate].
  - rewrite glob_match_star, orb_true_iff, (glob_match_literal suf _ Hw), IH.
    split.
    + intros [->|[pre ->]]; [exists ""; reflexivity|].
      exists (String d pre). reflexivity.
    + intros [[|c pre] H]; [left; exact H|].
      right. injection H as -> ->. eauto.
Qed.

(** The names that [clean] takes for test artifacts. *)
Definition is_test_artifact (name : string) : Prop :=
  name ∈ ["coverage.out"; "coverage.html"; "coverage.txt"] \/
  exists pre suf,
    suf ∈ [".test"; ".db"; ".sqlite"; ".sqlite3"] /\ name = pre +:+ suf.

Lemma test_artifacts_match (name : string) :
  (exists pattern, pattern ∈ test_artifacts /\ glob_match pattern name = true)
  <-> is_test_artifact name.
Proof.
  unfold is_test_artifact, test_artifacts. split.
  - intros (pattern & Hin & Hm).
    repeat (apply elem_of_cons in Hin as [->|Hin]).
    + left. apply glob_match_literal in Hm as ->; [|reflexivity]. repeat constructor.
    + left. apply glob_match_literal in Hm as ->; [|reflexivity]. repeat constructor.
    + left. apply glob_match_literal in Hm as ->; [|reflexivity]. repeat constructor.
    + right. apply glob_match_suffix in Hm as [pre ->]; [|reflexivity].
      exists pre, ".test". split; [repeat constructor|reflexivity].
    + right. apply glob_match_suffix in Hm as [pre ->]; [|reflexivity].
      exists pre, ".db". split; [repeat constructor|reflexivity].
    + right. apply glob_match_suffix in Hm as [pre ->]; [|reflexivity].
      exists pre, ".sqlite". split; [repeat constructor|reflexivity].
    + right. apply glob_match_suffix in Hm as [pre ->]; [|reflexivity].
      exists pre, ".sqlite3". split; [repeat constructor|reflexivity].
    + inversion Hin.
  - intros [Hin|(pre & suf & Hin & ->)].
    + repeat (apply elem_of_cons in Hin as [->|Hin]);
        [match goal with
         | |- exists pattern, _ /\ glob_match pattern ?name = true =>
             exists name; split; [repeat constructor|reflexivity]
         end..|].
      inversion Hin.
    + exists (String "*" suf).
      repeat (apply elem_of_cons in Hin as [->|Hin]);
        [split; [repeat constructor|apply glob_match_suffix; eauto]..|].
      inversion Hin.
Qed.

Lemma rglob_file_artifact (p : path) (n : node) :
  (exists pattern, pattern ∈ test_artifacts /\ rglob_file pattern (p, n))
  <->
  exists content name,
    n = File content /\ last p = Some name /\ is_test_artifact name.
Proof.
  unfold rglob_file. cbn [fst snd]. split.
  - intros (pattern & Hin & Hm).
    destruct n as [content|]; [|contradiction].
    destruct (last p) as [name|]; [|contradiction].
    exists content, name. repeat split.
    apply test_artifacts_match. eauto.
  - intros (content & name & -> & -> & Ha).
    apply test_artifacts_match in Ha as (pattern & Hin & Hm). eauto.
Qed.

Lemma sweep_subseteq (patterns : list string) (f : gmap path node) :
  sweep patterns f ⊆ f.
Proof.
  revert f. induction patterns as [|pattern rest IH]; intros f; simpl.
  - reflexivity.
  - etransitivity; [apply IH|apply map_filter_subseteq].
Qed.

Lemma clean_tree_subseteq (f : gmap path node) : clean_tree f ⊆ f.
Proof.
  unfold clean_tree.
  destruct (f !! build_dir) as [[c|]|]; [reflexivity| |].
  - destruct (_ !! root_binary) as [[c|]|].
    + etransitivity; [apply sweep_subseteq|].
      etransitivity; [apply delete_subseteq|apply map_filter_subseteq].
    + apply map_filter_subseteq.
    + etransitivity; [apply sweep_subseteq|apply map_filter_subseteq].
  - destruct (f !! root_binary) as [[c|]|].
    + etransitivity; [apply sweep_subseteq|apply delete_subseteq].
    + reflexivity.
    + apply sweep_subseteq.
Qed.

(** X14: whatever it finds, [clean] only removes: every entry of the
    project tree it leaves was there before, unchanged; it starts no
    process, writes no file and leaves the environment alone (all that
    it adds to the trace are printed lines). *)
Theorem clean_only_removes :
  forall (w : World),
    fs (clean w).2 ⊆ fs w /\
    environ (clean w).2 = environ w /\
    silent (trace (clean w).2) = silent (trace w).
Proof.
  intros w.
  destruct (clean_spec w) as (r & w' & Hc & Hfs & Henv & _).
  rewrite Hc. cbn [snd]. split; [rewrite Hfs; apply clean_tree_subseteq|].
  split; [exact Henv|].
  change w' with (r, w').2. rewrite <- Hc.
  apply (keeps_all_clean (fun w w' => silent (trace w') = silent (trace w))).
  - reflexivity.
  - intros w1 w2 w3 H1 H2. congruence.
  - intros line w1. simpl. rewrite silent_app. simpl. apply app_nil_r.
  - reflexivity.
Qed.

(** X15: when [clean] returns [True], what is left of the project tree
    is exactly what was there except: the build directory with all below
    it, the binary in the project root, and every regular file, at any
    depth, named coverage.out, coverage.html or coverage.txt or with a
    name that ends in .test, .db, .sqlite or .sqlite3.  Directories with
    such names stay. *)
Theorem clean_removes_exactly :
  forall (w : World),
    (clean w).1 = Ok true ->
    forall (p : path) (n : node),
      fs (clean w).2 !! p = Some n <->
      fs w !! p = Some n /\
      ~ (is_Some (fs w !! build_dir) /\ below build_dir p) /\
      p <> root_binary /\
      ~ (exists content name,
            n = File content /\ last p = Some name /\ is_test_artifact name).
Proof using platform_system.
  clear os_spawn utc_now path_str size_mb elapsed_str.
  intros w Hok p n.
  destruct (clean_spec w) as (r & w' & Hc & Hfs & _ & _ & Hraise).
  rewrite Hc in *. cbn [fst snd] in *. subst r. rewrite Hfs.
  assert (Hnr : clean_raises (fs w) = false).
  { destruct (clean_raises (fs w)); [|reflexivity].
    destruct (Hraise eq_refl) as [e He]. discriminate. }
  rewrite <- rglob_file_artifact.
  assert (Hsw : forall g,
    sweep test_artifacts g !! p = Some n <->
    g !! p = Some n /\
    ~ (exists pattern, pattern ∈ test_artifacts /\ rglob_file pattern (p, n))).
  { intros g. rewrite sweep_lookup. split.
    - intros [Hg Hall]. split; [exact Hg|].
      intros (pattern & Hin & Hm). exact (Hall pattern Hin Hm).
    - intros [Hg Hno]. split; [exact Hg|]. intros pattern Hin Hm.
      apply Hno. eauto. }
  assert (Hfilter :
    filter (fun e => ~ below build_dir e.1) (fs w) !! p = Some n <->
    fs w !! p = Some n /\ ~ below build_dir p).
  { apply map_lookup_filter_Some. }
  assert (Hrb : filter (fun e => ~ below build_dir e.1) (fs w) !! root_binary
                = fs w !! root_binary).
  { destruct (fs w !! root_binary) as [m|] eqn:Hr.
    - apply map_lookup_filter_Some. split; [exact Hr|].
      apply root_binary_not_below.
    - apply map_lookup_filter_None. left. exact Hr. }
  assert (Hnone : ~ is_Some (@None node)) by (intros [? ?]; discriminate).
  assert (Hdir : is_Some (Some Dir)) by eauto.
  unfold clean_tree, clean_raises in *.
  destruct (fs w !! build_dir) as [[c|]|] eqn:Hb; [discriminate| |].
  - rewrite Hrb.
    destruct (fs w !! root_binary) as [[c|]|] eqn:Hr; [|discriminate|].
    + rewrite Hsw, lookup_delete_Some, Hfilter.
      intuition (try congruence; eauto).
    + rewrite Hsw, Hfilter.
      intuition (try congruence; eauto).
  - destruct (fs w !! root_binary) as [[c|]|] eqn:Hr; [|discriminate|].
    + rewrite Hsw, lookup_delete_Some.
      intuition (try congruence; eauto).
    + rewrite Hsw.
      intuition (try congruence; eauto).
Qed.

End BuildRunner.

(** ** Hosts and runs to try the runner on *)

Module Scenario.

(** [str(p)] for a script that lies in the directory /repo (the
    [__file__] of a script that is run is absolute). *)
Definition path_str (p : path) : string := Py.join "/" ("/repo" :: p).

(** The path of the project that a text names. *)
Definition path_of_str (s : string) : option path :=
  match Py.split_on "/" s with
  | "" :: "repo" :: p => Some p
  | _ => None
  end.

Definition size_mb (n : node) : string := "0.0".

Definition utc_now (w : World) : string := "2025-01-01 00:00:00 UTC".

Definition elapsed_str (w : World) : string := "0.1".

Definition json_dumps (b : BuildInfo) : string :=
  "{commit: " +:+ bi_git_commit b +:+ ", branch: " +:+ bi_git_branch b
  +:+ ", go: " +:+ bi_go_version b +:+ "}".

(** [str(e)] for the faults of the file system, as CPython 3.11 shows
    them on Linux ([shutil.rmtree] shows the path object, the other
    calls its text). *)
Definition os_error_str (call : fs_call) (c : exn_class) (p : path)
    : string :=
  let message :=
    match c with
    | FileExistsError => "[Errno 17] File exists"
    | NotADirectoryError => "[Errno 20] Not a directory"
    | IsADirectoryError => "[Errno 21] Is a directory"
    | _ => "[Errno 2] No such file or directory"
    end in
  let shown :=
    match call with
    | Rmtree => "PosixPath('" +:+ path_str p +:+ "')"
    | _ => "'" +:+ path_str p +:+ "'"
    end in
  message +:+ ": " +:+ shown.

(** The output path of a compiler command line. *)
Definition compiled_output (args : list string) : option path :=
  if bool_decide (take 2 args = ["go"; "build"])
     && bool_decide (args !! 6%nat = Some "-o")
  then args !! 7%nat ≫= path_of_str
  else None.

Definition stdout_of (args : list string) : string :=
  if bool_decide (args = ["go"; "version"])
  then "go version go1.22.0 linux/amd64" +:+ Py.LF
  else if bool_decide (take 2 args = ["git"; "rev-parse"])
  then "0123456789abcdef0123456789abcdef01234567" +:+ Py.LF
  else if bool_decide (take 2 args = ["git"; "branch"])
  then "main" +:+ Py.LF
  else "".

(** A host on which the executables of [missing] are not installed, the
    command lines that [fails] picks exit with 1, and every other command
    exits with 0; the compiler writes its output when that is a file
    name in the build directory. *)
Definition host (missing : list string) (fails : list string -> bool)
    (w : World) (args : list string) (cwd : path)
    (env : gmap string string) : spawn_outcome :=
  match args with
  | [] => NoSuchExecutable
  | exe :: _ =>
      if bool_decide (exe ∈ missing) then NoSuchExecutable
      else if fails args then Exited 1 "" "failed" (fs w)
      else
        Exited 0 (stdout_of args) ""
          (match compiled_output args with
           | Some [d; name] =>
               if bool_decide (d = "build")
               then <[[d; name] := File "ELF"]> (fs w)
               else fs w
           | _ => fs w
           end)
  end.

Definition nothing_fails (args : list string) : bool := false.

(** A host like [h] on which the executables of [exes] are there but may
    not be executed. *)
Definition denied (exes : list string)
    (h : World -> list string -> path -> gmap string string -> spawn_outcome)
    (w : World) (args : list string) (cwd : path)
    (env : gmap string string) : spawn_outcome :=
  match args with
  | exe :: _ =>
      if bool_decide (exe ∈ exes)
      then Faulted (Exn PermissionError
                      ("[Errno 13] Permission denied: '" +:+ exe +:+ "'"))
             (fs w)
      else h w args cwd env
  | [] => h w args cwd env
  end.

(** A host like [h] on which the user interrupts the executables of
    [exes]. *)
Definition interrupted (exes : list string)
    (h : World -> list string -> path -> gmap string string -> spawn_outcome)
    (w : World) (args : list string) (cwd : path)
    (env : gmap string string) : spawn_outcome :=
  match args with
  | exe :: _ =>
      if bool_decide (exe ∈ exes)
      then Faulted (Exn KeyboardInterrupt "") (fs w)
      else h w args cwd env
  | [] => h w args cwd env
  end.

(** A host like [h] on which the files of [exes] are no programs of the
    host. *)
Definition foreign (exes : list string)
    (h : World -> list string -> path -> gmap string string -> spawn_outcome)
    (w : World) (args : list string) (cwd : path)
    (env : gmap string string) : spawn_outcome :=
  match args with
  | exe :: _ =>
      if bool_decide (exe ∈ exes)
      then Faulted (Exn OSError
                      ("[Errno 8] Exec format error: '" +:+ exe +:+ "'"))
             (fs w)
      else h w args cwd env
  | [] => h w args cwd env
  end.

(** The compiler fails for one target. *)
Definition build_fails_for (goos goarch : string) (args : list string) : bool :=
  bool_decide
    (compiled_output args
     = Some (path_join build_dir (platform_binary_name goos goarch))).

(** A command line fails when its first two words are these. *)
Definition command_fails (a b : string) (args : list string) : bool :=
  bool_decide (take 2 args = [a; b]).

(** A checkout of the project: the module file, and an environment that
    names no target. *)
Definition checkout : World :=
  {| fs := {[ ["go.mod"] := File "module shoal" ]};
     environ := {[ "PATH" := "/usr/bin" ]};
     trace := [] |}.

(** A checkout in which the name of the build directory is taken by a
    regular file. *)
Definition blocked : World :=
  {| fs := {[ ["go.mod"] := File "module shoal"; ["build"] := File "notes" ]};
     environ := {[ "PATH" := "/usr/bin" ]};
     trace := [] |}.

(** A checkout with things to clean. *)
Definition dirty : World :=
  {| fs := {[ ["go.mod"] := File "module shoal";
              ["build"] := Dir;
              ["build"; "shoal"] := File "ELF";
              ["shoal"] := File "ELF";
              ["coverage.out"] := File "mode: set";
              ["internal"] := Dir;
              ["internal"; "store.db"] := File "db";
              ["internal"; "cache.db"] := Dir ]};
     environ := {[ "PATH" := "/usr/bin" ]};
     trace := [] |}.

(** Steps with a side effect one can see: each prints its name. *)
Definition ok_step (name : string) : Step :=
  mkStep name (fun w => (Ok true, emit (Printed name) w)).

Definition failing_step (name : string) : Step :=
  mkStep name (fun w => (Ok false, emit (Printed name) w)).

Definition raising_step (name : string) (e : exn) : Step :=
  mkStep name (fun w => (Raise e, emit (Printed name) w)).

(** The world after the steps of [todo], each run where the one before
    left off. *)
Fixpoint run_all (todo : list Step) (w : World) : World :=
  match todo with
  | [] => w
  | s :: rest => run_all rest (step_func s w).2
  end.

(** Every step of [todo] returns [True]. *)
Fixpoint passesb (todo : list Step) (w : World) : bool :=
  match todo with
  | [] => true
  | s :: rest =>
      match (step_func s w).1 with
      | Ok true => passesb rest (step_func s w).2
      | _ => false
      end
  end.

End Scenario.

(** ** The properties on concrete runs *)

Module Runs.

Import Scenario.

Definition friendly := host [] nothing_fails.
Definition no_gosec := host ["gosec"] nothing_fails.
Definition no_git := host ["git"; "golangci-lint"; "gosec"] nothing_fails.
Definition no_tools := host ["git"; "go"] nothing_fails.
Definition windows_fails := host [] (build_fails_for "windows" "amd64").
Definition linux_fails := host [] (build_fails_for "linux" "amd64").
Definition tests_fail := host [] (command_fails "go" "test").
Definition git_denied := denied ["git"] friendly.
Definition go_denied := denied ["go"] friendly.

Definition todo_A : list Step :=
  [ok_step "deps"; ok_step "lint"; ok_step "build"].
Definition todo_B : list Step :=
  [ok_step "deps"; failing_step "lint"; ok_step "build"].
Definition todo_X : list Step :=
  [ok_step "deps"; raising_step "lint" (Exn RuntimeError "boom");
   ok_step "build"].

(** The steps of [validate] on a host. *)
Definition steps_on (h : World -> list string -> path -> gmap string string
                         -> spawn_outcome) : list Step :=
  steps h "Linux" path_str size_mb os_error_str.

Definition header (w : World) : World :=
  (print_header "Shoal Build & Test Validation" w).2.

Lemma passesb_sound (todo : list Step) (w : World) :
  passesb todo w = true -> passes todo w (run_all todo w).
Proof.
  revert w. induction todo as [|s rest IH]; intros w H; simpl in *.
  - reflexivity.
  - destruct (step_func s w) as [[[|]|e] w1] eqn:Hs; simpl in *;
      try discriminate.
    exists w1. split; [reflexivity|]. apply IH. exact H.
Qed.

Lemma pair_of_fst {A B} (p : A * B) (a : A) : p.1 = a -> p = (a, p.2).
Proof. intros <-. destruct p; reflexivity. Qed.

Lemma host_keeps_build_dir_free missing fails :
  spawn_keeps (host missing fails) build_dir_free.
Proof.
  intros w args cwd env Hfree. unfold host.
  destruct args as [|exe rest]; [exact Hfree|].
  case_bool_decide; [exact Hfree|].
  destruct (fails (exe :: rest)); [exact Hfree|]. cbn [tree_after].
  destruct (compiled_output (exe :: rest)) as [[|d [|name [|? ?]]]|];
    try exact Hfree.
  case_bool_decide; [|exact Hfree].
  intros c. unfold build_dir, path_join, root_dir. simpl.
  rewrite lookup_insert_ne by discriminate. apply Hfree.
Qed.

Lemma host_never_faults missing fails w args cwd env e fs' :
  host missing fails w args cwd env <> Faulted e fs'.
Proof.
  unfold host. destruct args as [|exe rest]; [discriminate|].
  case_bool_decide; [discriminate|].
  destruct (fails (exe :: rest)); discriminate.
Qed.

Lemma host_compiler_starts missing fails :
  compiler_starts (host missing fails) path_str.
Proof.
  intros w goos goarch e fs' H. exfalso.
  exact (host_never_faults _ _ _ _ _ _ _ _ H).
Qed.

(** The text operations on inputs of the kind the script meets. *)
Example strip_version :
  Py.strip ("  go version go1.22.0 linux/amd64 " +:+ Py.LF)
  = "go version go1.22.0 linux/amd64".
Proof. reflexivity. Qed.

Example strip_blank : Py.truthy (Py.strip (" " +:+ Py.LF)) = false.
Proof. reflexivity. Qed.

(** U+00A0, U+0085 and U+2003 in their UTF-8 forms. *)
Definition NBSP : string :=
  String (ascii_of_nat 194) (String (ascii_of_nat 160) EmptyString).
Definition NEL : string :=
  String (ascii_of_nat 194) (String (ascii_of_nat 133) EmptyString).
Definition EM_SPACE : string :=
  String (ascii_of_nat 226)
    (String (ascii_of_nat 128) (String (ascii_of_nat 131) EmptyString)).

Example strip_unicode_blanks :
  Py.strip (NBSP +:+ " main" +:+ EM_SPACE +:+ NEL) = "main" /\
  Py.truthy (Py.strip (NBSP +:+ NEL)) = false /\
  Py.words ("total:" +:+ NBSP +:+ "81.5%") = ["total:"; "81.5%"].
Proof. vm_compute. repeat split; reflexivity. Qed.

Example take_characters :
  Py.take 3 "→✓✗⚠" = "→✓✗" /\ Py.len "→✓✗⚠" = 4%nat.
Proof. vm_compute. split; reflexivity. Qed.

Example take_commit :
  Py.take 8 (Py.strip ("0123456789abcdef" +:+ Py.LF)) = "01234567".
Proof. reflexivity. Qed.

Example split_lines :
  Py.split_on "010"%char ("a b" +:+ Py.LF +:+ "total: 81.5%")
  = ["a b"; "total: 81.5%"].
Proof. reflexivity. Qed.

Example last_word :
  last (Py.words "total:   (statements)   81.5%") = Some "81.5%".
Proof. reflexivity. Qed.

Example contains_total :
  Py.contains "total:" "total:   (statements)   81.5%" = true /\
  Py.contains "total:" "ok  shoal/pkg 0.1s" = false.
Proof. split; reflexivity. Qed.

Example glob_examples :
  glob_match "*.db" "store.db" = true /\
  glob_match "*.db" ".db" = true /\
  glob_match "*.db" "store.dbx" = false /\
  glob_match "*.sqlite" "a.sqlite3" = false /\
  glob_match "coverage.out" "coverage.out" = true /\
  glob_match "coverage.out" "coverage_out" = false.
Proof. repeat split; reflexivity. Qed.

Example join_command :
  Py.join " " ["go"; "mod"; "download"] = "go mod download".
Proof. reflexivity. Qed.

(** Scenarios A and B of the pipeline: three steps that pass; a second
    step that fails, after which the third is not called. *)
Lemma pipeline_fail_fast_witness :
  (todo_B !! 1%nat = Some (failing_step "lint") /\
   passes (take 1 todo_B) checkout (emit (Printed "deps") checkout) /\
   step_func (failing_step "lint") (emit (Printed "deps") checkout)
     = (Ok false, emit (Printed "lint") (emit (Printed "deps") checkout)))
  /\
  (let w' := emit (Printed (error_line "Step 'lint' failed"))
               (emit (Printed "lint") (emit (Printed "deps") checkout)) in
   run_steps todo_B checkout = (Ok false, w') /\
   run_pipeline friendly "Linux" "x86_64" utc_now json_dumps os_error_str todo_B checkout
     = (Ok false, w') /\
   invoked todo_B checkout = ["deps"; "lint"])
  /\
  (passes todo_A checkout (run_all todo_A checkout) /\
   run_steps todo_A checkout = (Ok true, run_all todo_A checkout) /\
   invoked todo_A checkout = ["deps"; "lint"; "build"]).
Proof.
  assert (H1 : todo_B !! 1%nat = Some (failing_step "lint")) by reflexivity.
  assert (H2 : passes (take 1 todo_B) checkout (emit (Printed "deps") checkout)).
  { simpl. eexists. split; reflexivity. }
  assert (H3 : step_func (failing_step "lint") (emit (Printed "deps") checkout)
               = (Ok false, emit (Printed "lint") (emit (Printed "deps") checkout)))
    by reflexivity.
  assert (H4 : passes todo_A checkout (run_all todo_A checkout)).
  { apply passesb_sound. reflexivity. }
  split; [auto|]. split.
  - exact (proj1 (pipeline_fail_fast friendly "Linux" "x86_64" utc_now
                    json_dumps os_error_str todo_B checkout) 1%nat _ _ _ H1 H2 H3).
  - split; [exact H4|].
    destruct (proj2 (pipeline_fail_fast friendly "Linux" "x86_64" utc_now
                       json_dumps os_error_str todo_A checkout) _ H4) as (Hr & Hi & _).
    split; [exact Hr|exact Hi].
Defined.

Lemma todo_X_raises_only_exceptions : raises_only_exceptions todo_X.
Proof.
  intros s w w' e Hin Hs. unfold todo_X in Hin.
  repeat (apply elem_of_cons in Hin as [->|Hin]); simpl in Hs;
    try discriminate.
  - injection Hs as <- _. reflexivity.
  - inversion Hin.
Qed.

(** A second step that raises [RuntimeError("boom")]: the loop returns
    [False], names the step and the message, and the third step is not
    called. *)
Lemma pipeline_contains_exceptions_witness :
  (todo_X !! 1%nat = Some (raising_step "lint" (Exn RuntimeError "boom")) /\
   passes (take 1 todo_X) checkout (emit (Printed "deps") checkout) /\
   is_Exception (Exn RuntimeError "boom") = true /\
   raises_only_exceptions todo_X)
  /\
  (run_steps todo_X checkout =
     (Ok false,
      emit (Printed (error_line "Step 'lint' failed with exception: boom"))
        (emit (Printed "lint") (emit (Printed "deps") checkout))) /\
   invoked todo_X checkout = ["deps"; "lint"])
  /\
  ((all_succeeded todo_X checkout \/ first_failure_identified todo_X checkout)
   /\ ~ (all_succeeded todo_X checkout /\
         first_failure_identified todo_X checkout)).
Proof.
  assert (H1 : todo_X !! 1%nat
               = Some (raising_step "lint" (Exn RuntimeError "boom")))
    by reflexivity.
  assert (H2 : passes (take 1 todo_X) checkout (emit (Printed "deps") checkout)).
  { simpl. eexists. split; reflexivity. }
  split; [repeat split; auto using todo_X_raises_only_exceptions|].
  split.
  - exact (proj1 (pipeline_contains_exceptions todo_X checkout)
             1%nat _ _ _ _ H1 H2 eq_refl eq_refl).
  - exact (proj2 (pipeline_contains_exceptions todo_X checkout)
             todo_X_raises_only_exceptions).
Defined.

(** [gosec] is not installed: the probe of [run_security_checks] returns
    the triple of a failed command. *)
Lemma run_command_missing_executable_witness :
  no_gosec checkout ["gosec"; "-version"] root_dir (environ checkout)
    = NoSuchExecutable
  /\
  run_command no_gosec ["gosec"; "-version"] None false checkout =
    (Ok (1, "", "Command not found: gosec"),
     emit (Printed (error_line "Command not found: gosec"))
       (emit (Spawned ["gosec"; "-version"] root_dir (environ checkout))
          checkout)).
Proof.
  assert (H : no_gosec checkout ["gosec"; "-version"]
                (default root_dir None) (environ checkout)
              = NoSuchExecutable) by (vm_compute; reflexivity).
  split; [exact H|].
  exact (proj1 (run_command_missing_executable no_gosec "gosec" ["-version"]
                  None false checkout H)).
Defined.

(** Scenario D: not in a repository ([git] is not installed).  All steps
    of [validate] pass, the record holds the placeholders for commit,
    branch and dirty flag, and the pipeline returns [True].  On a host
    without [go] either, after steps that need no tool, the version is
    "unknown" too.  And on a host where [git] is there but may not be
    executed, the first probe raises and so does the pipeline. *)
Lemma build_info_probes_degrade_witness :
  (passes (steps_on no_git) (header checkout)
     (run_all (steps_on no_git) (header checkout)) /\
   passes todo_A dirty (run_all todo_A dirty))
  /\
  (exists (build_info : BuildInfo) (w2 : World),
      generate_build_info no_git "Linux" "x86_64" utc_now json_dumps
        os_error_str (run_all (steps_on no_git) (header checkout))
        = (Ok build_info, w2) /\
      validate no_git "Linux" "x86_64" utc_now path_str size_mb json_dumps
        os_error_str checkout
        = (Ok true, emit (Printed (success_line "Build info generated")) w2) /\
      bi_git_commit build_info = "unknown" /\
      bi_git_branch build_info = "unknown" /\
      bi_git_dirty build_info = false)
  /\
  (exists (build_info : BuildInfo) (w2 : World),
      run_pipeline no_tools "Linux" "x86_64" utc_now json_dumps os_error_str
        todo_A dirty
        = (Ok true, emit (Printed (success_line "Build info generated")) w2) /\
      bi_git_commit build_info = "unknown" /\
      bi_git_branch build_info = "unknown" /\
      bi_git_dirty build_info = false /\
      bi_go_version build_info = "unknown")
  /\
  (run_pipeline git_denied "Linux" "x86_64" utc_now json_dumps os_error_str
     todo_A dirty).1
    = Raise (Exn PermissionError "[Errno 13] Permission denied: 'git'").
Proof.
  assert (H1 : passes (steps_on no_git) (header checkout)
                 (run_all (steps_on no_git) (header checkout))).
  { apply passesb_sound. vm_compute. reflexivity. }
  assert (H2 : passes todo_A dirty (run_all todo_A dirty)).
  { apply passesb_sound. reflexivity. }
  split; [split; assumption|]. split; [|split].
  - pose proof (build_info_probes_degrade no_git "Linux" "x86_64" utc_now
                  json_dumps os_error_str (steps_on no_git) (header checkout)
                  _ H1) as H.
    cbv zeta in H. destruct H as (H & _ & _).
    destruct H as (bi & w2 & Hgen & Hrun & Hc & Hb & Hd & _);
      try (vm_compute; reflexivity).
    exists bi, w2. split; [exact Hgen|]. split; [exact Hrun|].
    split; [apply Hc; vm_compute; discriminate|].
    split; [apply Hb; vm_compute; discriminate|].
    apply Hd; vm_compute; discriminate.
  - pose proof (build_info_probes_degrade no_tools "Linux" "x86_64" utc_now
                  json_dumps os_error_str todo_A dirty _ H2) as H.
    cbv zeta in H. destruct H as (H & _ & _).
    destruct H as (bi & w2 & Hgen & Hrun & Hc & Hb & Hd & Hv);
      try (vm_compute; reflexivity).
    exists bi, w2. split; [exact Hrun|].
    split; [apply Hc; vm_compute; discriminate|].
    split; [apply Hb; vm_compute; discriminate|].
    split; [apply Hd; vm_compute; discriminate|].
    apply Hv; vm_compute; discriminate.
  - pose proof (build_info_probes_degrade git_denied "Linux" "x86_64" utc_now
                  json_dumps os_error_str todo_A dirty _ H2) as H.
    cbv zeta in H. destruct H as (_ & Hfault & Hescapes).
    rewrite (Hescapes (Exn PermissionError "[Errno 13] Permission denied: 'git'")
               (generate_build_info git_denied "Linux" "x86_64" utc_now
                  json_dumps os_error_str (run_all todo_A dirty)).2);
      [reflexivity|].
    apply pair_of_fst. apply Hfault. left. vm_compute. reflexivity.
Defined.

(** The world after the steps of [validate] on a host where [git] may
    not be executed. *)
Definition validated_without_git : World :=
  run_all (steps_on git_denied) (header checkout).

(** C6, against the claim as stated: every step of [validate] passes on
    a host where [git] is there but may not be executed; the first probe
    of the recorder then raises [PermissionError], which leaves
    [generate_build_info] and [validate]; no record is written, and
    [main] ends with status 1. *)
Lemma build_info_probe_fault_escapes :
  passesb (steps_on git_denied) (header checkout) = true /\
  (probe_commit git_denied validated_without_git).1
    = Raise (Exn PermissionError "[Errno 13] Permission denied: 'git'") /\
  (generate_build_info git_denied "Linux" "x86_64" utc_now json_dumps
     os_error_str validated_without_git).1
    = Raise (Exn PermissionError "[Errno 13] Permission denied: 'git'") /\
  (validate git_denied "Linux" "x86_64" utc_now path_str size_mb json_dumps
     os_error_str checkout).1
    = Raise (Exn PermissionError "[Errno 13] Permission denied: 'git'") /\
  records (trace (validate git_denied "Linux" "x86_64" utc_now path_str
                    size_mb json_dumps os_error_str checkout).2) = [] /\
  (main git_denied "Linux" "x86_64" utc_now path_str size_mb json_dumps
     os_error_str elapsed_str "validate" None checkout).1
    = Raise (Exn SystemExit "1").
Proof. vm_compute. repeat split; reflexivity. Qed.

(** The tests fail: [validate] returns [False] and writes no record. *)
Lemma build_info_only_after_success_witness :
  (steps_on tests_fail !! 4%nat = Some (mkStep "Tests"
      (run_tests tests_fail true)) /\
   passes (take 4 (steps_on tests_fail)) (header checkout)
     (run_all (take 4 (steps_on tests_fail)) (header checkout)))
  /\
  ((validate tests_fail "Linux" "x86_64" utc_now path_str size_mb json_dumps os_error_str
      checkout).1 <> Ok true /\
   records (trace (validate tests_fail "Linux" "x86_64" utc_now path_str
                     size_mb json_dumps os_error_str checkout).2) = []).
Proof.
  assert (H1 : steps_on tests_fail !! 4%nat
               = Some (mkStep "Tests" (run_tests tests_fail true)))
    by reflexivity.
  assert (H2 : passes (take 4 (steps_on tests_fail)) (header checkout)
                 (run_all (take 4 (steps_on tests_fail)) (header checkout))).
  { apply passesb_sound. vm_compute. reflexivity. }
  assert (H3 : step_func (mkStep "Tests" (run_tests tests_fail true))
                 (run_all (take 4 (steps_on tests_fail)) (header checkout))
               = (Ok false,
                  (run_tests tests_fail true
                     (run_all (take 4 (steps_on tests_fail))
                        (header checkout))).2)).
  { apply pair_of_fst. vm_compute. reflexivity. }
  split; [split; assumption|].
  destruct (proj2 (build_info_only_after_success tests_fail "Linux" "x86_64"
                     utc_now path_str size_mb json_dumps os_error_str checkout)
              4%nat _ _ _ _ H1 H2 H3) as (Hr & Hrec & _).
  { discriminate. }
  split; [exact Hr|exact Hrec].
Defined.

(** A build for windows/amd64 on a host where the compiler works. *)
Lemma artifact_named_by_platform_witness :
  (build_for_platform friendly path_str size_mb os_error_str "windows" "amd64" checkout).1
    = Ok true
  /\
  (let w' := (build_for_platform friendly path_str size_mb os_error_str
                "windows" "amd64" checkout).2 in
   platform_binary_name "windows" "amd64" = "shoal-windows-amd64.exe" /\
   is_Some (fs w' !! ["build"; "shoal-windows-amd64.exe"]) /\
   spawns (trace w') =
     [["go"; "build"; "-ldflags"; "-s -w -extldflags=-static";
       "-tags"; "netgo,osusergo";
       "-o"; "/repo/build/shoal-windows-amd64.exe"; "./cmd/shoal"]]).
Proof.
  assert (H : (build_for_platform friendly path_str size_mb os_error_str
                 "windows" "amd64" checkout).1 = Ok true)
    by (vm_compute; reflexivity).
  split; [exact H|].
  destruct (artifact_named_by_platform friendly path_str size_mb os_error_str
              "windows" "amd64" checkout _ (pair_of_fst _ _ H))
    as (Hthere & Hsp & _).
  split; [reflexivity|]. split; [exact Hthere|exact Hsp].
Defined.

(** The matrix on a host where the compiler fails for windows/amd64: all
    five targets are attempted, in order, and the result is [False].
    And on a host where [go] is there but may not be executed: the first
    build raises, and so does the matrix. *)
Lemma build_all_platforms_attempts_all_witness :
  (spawn_keeps windows_fails build_dir_free /\
   compiler_starts windows_fails path_str /\
   build_dir_free (fs checkout))
  /\
  (exists (oks : list bool) (w' : World),
      attempts windows_fails path_str size_mb os_error_str SUPPORTED_PLATFORMS
        (print_header "Building for all supported platforms" checkout).2
        oks w' /\
      outcomes windows_fails path_str size_mb os_error_str SUPPORTED_PLATFORMS
        (print_header "Building for all supported platforms" checkout).2
        = map Ok oks /\
      build_all_platforms windows_fails path_str size_mb os_error_str checkout
        = (Ok (forallb id oks), w') /\
      spawns (trace w') =
        map (fun t => go_build_cmd path_str (artifact_path t.1 t.2))
          SUPPORTED_PLATFORMS)
  /\
  outcomes windows_fails path_str size_mb os_error_str SUPPORTED_PLATFORMS
    (print_header "Building for all supported platforms" checkout).2
    = [Ok true; Ok false; Ok true; Ok true; Ok true]
  /\
  (build_all_platforms go_denied path_str size_mb os_error_str checkout).1
    = Raise (Exn PermissionError "[Errno 13] Permission denied: 'go'").
Proof.
  assert (H1 : spawn_keeps windows_fails build_dir_free)
    by apply host_keeps_build_dir_free.
  assert (H2 : compiler_starts windows_fails path_str)
    by apply host_compiler_starts.
  assert (H3 : build_dir_free (fs checkout)).
  { intros c. vm_compute. discriminate. }
  split; [repeat split; assumption|]. split; [|split].
  - destruct (proj1 (build_all_platforms_attempts_all windows_fails path_str
                       size_mb os_error_str checkout) H1 H2 H3)
      as (oks & w' & Hatt & Hout & _ & Hrun & _ & Hsp).
    exists oks, w'. split; [exact Hatt|].
    split; [exact Hout|]. split; [exact Hrun|exact Hsp].
  - vm_compute. reflexivity.
  - destruct (proj2 (build_all_platforms_attempts_all go_denied path_str
                       size_mb os_error_str checkout)
                [] (tail SUPPORTED_PLATFORMS) "linux" "amd64" []
                (print_header "Building for all supported platforms"
                   checkout).2
                (build_for_platform go_denied path_str size_mb os_error_str
                   "linux" "amd64"
                   (print_header "Building for all supported platforms"
                      checkout).2).2
                (Exn PermissionError "[Errno 13] Permission denied: 'go'")
                eq_refl eq_refl) as [Hraise _].
    { apply pair_of_fst. vm_compute. reflexivity. }
    rewrite Hraise. reflexivity.
Defined.

(** C3, against the claim as stated: two runs of the matrix in which
    different targets fail return the same value, the bare [False], so
    what is returned is no map of results by target; where the name of
    the build directory is taken by a regular file the first build
    raises, and no target is attempted at all; and where the compiler
    may not be executed the first build raises as well, and no other
    target is attempted. *)
Lemma build_all_platforms_returns_no_map :
  (build_all_platforms windows_fails path_str size_mb os_error_str
     checkout).1 = Ok false /\
  (build_all_platforms linux_fails path_str size_mb os_error_str
     checkout).1 = Ok false /\
  outcomes windows_fails path_str size_mb os_error_str SUPPORTED_PLATFORMS
    (print_header "Building for all supported platforms" checkout).2
    = [Ok true; Ok false; Ok true; Ok true; Ok true] /\
  outcomes linux_fails path_str size_mb os_error_str SUPPORTED_PLATFORMS
    (print_header "Building for all supported platforms" checkout).2
    = [Ok false; Ok true; Ok true; Ok true; Ok true] /\
  (build_all_platforms friendly path_str size_mb os_error_str blocked).1
    = Raise (Exn FileExistsError "[Errno 17] File exists: '/repo/build'") /\
  spawns (trace (build_all_platforms friendly path_str size_mb os_error_str
                   blocked).2)
    = [] /\
  (build_all_platforms go_denied path_str size_mb os_error_str checkout).1
    = Raise (Exn PermissionError "[Errno 13] Permission denied: 'go'") /\
  spawns (trace (build_all_platforms go_denied path_str size_mb os_error_str
                   checkout).2)
    = [go_build_cmd path_str (artifact_path "linux" "amd64")].
Proof. vm_compute. repeat split; reflexivity. Qed.

(** C2, at the failing input: a build for windows/amd64 from an
    environment that names no target starts the compiler with that very
    environment; the child has no GOOS and no GOARCH, where the copy made
    for it has "windows" and "amd64". *)
Lemma build_for_platform_drops_target_env :
  let w' := (build_for_platform friendly path_str size_mb os_error_str
               "windows" "amd64" checkout).2 in
  child_envs (trace w') = [environ checkout] /\
  environ checkout !! "GOOS" = None /\
  environ checkout !! "GOARCH" = None /\
  (<["GOARCH" := "amd64"]> (<["GOOS" := "windows"]> (environ checkout)))
    !! "GOOS" = Some "windows" /\
  (build_for_platform friendly path_str size_mb os_error_str
     "windows" "amd64" checkout).1 = Ok true.
Proof. vm_compute. repeat split; reflexivity. Qed.

Lemma checkout_nothing_to_remove : nothing_to_remove "Linux" (fs checkout).
Proof.
  split; [reflexivity|]. split; [reflexivity|].
  intros pattern p n Hin Hp.
  change (({[ ["go.mod"] := File "module shoal" ]} : gmap path node) !! p
          = Some n) in Hp.
  apply lookup_singleton_Some in Hp as [<- <-].
  unfold test_artifacts in Hin.
  repeat (apply elem_of_cons in Hin as [->|Hin]);
    try (vm_compute; discriminate).
  inversion Hin.
Qed.

(** A tree with a build directory, a binary and test artifacts, cleaned
    twice; and a checkout with nothing to remove. *)
Lemma clean_idempotent_witness :
  (clean "Linux" os_error_str dirty).1 = Ok true /\
  fs (clean "Linux" os_error_str (clean "Linux" os_error_str dirty).2).2 = fs (clean "Linux" os_error_str dirty).2 /\
  (clean "Linux" os_error_str (clean "Linux" os_error_str dirty).2).1 = Ok true /\
  nothing_to_remove "Linux" (fs checkout) /\
  (clean "Linux" os_error_str checkout).1 = Ok true /\
  fs (clean "Linux" os_error_str checkout).2 = fs checkout.
Proof.
  assert (H : (clean "Linux" os_error_str dirty).1 = Ok true) by (vm_compute; reflexivity).
  destruct (clean_idempotent "Linux" os_error_str dirty) as (Hfs & _ & Hok & _).
  destruct (clean_idempotent "Linux" os_error_str checkout) as (_ & _ & _ & Hnothing).
  destruct (Hnothing checkout_nothing_to_remove) as [Hc Hf].
  split; [exact H|]. split; [exact Hfs|]. split; [exact (Hok H)|].
  split; [exact checkout_nothing_to_remove|]. split; [exact Hc|exact Hf].
Defined.

End Runs.

(** ** Further runs: the command line, the steps, the record, cleaning *)

Module MoreRuns.

Import Scenario.

Definition friendly := host [] nothing_fails.
Definition no_go := host ["go"] nothing_fails.

(** [main] on a host. *)
Definition main_on (h : World -> list string -> path -> gmap string string
                        -> spawn_outcome) : string -> option string -> M unit :=
  main h "Linux" "x86_64" utc_now path_str size_mb json_dumps os_error_str elapsed_str.

Definition dispatch_on (h : World -> list string -> path
                            -> gmap string string -> spawn_outcome)
    : string -> option string -> M bool :=
  dispatch h "Linux" "x86_64" utc_now path_str size_mb json_dumps os_error_str.

Lemma with_final_world {A B} (p : A * B) (a : A) : p.1 = a -> p = (a, p.2).
Proof. intros <-. destruct p; reflexivity. Qed.

(** On a host where every command exits with 0: [validate] ends with
    status 0, a command that the parser does not know with status 2, and
    [build] with the name of the build directory taken with status 1. *)
Lemma main_exit_status_witness :
  (forall w args cwd env e fs',
      friendly w args cwd env = Faulted e fs' ->
      exn_class_of e <> SystemExit)
  /\
  (main_on friendly "validate" None checkout).1 = Raise (Exn SystemExit "0") /\
  (main_on friendly "bogus" None checkout).1 = Raise (Exn SystemExit "2") /\
  (main_on friendly "build" None blocked).1 = Raise (Exn SystemExit "1").
Proof.
  assert (H : forall w args cwd env e fs',
             friendly w args cwd env = Faulted e fs' ->
             exn_class_of e <> SystemExit).
  { intros w args cwd env e fs' Hf. exfalso.
    exact (Runs.host_never_faults _ _ _ _ _ _ _ _ Hf). }
  split; [exact H|]. unfold main_on.
  rewrite !(main_exit_status friendly "Linux" "x86_64" utc_now path_str
              size_mb json_dumps os_error_str elapsed_str _ _ _ H).
  vm_compute. repeat split; reflexivity.
Defined.

(** [build --platform linux]: the argument holds no "/". *)
Lemma main_refuses_platform_witness :
  (Py.truthy "linux" = true /\ count_char "/" "linux" <> 1%nat)
  /\
  main_on friendly "build" (Some "linux") checkout =
    (Raise (Exn SystemExit "1"),
     emit (Printed (error_line
             "--platform must be in the form os/arch, e.g., linux/amd64"))
       checkout).
Proof.
  assert (H1 : Py.truthy "linux" = true) by reflexivity.
  assert (H2 : count_char "/" "linux" <> 1%nat) by (vm_compute; discriminate).
  split; [split; assumption|].
  exact (main_refuses_platform friendly "Linux" "x86_64" utc_now path_str
           size_mb json_dumps os_error_str elapsed_str "linux" checkout H1 H2).
Defined.

(** [coverage] on a host without Go: the check fails, and [go version]
    is all that is started. *)
Lemma dispatch_stops_at_prerequisites_witness :
  ("coverage" ∈ gated /\
   (check_prerequisites no_go checkout).1 <> Ok true)
  /\
  dispatch_on no_go "coverage" None checkout = check_prerequisites no_go checkout
  /\
  (dispatch_on no_go "coverage" None checkout).1 = Ok false /\
  spawns (trace (dispatch_on no_go "coverage" None checkout).2)
    = [["go"; "version"]].
Proof.
  assert (H1 : "coverage" ∈ gated) by (unfold gated; repeat constructor).
  assert (H2 : (check_prerequisites no_go checkout).1 <> Ok true)
    by (vm_compute; discriminate).
  split; [split; assumption|]. split.
  - exact (dispatch_stops_at_prerequisites no_go "Linux" "x86_64" utc_now
             path_str size_mb json_dumps os_error_str "coverage" None checkout H1
             (or_introl eq_refl) H2).
  - vm_compute. split; reflexivity.
Defined.

(** The record of a build in a repository, on the branch main. *)
Definition recorded : BuildInfo :=
  {| bi_timestamp := "2025-01-01 00:00:00 UTC";
     bi_go_version := "go version go1.22.0 linux/amd64";
     bi_git_commit := "01234567";
     bi_git_branch := "main";
     bi_git_dirty := false;
     bi_platform := "Linux";
     bi_architecture := "x86_64" |}.

Definition record_on (w : World) : result BuildInfo * World :=
  generate_build_info friendly "Linux" "x86_64" utc_now json_dumps os_error_str w.

Lemma record_on_dirty : record_on dirty = (Ok recorded, (record_on dirty).2).
Proof. apply with_final_world. vm_compute. reflexivity. Qed.

Lemma generate_build_info_written_witness :
  record_on dirty = (Ok recorded, (record_on dirty).2)
  /\
  fs (record_on dirty).2 !! build_info_path = Some (File (json_dumps recorded))
  /\
  spawns (trace (record_on dirty).2) =
    [ ["git"; "rev-parse"; "HEAD"]; ["git"; "branch"; "--show-current"];
      ["git"; "status"; "--porcelain"]; ["go"; "version"] ].
Proof.
  split; [exact record_on_dirty|].
  destruct (generate_build_info_written friendly "Linux" "x86_64" utc_now
              json_dumps os_error_str dirty _ recorded record_on_dirty)
    as (Hfile & _ & _ & _ & Hsp).
  split; [exact Hfile|exact Hsp].
Defined.

Lemma build_info_fields_witness :
  record_on dirty = (Ok recorded, (record_on dirty).2)
  /\
  (String.length (bi_git_commit recorded) <= 8)%nat /\
  Py.strip (bi_git_branch recorded) = bi_git_branch recorded /\
  Py.strip (bi_go_version recorded) = bi_go_version recorded.
Proof.
  split; [exact record_on_dirty|].
  destruct (build_info_fields friendly "Linux" "x86_64" utc_now
              json_dumps os_error_str dirty _ recorded record_on_dirty)
    as (Hlen & _ & Hbranch & Hversion & _).
  split; [exact Hlen|]. split; [exact Hbranch|exact Hversion].
Defined.

(** Cleaning the tree [dirty]: the database file below [internal] goes,
    the directory named like a database stays. *)
Lemma clean_removes_exactly_witness :
  (clean "Linux" os_error_str dirty).1 = Ok true
  /\
  (fs (clean "Linux" os_error_str dirty).2 !! ["internal"; "store.db"] = Some (File "db")
   <->
   fs dirty !! ["internal"; "store.db"] = Some (File "db") /\
   ~ (is_Some (fs dirty !! build_dir)
      /\ below build_dir ["internal"; "store.db"]) /\
   ["internal"; "store.db"] <> root_binary "Linux" /\
   ~ (exists content name,
         File "db" = File content /\
         last ["internal"; "store.db"] = Some name /\
         is_test_artifact name))
  /\
  fs (clean "Linux" os_error_str dirty).2 !! ["internal"; "store.db"] = None /\
  fs (clean "Linux" os_error_str dirty).2 !! ["internal"; "cache.db"] = Some Dir.
Proof.
  assert (H : (clean "Linux" os_error_str dirty).1 = Ok true) by (vm_compute; reflexivity).
  split; [exact H|]. split.
  - exact (clean_removes_exactly "Linux" os_error_str dirty H
             ["internal"; "store.db"] (File "db")).
  - vm_compute. split; reflexivity.
Defined.

(** [main] on concrete command lines. *)
Example main_validate_exits_0 :
  (main_on friendly "validate" None checkout).1 = Raise (Exn SystemExit "0").
Proof. vm_compute. reflexivity. Qed.

Example main_build_blocked_exits_1 :
  (main_on friendly "build" None blocked).1 = Raise (Exn SystemExit "1") /\
  spawns (trace (main_on friendly "build" None blocked).2)
    = [["go"; "version"]; ["go"; "mod"; "download"]; ["go"; "mod"; "verify"]].
Proof. vm_compute. split; reflexivity. Qed.

(** The binary that the compiler wrote is no program of the host: the
    execution test raises out of [build_binary], after the line that
    tells that the binary is built, and [main] ends with status 1. *)
Definition cross_host := foreign ["/repo/build/shoal"] friendly.

Example build_binary_exec_format :
  (build_binary cross_host "Linux" path_str size_mb os_error_str checkout).1
    = Raise (Exn OSError "[Errno 8] Exec format error: '/repo/build/shoal'") /\
  is_Some (fs (build_binary cross_host "Linux" path_str size_mb os_error_str
                 checkout).2 !! ["build"; "shoal"]) /\
  last (trace (build_binary cross_host "Linux" path_str size_mb os_error_str
                 checkout).2)
    = Some (Spawned ["/repo/build/shoal"; "-h"] root_dir (environ checkout)) /\
  (main_on cross_host "build" None checkout).1 = Raise (Exn SystemExit "1").
Proof.
  split; [vm_compute; reflexivity|]. split; [vm_compute; eauto|].
  split; vm_compute; reflexivity.
Qed.

(** The user interrupts the probe for gosec: [main] catches the
    interrupt and ends with status 1; no record is written. *)
Example main_interrupted :
  (main_on (interrupted ["gosec"] friendly) "validate" None checkout).1
    = Raise (Exn SystemExit "1") /\
  records (trace (main_on (interrupted ["gosec"] friendly) "validate" None
                    checkout).2) = [].
Proof. vm_compute. split; reflexivity. Qed.

Example main_cross_build :
  (main_on friendly "build" (Some "windows/amd64") checkout).1
    = Raise (Exn SystemExit "0") /\
  is_Some (fs (main_on friendly "build" (Some "windows/amd64") checkout).2
             !! ["build"; "shoal-windows-amd64.exe"]).
Proof. split; [vm_compute; reflexivity|]. vm_compute. eauto. Qed.

End MoreRuns.
